(** * Rufus: servo command channel, gestures and idle animation

    A shallow embedding of the hardware-facing code of the Rufus robot.

    - [config.py]: module [Config].
    - [src/arduino_controller.py]: module [ArduinoController], over the
      serial port of module [Serial].
    - [src/gesture_controller.py]: the gestures and [perform_gesture] in
      module [Gestures], the idle-animation thread with its start and stop in
      module [GestureController].
    - [src/emotion_detector.py]: module [EmotionDetector].
    - [src/conversation.py]: module [ConversationManager].
    - [src/rufus.py], class [RufusBot]: module [RufusBot].
    - [rufus.py], the stand-alone script: module [Rufus].
    - [pi_api_server.py]: module [PiServer].

    Angles are Python integers ([Z]).  The serial port is a record that keeps
    what was written to the wire.  Functions that touch the port thread their
    state explicitly and return a Python result: a value, or an exception
    that propagates.  A gesture is the list of hardware calls its method body
    makes.  The idle-animation threads are state machines observed where they
    block, advanced by a clock whose unit is the 100ms slice of the script's
    idle loop; between two slices the main thread acts.  The random module is
    a stream of raw draws, each folded into the range the call asks for.

    Text is a [string]; [str.lower] and [str.strip] are parameters of the
    functions that call them, and so is the chat completion of the OpenAI
    client, which answers a list of messages with a text or raises.  Python
    floats are the binary64 floats of [PrimFloat]. *)

From Stdlib Require Import ZArith List String Ascii Bool Lia DecimalString.
From Stdlib Require Import Floats Uint63.
Import ListNotations.
Local Open Scope string_scope.
Local Open Scope Z_scope.

(** ** Python values used by the code *)

Module Py.

(** [str(n)] / [f"{n}"] for an integer. *)
Definition str (n : Z) : string := NilZero.string_of_int (Z.to_int n).

(** The newline character of [f"{command}\n"]. *)
Definition nl : string := String (ascii_of_nat 10) EmptyString.

(** A dict with string keys, in insertion order. *)
Definition dict (V : Type) := list (string * V).

Fixpoint get {V} (k : string) (d : dict V) : option V :=
  match d with
  | [] => None
  | (k', v) :: d' => if String.eqb k k' then Some v else get k d'
  end.

(** [k in d] *)
Definition mem {V} (k : string) (d : dict V) : bool :=
  match get k d with Some _ => true | None => false end.

(** [list(d.keys())] *)
Definition keys {V} (d : dict V) : list string := map fst d.

(** The random module.  Every call consumes one raw draw [r]; the value
    returned is the draw folded into the requested range, so every value the
    library can return is reached and no other. *)
Definition choice {A} (dflt : A) (l : list A) (r : nat) : A :=
  nth (r mod List.length l)%nat l dflt.

Definition randint (a b : Z) (r : nat) : Z := a + Z.of_nat r mod (b - a + 1).

(** [int(random.uniform(a, b) * 10)]: the number of 100ms slices in an
    interval drawn between [a] and [b] seconds. *)
Definition uniform_slices (a b : nat) (r : nat) : nat :=
  (10 * a + r mod (10 * (b - a) + 1))%nat.

(** The raw draws one pass of an idle loop may consume. *)
Record draws := { interval_draw : nat; servo_draw : nat; offset_draw : nat }.

(** [time.sleep] durations are counted in 100ms slices. *)
Definition slices (ms : nat) : nat := (ms / 100)%nat.

(** [sub in s] for two strings. *)
Fixpoint contains (sub s : string) : bool :=
  String.prefix sub s
  || match s with
     | EmptyString => false
     | String _ s' => contains sub s'
     end.

(** [any(word in s for word in words)] *)
Definition any_in (words : list string) (s : string) : bool :=
  existsb (fun word => contains word s) words.

(** [sum(1 for word in words if word in s)] *)
Definition count_in (words : list string) (s : string) : nat :=
  List.length (filter (fun word => contains word s) words).

(** [l[-n:]]; [l[-0:]] is the whole list. *)
Definition suffix {A} (n : nat) (l : list A) : list A :=
  match n with
  | O => l
  | S _ => skipn (List.length l - n) l
  end.

(** [l.pop(i)] for [i >= 0]: what is left of the list, [None] for the
    [IndexError] of an index out of range. *)
Definition pop {A} (i : nat) (l : list A) : option (list A) :=
  if (i <? List.length l)%nat then Some (firstn i l ++ skipn (S i) l)%list
  else None.

(** [x or y] for a string that may be [None]. *)
Definition or_else (x : option string) (y : string) : string :=
  match x with
  | Some s => if String.eqb s "" then y else s
  | None => y
  end.

(** [str.lower] is a parameter of the functions that call it; on ASCII text
    it is this function. *)
Definition lower_ascii_char (c : ascii) : ascii :=
  let n := nat_of_ascii c in
  if ((65 <=? n) && (n <=? 90))%nat then ascii_of_nat (n + 32) else c.

Fixpoint lower_ascii (s : string) : string :=
  match s with
  | EmptyString => EmptyString
  | String c s' => String (lower_ascii_char c) (lower_ascii s')
  end.

(** A [str] that was decoded from bytes is the list of its code points. *)
Definition code_points (s : string) : list N :=
  map N_of_ascii (list_ascii_of_string s).

(** A continuation byte of UTF-8, [0x80] to [0xBF]. *)
Definition continuation (b : N) : bool := ((128 <=? b) && (b <=? 191))%N.

(** The code points of a well-formed UTF-8 byte sequence: no overlong form,
    no surrogate, nothing above [U+10FFFF], no truncated sequence. *)
Fixpoint decode_utf8 (l : list N) : option (list N) :=
  let more (cp : N) (rest : option (list N)) :=
    match rest with
    | Some cps => Some (cp :: cps)
    | None => None
    end in
  match l with
  | [] => Some []
  | b0 :: l1 =>
      if (b0 <? 128)%N then more b0 (decode_utf8 l1)
      else if ((194 <=? b0) && (b0 <=? 223))%N then
        match l1 with
        | b1 :: l2 =>
            if continuation b1
            then more ((b0 - 192) * 64 + (b1 - 128))%N (decode_utf8 l2)
            else None
        | _ => None
        end
      else if ((224 <=? b0) && (b0 <=? 239))%N then
        match l1 with
        | b1 :: b2 :: l3 =>
            let cp := ((b0 - 224) * 4096 + (b1 - 128) * 64 + (b2 - 128))%N in
            if continuation b1 && continuation b2
               && (2048 <=? cp)%N
               && negb ((55296 <=? cp) && (cp <=? 57343))%N
            then more cp (decode_utf8 l3)
            else None
        | _ => None
        end
      else if ((240 <=? b0) && (b0 <=? 244))%N then
        match l1 with
        | b1 :: b2 :: b3 :: l4 =>
            let cp := ((b0 - 240) * 262144 + (b1 - 128) * 4096
                       + (b2 - 128) * 64 + (b3 - 128))%N in
            if continuation b1 && continuation b2 && continuation b3
               && (65536 <=? cp)%N && (cp <=? 1114111)%N
            then more cp (decode_utf8 l4)
            else None
        | _ => None
        end
      else None
  end.

(** [line.decode('utf-8')] for the bytes of a line: [None] for the
    [UnicodeDecodeError]. *)
Definition decode (line : string) : option (list N) :=
  decode_utf8 (code_points line).

(** The characters [str.strip()] removes: those [str.isspace] holds of. *)
Definition isspace (cp : N) : bool :=
  (((9 <=? cp) && (cp <=? 13))
   || ((28 <=? cp) && (cp <=? 32))
   || (cp =? 133) || (cp =? 160) || (cp =? 5760)
   || ((8192 <=? cp) && (cp <=? 8202))
   || (cp =? 8232) || (cp =? 8233) || (cp =? 8239) || (cp =? 8287)
   || (cp =? 12288))%N.

Fixpoint lstrip (s : list N) : list N :=
  match s with
  | cp :: s' => if isspace cp then lstrip s' else s
  | [] => []
  end.

(** [s.strip()] *)
Definition strip (s : list N) : list N := rev (lstrip (rev (lstrip s))).

(** [s.startswith(prefix)] *)
Fixpoint startswith (prefix s : list N) : bool :=
  match prefix, s with
  | [], _ => true
  | c :: prefix', d :: s' => (c =? d)%N && startswith prefix' s'
  | _ :: _, [] => false
  end.

(** What a call evaluates to: a value, or an exception that propagates. *)
Inductive exn := SerialException | OtherException.

Inductive result (A : Type) :=
| Return (a : A)
| Raise (e : exn).
Arguments Return {A} a.
Arguments Raise {A} e.

(** Code that mutates an object of type [S]. *)
Definition M (S A : Type) := S -> result A * S.

Definition ret {S A} (a : A) : M S A := fun s => (Return a, s).

Definition bind {S A B} (m : M S A) (k : A -> M S B) : M S B :=
  fun s => match m s with
           | (Return a, s') => k a s'
           | (Raise e, s') => (Raise e, s')
           end.

(** [time.sleep] changes no object; the threads below account for time. *)
Definition sleep {S} (ms : nat) : M S unit := ret tt.

End Py.

(** ** A chat request *)

Module Chat.

(** One message: [{"role": role, "content": content}]. *)
Record message := mk { role : string; content : string }.

End Chat.

Notation "x <- m ;; k" := (Py.bind m (fun x => k))
  (at level 61, m at next level, right associativity).
Notation "m ;; k" := (Py.bind m (fun _ => k))
  (at level 61, right associativity).

(** ** config.py *)

Module Config.

Definition SERVO_PINS : Py.dict Z :=
  [("head", 9); ("left_arm", 10); ("right_arm", 8)].

Definition SERVO_RANGES : Py.dict (Z * Z) :=
  [("head", (40, 120)); ("left_arm", (0, 80)); ("right_arm", (90, 180))].

Definition SERVO_HOME_POSITIONS : Py.dict Z :=
  [("head", 80); ("left_arm", 40); ("right_arm", 135)].

Definition IDLE_ANIMATION_INTERVAL_MIN : nat := 8.
Definition IDLE_ANIMATION_INTERVAL_MAX : nat := 15.

Definition MAX_CONVERSATION_TURNS : nat := 10.

Definition SYSTEM_PROMPT : string :=
  "You are Rufus, a friendly and expressive AI robot companion. You have physical form with servos that allow you to gesture and move.

Key traits:
- Friendly, curious, and helpful
- Use natural, conversational language
- Show personality with warmth and occasional humor
- Keep responses concise (2-3 sentences typically)
- You can express emotions through gestures: nodding for yes, shaking for no, and natural movements

You love chatting about technology, science, everyday life, and helping your human companion. You're currently a prototype robot running on a Mac laptop with an Arduino body, but you'll soon migrate to a Raspberry Pi for full independence.".

Definition EMOTION_KEYWORDS : Py.dict (list string) :=
  [("happy", ["happy"; "great"; "awesome"; "excited"; "love"; "wonderful";
              "fantastic"]);
   ("sad", ["sad"; "sorry"; "bad"; "terrible"; "unhappy"; "upset"]);
   ("curious", ["curious"; "wonder"; "how"; "why"; "what"; "interesting"]);
   ("surprised", ["wow"; "really"; "amazing"; "incredible"; "surprising";
                  "shocking"]);
   ("thinking", ["hmm"; "let me think"; "interesting question"; "well"])].

End Config.

(** ** The serial port (pyserial's [serial.Serial]) *)

Module Serial.

(** [written] is what reached the wire, one entry per [write] call;
    [in_waiting] the lines received and not yet read; [respond] what the
    device answers to a line; [fault] makes every [write] raise (a pulled
    cable, a reset device). *)
Record port := mk {
  is_open : bool;
  fault : option Py.exn;
  written : list string;
  in_waiting : list string;
  respond : string -> list string
}.

(** A device that is attached, silent and healthy. *)
Definition fresh : port := mk true None [] [] (fun _ => []).

(** An open port whose device has gone: every write raises. *)
Definition unplugged : port := mk true (Some Py.SerialException) [] [] (fun _ => []).

(** [serial.Serial(port, ...)]: [None] when no device can be opened. *)
Definition Serial (hw : option port) : Py.exn + port :=
  match hw with
  | Some p => inr (mk true (fault p) (written p) (in_waiting p) (respond p))
  | None => inl Py.SerialException
  end.

(** [port.write(data)] followed by the device's answer arriving.  Writing
    to a closed port raises [PortNotOpenError], a [SerialException]. *)
Definition write (data : string) (p : port) : Py.exn + port :=
  if negb (is_open p) then inl Py.SerialException
  else match fault p with
       | Some e => inl e
       | None => inr (mk true None (written p ++ [data])%list
                         (in_waiting p ++ respond p data)%list (respond p))
       end.

(** [port.readline()] on a non-empty input buffer. *)
Definition readline (p : port) : string * port :=
  match in_waiting p with
  | [] => ("", p)
  | l :: rest => (l, mk (is_open p) (fault p) (written p) rest (respond p))
  end.

(** [while port.in_waiting: port.read_until(b"\n")] *)
Definition drain (p : port) : port :=
  mk (is_open p) (fault p) (written p) [] (respond p).

Definition close (p : port) : port :=
  mk false (fault p) (written p) (in_waiting p) (respond p).

(** The port accepts writes. *)
Definition writable (p : port) : Prop := is_open p = true /\ fault p = None.

End Serial.

(** ** src/arduino_controller.py *)

Module ArduinoController.

Record t := mk { connection : option Serial.port }.

(** [_connect]: a failed open leaves [connection = None] (simulation mode). *)
Definition _connect (hw : option Serial.port) : t :=
  match Serial.Serial hw with
  | inr p => mk (Some p)
  | inl _ => mk None
  end.

(** What the wire has carried so far. *)
Definition wire (self : t) : list string :=
  match connection self with
  | Some p => Serial.written p
  | None => []
  end.

Definition send_command (command : string) : Py.M t bool :=
  fun self =>
    match connection self with
    | None => (Py.Return true, self)
    | Some p =>
        match Serial.write (command ++ Py.nl) p with
        | inr p' => (Py.Return true, mk (Some p'))
        | inl Py.SerialException => (Py.Return false, self)
        | inl e => (Py.Raise e, self)
        end
    end.

Definition gesture_yes : Py.M t unit := send_command "yes" ;; Py.ret tt.
Definition gesture_no : Py.M t unit := send_command "no" ;; Py.ret tt.
Definition gesture_neutral : Py.M t unit := send_command "neutral" ;; Py.ret tt.

Definition move_servo (servo : string) (angle : Z) : Py.M t bool :=
  if negb (Py.mem servo Config.SERVO_PINS) then Py.ret false
  else
    let command := servo ++ "_" ++ Py.str angle in
    send_command command.

(** The hardware calls a method body makes, in program order: gestures are
    straight-line sequences of these. *)
Inductive call :=
| Send (command : string)          (* self.send_command(command) *)
| Move (servo : string) (angle : Z) (* self.move_servo(servo, angle) *)
| Sleep (ms : nat).                (* time.sleep(ms / 1000) *)

Definition exec (c : call) : Py.M t unit :=
  match c with
  | Send command => send_command command ;; Py.ret tt
  | Move servo angle => move_servo servo angle ;; Py.ret tt
  | Sleep ms => Py.sleep ms
  end.

Fixpoint run (body : list call) : Py.M t unit :=
  match body with
  | [] => Py.ret tt
  | c :: rest => exec c ;; run rest
  end.

(** [for servo, angle in SERVO_HOME_POSITIONS.items(): move_servo(...)] *)
Definition set_home_position : Py.M t unit :=
  run (map (fun '(servo, angle) => Move servo angle)
           Config.SERVO_HOME_POSITIONS).

(** The servo and the angle [natural_movement] picks, each from one draw. *)
Definition natural_servo (r : nat) : string :=
  Py.choice "" (Py.keys Config.SERVO_PINS) r.

Definition home (servo : string) : Z :=
  match Py.get servo Config.SERVO_HOME_POSITIONS with
  | Some a => a
  | None => 0
  end.

Definition natural_angle (servo : string) (r : nat) : Z :=
  let current_angle := home servo in
  let new_angle := current_angle + Py.randint (-15) 15 r in
  Z.max 0 (Z.min 180 new_angle).

Definition natural_movement_body (r1 r2 : nat) : list call :=
  let servo := natural_servo r1 in
  let current_angle := home servo in
  let new_angle := natural_angle servo r2 in
  [Move servo new_angle; Sleep 500; Move servo current_angle].

Definition natural_movement (r1 r2 : nat) : Py.M t unit :=
  run (natural_movement_body r1 r2).

Definition disconnect : Py.M t unit :=
  fun self =>
    match connection self with
    | Some p => if Serial.is_open p
                then (Py.Return tt, mk (Some (Serial.close p)))
                else (Py.Return tt, self)
    | None => (Py.Return tt, self)
    end.

(** An entry of [serial.tools.list_ports.comports()]. *)
Record ListPortInfo := { device : string; description : string }.

Section Detect.

Variable lower : string -> string.

(** The condition of the list comprehension in [_detect_port]. *)
Definition arduino_port (p : ListPortInfo) : bool :=
  Py.contains "Arduino" (description p)
  || Py.contains "CH340" (description p)
  || Py.contains "usbserial" (lower (device p))
  || Py.contains "cu.usb" (device p).

Definition _detect_port (comports : list ListPortInfo) (preferred_port : string)
  : string :=
  let ports := comports in
  let arduino_ports := map device (filter arduino_port ports) in
  match arduino_ports with
  | detected :: _ => detected
  | [] => preferred_port
  end.

End Detect.

End ArduinoController.

(** ** src/gesture_controller.py: the gestures *)

Module Gestures.

Import ArduinoController.

Definition gesture_yes : list call := [Send "yes"].
Definition gesture_no : list call := [Send "no"].
Definition gesture_neutral : list call := [Send "neutral"].

Definition gesture_head_tilt : list call :=
  [Move "head" 100; Sleep 1000; Move "head" 80].

Definition gesture_thinking : list call :=
  [Move "head" 70; Sleep 500; Move "head" 90; Sleep 500; Move "head" 80].

Definition gesture_wave : list call :=
  let angles := [135; 150; 135; 150; 135] in
  flat_map (fun angle => [Move "right_arm" angle; Sleep 200]) angles.

Definition gesture_excited : list call :=
  flat_map (fun _ : nat =>
              [Move "left_arm" 60; Move "right_arm" 150; Sleep 200;
               Move "left_arm" 40; Move "right_arm" 135; Sleep 200])
           (seq 0 3).

(** The dict of [perform_gesture]; the two draws feed [natural_movement]. *)
Definition gestures (r1 r2 : nat) : Py.dict (list call) :=
  [("yes", gesture_yes);
   ("no", gesture_no);
   ("neutral", gesture_neutral);
   ("head_tilt", gesture_head_tilt);
   ("thinking", gesture_thinking);
   ("wave", gesture_wave);
   ("excited", gesture_excited);
   ("natural_movement", natural_movement_body r1 r2)].

Definition perform_gesture (gesture_name : string) (r1 r2 : nat)
  : Py.M ArduinoController.t bool :=
  match Py.get gesture_name (gestures r1 r2) with
  | Some body => run body ;; Py.ret true
  | None => Py.ret false
  end.

(** Two threads inside [perform_gesture] at once.  Nothing in the class
    takes a lock, so the scheduler may switch threads between any two calls:
    [sched] says which thread runs its next call ([true] for the first).  A
    thread whose call raises dies; when the schedule runs out both run to
    the end, the first thread first. *)
Definition exec_next (body : list call) (arduino : t) : list call * t :=
  match body with
  | [] => ([], arduino)
  | c :: rest =>
      match exec c arduino with
      | (Py.Return _, arduino') => (rest, arduino')
      | (Py.Raise _, arduino') => ([], arduino')
      end
  end.

Fixpoint finish (body : list call) (arduino : t) : t :=
  match body with
  | [] => arduino
  | c :: rest =>
      match exec c arduino with
      | (Py.Return _, arduino') => finish rest arduino'
      | (Py.Raise _, arduino') => arduino'
      end
  end.

Fixpoint interleave (sched : list bool) (a b : list call) (arduino : t) : t :=
  match sched with
  | [] => finish b (finish a arduino)
  | true :: sched' =>
      let '(a', arduino') := exec_next a arduino in
      interleave sched' a' b arduino'
  | false :: sched' =>
      let '(b', arduino') := exec_next b arduino in
      interleave sched' a b' arduino'
  end.

(** The lines a body puts on a healthy wire. *)
Definition line_of (c : call) : list string :=
  match c with
  | Send command => [command ++ Py.nl]
  | Move servo angle =>
      if Py.mem servo Config.SERVO_PINS
      then [(servo ++ "_" ++ Py.str angle) ++ Py.nl]
      else []
  | Sleep _ => []
  end.

Definition lines_of (body : list call) : list string := flat_map line_of body.

Section Response.

Variable lower : string -> string.

(** The gesture [interpret_response_gesture] performs for a reply.  The
    draw [chance] decides [random.random() < 0.3]; [r1] and [r2] feed
    [natural_movement]. *)
Definition response_gesture (ai_response : string) (chance r1 r2 : nat)
  : list call :=
  let response_lower := lower ai_response in
  if Py.any_in ["yes"; "yeah"; "yep"; "absolutely"; "definitely"; "certainly"]
       response_lower
  then gesture_yes
  else if Py.any_in ["no"; "nope"; "not really"; "unfortunately"] response_lower
  then gesture_no
  else if Py.any_in ["hmm"; "interesting"; "let me think"; "i wonder"]
            response_lower
  then gesture_thinking
  else if Py.any_in ["wow"; "amazing"; "excited"; "great"; "awesome"]
            response_lower
  then gesture_excited
  else if (chance mod 10 <? 3)%nat then natural_movement_body r1 r2
  else [].

Definition interpret_response_gesture (ai_response : string)
           (chance r1 r2 : nat) : Py.M ArduinoController.t unit :=
  run (response_gesture ai_response chance r1 r2).

End Response.

End Gestures.

(** ** pi_api_server.py: servo commands and gesture sequences *)

Module PiServer.

Definition SERVO_PINS : Py.dict Z :=
  [("pan", 2); ("left_arm", 4); ("right_arm", 5)].

Definition GESTURES : Py.dict (list (string * Z)) :=
  [("wave",
    [("pan", 90); ("right_arm", 70); ("right_arm", 40);
     ("right_arm", 70); ("right_arm", 40); ("right_arm", 70);
     ("right_arm", 40); ("left_arm", 90); ("right_arm", 90)]);
   ("nod",
    [("pan", 105); ("pan", 75); ("pan", 105); ("pan", 75); ("pan", 90)]);
   ("shake",
    [("pan", 65); ("pan", 115); ("pan", 65); ("pan", 115); ("pan", 90)]);
   ("happy",
    [("left_arm", 170); ("right_arm", 170); ("pan", 75);
     ("pan", 105); ("pan", 75); ("pan", 105);
     ("left_arm", 90); ("right_arm", 90); ("pan", 90)]);
   ("sad",
    [("pan", 50); ("left_arm", 60); ("right_arm", 60);
     ("pan", 50); ("left_arm", 90); ("right_arm", 90); ("pan", 90)]);
   ("excited",
    [("left_arm", 170); ("right_arm", 170); ("pan", 60);
     ("pan", 120); ("left_arm", 90); ("right_arm", 90); ("pan", 90)]);
   ("curious",
    [("pan", 70); ("left_arm", 110); ("right_arm", 110);
     ("pan", 70); ("left_arm", 90); ("right_arm", 90); ("pan", 90)]);
   ("rest",
    [("pan", 90); ("left_arm", 90); ("right_arm", 90)])].

(** The global [arduino]: [None] after a failed [init_arduino]. *)
Definition t := option Serial.port.

Definition wire (arduino : t) : list string :=
  match arduino with
  | Some p => Serial.written p
  | None => []
  end.

(** Every exception is caught, so the result is always a boolean.  The
    line read is decoded and stripped before it is tested, and a line that
    does not decode raises inside the [try]. *)
Definition send_servo_command (pin angle : Z) (arduino : t) : bool * t :=
  match arduino with
  | None => (false, arduino)
  | Some p =>
      if negb (Serial.is_open p) then (false, arduino)
      else
        let command := Py.str pin ++ ":" ++ Py.str angle ++ Py.nl in
        match Serial.write command p with
        | inl _ => (false, arduino)
        | inr p' =>
            match Serial.in_waiting p' with
            | [] => (true, Some p')
            | _ :: _ =>
                let '(line, p'') := Serial.readline p' in
                match Py.decode line with
                | None => (false, Some p'')
                | Some decoded =>
                    let ack := Py.strip decoded in
                    (Py.startswith (Py.code_points "OK") ack, Some p'')
                end
            end
        end
  end.

Fixpoint run_sequence (sequence : list (string * Z)) (arduino : t) : t :=
  match sequence with
  | [] => arduino
  | (servo, angle) :: rest =>
      match Py.get servo SERVO_PINS with
      | Some pin =>
          if pin =? 0 then run_sequence rest arduino
          else run_sequence rest (snd (send_servo_command pin angle arduino))
      | None => run_sequence rest arduino
      end
  end.

Definition perform_gesture (gesture_name : string) (arduino : t) : bool * t :=
  match Py.get gesture_name GESTURES with
  | None => (false, arduino)
  | Some sequence => (true, run_sequence sequence arduino)
  end.

(** [execute_gesture(gesture)]; the gesture comes out of the model's JSON
    and may be [None]. *)
Definition execute_gesture (gesture : option string) (arduino : t) : t :=
  match gesture with
  | None => snd (perform_gesture "rest" arduino)
  | Some g =>
      if String.eqb g "" || String.eqb g "neutral"
      then snd (perform_gesture "rest" arduino)
      else if String.eqb g "yes" then snd (perform_gesture "nod" arduino)
      else if String.eqb g "no" then snd (perform_gesture "shake" arduino)
      else arduino
  end.

(** The [gesture_map] of [chat] and [voice_chat]. *)
Definition gesture_map : Py.dict string :=
  [("yes", "nod"); ("no", "shake"); ("neutral", "rest")].

(** [gesture_map.get(gesture, "rest")], the gesture the reply reports. *)
Definition reported_gesture (gesture : option string) : string :=
  match gesture with
  | None => "rest"
  | Some g => match Py.get g gesture_map with
              | Some name => name
              | None => "rest"
              end
  end.

(** [control_servo]: the [success] field of the reply, and the port. *)
Definition control_servo (servo : string) (angle : Z) (arduino : t)
  : bool * t :=
  match Py.get servo SERVO_PINS with
  | None => (false, arduino)
  | Some pin =>
      if pin =? 0 then (false, arduino)
      else send_servo_command pin angle arduino
  end.

Definition MAX_TURNS : nat := 10.

Definition add_to_memory (role content : string)
           (conversation_history : list Chat.message) : list Chat.message :=
  let conversation_history :=
    (conversation_history ++ [Chat.mk role content])%list in
  if (MAX_TURNS * 2 + 1 <? List.length conversation_history)%nat
  then Py.suffix (MAX_TURNS * 2 + 1) conversation_history
  else conversation_history.

End PiServer.

(** ** What the threads do, in the order it happens *)

Module Trace.

Inductive actor :=
| Main
| Idle (n : nat).   (* the n-th idle-animation thread spawned *)

Inductive event :=
| Call (who : actor) (command : string)  (* a send_command call *)
| Suppress (b : bool)                    (* conversation_locked = b *)
| Signal (b : bool)                      (* idle_animation_running = b *)
| Spawn (n : nat)                        (* Thread(...).start() *)
| Join (n : nat) (terminated : bool)     (* join(timeout=2) returned *)
| Close.                                 (* the port was closed *)

Definition idle_call (e : event) : list string :=
  match e with
  | Call (Idle _) command => [command]
  | _ => []
  end.

(** The commands the idle animation has sent. *)
Definition idle_calls (tr : list event) : list string := flat_map idle_call tr.


End Trace.

(** ** src/gesture_controller.py: the idle-animation thread *)

Module GestureController.

Import Trace.

(** The thread is observed where it blocks: inside [time.sleep(interval)],
    or inside a [time.sleep] of the gesture it is performing, [todo] being
    the calls that follow that sleep. *)
Inductive pc :=
| Sleeping (k : nat)
| Moving (todo : list ArduinoController.call) (k : nat)
| Done.

Record t := mk {
  arduino : ArduinoController.t;
  idle_animation_running : bool;
  threads : list pc;
  clock : nat;
  trace : list event
}.

Definition set_arduino (a : ArduinoController.t) (w : t) : t :=
  mk a (idle_animation_running w) (threads w) (clock w) (trace w).
Definition set_running (b : bool) (w : t) : t :=
  mk (arduino w) b (threads w) (clock w) (trace w ++ [Signal b]).
Definition set_threads (ps : list pc) (w : t) : t :=
  mk (arduino w) (idle_animation_running w) ps (clock w) (trace w).
Definition set_clock (n : nat) (w : t) : t :=
  mk (arduino w) (idle_animation_running w) (threads w) n (trace w).
Definition log (e : event) (w : t) : t :=
  mk (arduino w) (idle_animation_running w) (threads w) (clock w)
     (trace w ++ [e]).

(** [GestureController(arduino_controller)] *)
Definition init (a : ArduinoController.t) : t := mk a false [] 0 [].

(** The [send_command] call a hardware call leads to, if any. *)
Definition called (who : actor) (c : ArduinoController.call) : list event :=
  match c with
  | ArduinoController.Send command => [Call who command]
  | ArduinoController.Move servo angle =>
      if Py.mem servo Config.SERVO_PINS
      then [Call who (servo ++ "_" ++ Py.str angle)]
      else []
  | ArduinoController.Sleep _ => []
  end.

Inductive progress :=
| Blocked (todo : list ArduinoController.call) (k : nat)
| Finished
| Raised (e : Py.exn).

(** Run the calls of a body up to its next [time.sleep]. *)
Fixpoint run_calls (who : actor) (body : list ArduinoController.call) (w : t)
  : progress * t :=
  match body with
  | [] => (Finished, w)
  | ArduinoController.Sleep ms :: todo => (Blocked todo (Py.slices ms), w)
  | c :: todo =>
      let w1 := mk (arduino w) (idle_animation_running w) (threads w)
                   (clock w) (trace w ++ called who c) in
      match ArduinoController.exec c (arduino w1) with
      | (Py.Return _, a') => run_calls who todo (set_arduino a' w1)
      | (Py.Raise e, a') => (Raised e, set_arduino a' w1)
      end
  end.

(** [while self.idle_animation_running:] and the draw of the interval, which
    is counted in whole slices. *)
Definition loop_head (d : Py.draws) (w : t) : pc :=
  if idle_animation_running w
  then Sleeping (Py.uniform_slices Config.IDLE_ANIMATION_INTERVAL_MIN
                   Config.IDLE_ANIMATION_INTERVAL_MAX (Py.interval_draw d))
  else Done.

(** The thread goes on with [todo]; an uncaught exception ends it. *)
Definition resume (i : nat) (d : Py.draws)
           (todo : list ArduinoController.call) (w : t) : pc * t :=
  match run_calls (Idle i) todo w with
  | (Blocked todo' k, w') => (Moving todo' k, w')
  | (Finished, w') => (loop_head d w', w')
  | (Raised _, w') => (Done, w')
  end.

(** One slice of time passes for thread [i].  Nothing is looked at while
    [time.sleep(interval)] lasts; when it returns the flag is checked and
    [natural_movement] begins. *)
Definition advance (i : nat) (d : Py.draws) (p : pc) (w : t) : pc * t :=
  match p with
  | Sleeping k =>
      match k with
      | S (S k') => (Sleeping (S k'), w)
      | _ =>
          if negb (idle_animation_running w) then (Done, w)
          else resume i d
                 (ArduinoController.natural_movement_body
                    (Py.servo_draw d) (Py.offset_draw d)) w
      end
  | Moving todo k =>
      match k with
      | S (S k') => (Moving todo (S k'), w)
      | _ => resume i d todo w
      end
  | Done => (Done, w)
  end.

Section Clock.

Variable rng : nat -> nat -> Py.draws.

Fixpoint advance_all (i : nat) (ps : list pc) (w : t) : list pc * t :=
  match ps with
  | [] => ([], w)
  | p :: ps' =>
      let '(p', w') := advance i (rng (clock w) i) p w in
      let '(ps'', w'') := advance_all (S i) ps' w' in
      (p' :: ps'', w'')
  end.

(** 100ms pass. *)
Definition tick (w : t) : t :=
  let '(ps, w') := advance_all 0 (threads w) w in
  set_clock (S (clock w)) (set_threads ps w').

Fixpoint ticks (n : nat) (w : t) : t :=
  match n with
  | O => w
  | S n' => ticks n' (tick w)
  end.

Definition start_idle_animations (w : t) : t :=
  if idle_animation_running w then w
  else
    let w1 := set_running true w in
    let i := List.length (threads w1) in
    log (Spawn i)
        (set_threads (threads w1 ++ [loop_head (rng (clock w1) i) w1]) w1).

Definition terminated (i : nat) (w : t) : bool :=
  match nth i (threads w) Done with
  | Done => true
  | _ => false
  end.

(** [thread.join(timeout)] with the timeout in slices. *)
Fixpoint join (timeout : nat) (i : nat) (w : t) : t :=
  if terminated i w then log (Join i true) w
  else match timeout with
       | O => log (Join i false) w
       | S timeout' => join timeout' i (tick w)
       end.

(** [self.idle_animation_thread] is the last thread started. *)
Definition stop_idle_animations (w : t) : t :=
  let w1 := set_running false w in
  match threads w1 with
  | [] => w1
  | _ :: _ => join 20 (List.length (threads w1) - 1) w1
  end.

(** A gesture performed on the main thread; its sleeps let time pass. *)
Fixpoint perform (body : list ArduinoController.call) : Py.M t unit :=
  fun w =>
    match body with
    | [] => (Py.Return tt, w)
    | ArduinoController.Sleep ms :: todo =>
        perform todo (ticks (Py.slices ms) w)
    | c :: todo =>
        let w1 := mk (arduino w) (idle_animation_running w) (threads w)
                     (clock w) (trace w ++ called Main c) in
        match ArduinoController.exec c (arduino w1) with
        | (Py.Return _, a') => perform todo (set_arduino a' w1)
        | (Py.Raise e, a') => (Py.Raise e, set_arduino a' w1)
        end
    end.

(** The number of idle-animation threads alive. *)
Definition alive (w : t) : nat :=
  List.length (filter (fun p => match p with Done => false | _ => true end)
                      (threads w)).

End Clock.

End GestureController.

(** ** src/emotion_detector.py *)

Module EmotionDetector.

Definition EMOTION_GESTURES : Py.dict (list string) :=
  [("happy", ["yes"; "natural_movement"]);
   ("sad", ["neutral"]);
   ("curious", ["head_tilt"]);
   ("surprised", ["head_tilt"; "natural_movement"]);
   ("thinking", ["neutral"; "natural_movement"])].

Record t := mk { current_emotion : string }.

Definition init : t := mk "neutral".

(** [for emotion, keywords in d.items(): if any(...): return emotion] *)
Fixpoint first_emotion (text_lower : string) (items : Py.dict (list string))
  : option string :=
  match items with
  | [] => None
  | (emotion, keywords) :: items' =>
      if Py.any_in keywords text_lower then Some emotion
      else first_emotion text_lower items'
  end.

Section Lower.

Variable lower : string -> string.

Definition detect_emotion (text : string) (self : t) : string * t :=
  let text_lower := lower text in
  match first_emotion text_lower Config.EMOTION_KEYWORDS with
  | Some emotion => (emotion, mk emotion)
  | None => ("neutral", mk "neutral")
  end.

End Lower.

Definition suggest_gestures (emotion : option string) (self : t)
  : list string :=
  let emotion := Py.or_else emotion (current_emotion self) in
  match Py.get emotion EMOTION_GESTURES with
  | Some gestures => gestures
  | None => ["neutral"]
  end.

(** The dict [analyze_sentiment] returns; [confidence] is a Python float. *)
Record sentiment_scores := { sentiment : string; confidence : float }.

(** [float(n)] for a count. *)
Definition to_float (n : nat) : float :=
  PrimFloat.of_uint63 (Uint63.of_Z (Z.of_nat n)).

Definition positive_words : list string :=
  ["good"; "great"; "awesome"; "happy"; "love"; "wonderful"; "fantastic";
   "excellent"].

Definition negative_words : list string :=
  ["bad"; "sad"; "terrible"; "hate"; "awful"; "horrible"; "upset"; "angry"].

(** The scoring of [analyze_sentiment] once the words are counted.  The
    literals [0.6] and [0.4] are the binary64 values Python reads them as. *)
#[warnings="-inexact-float"]
Definition score (positive_count negative_count : nat) : sentiment_scores :=
  let total := (positive_count + negative_count)%nat in
  if (total =? 0)%nat
  then {| sentiment := "neutral"; confidence := 0.5%float |}
  else
    let positive_ratio := PrimFloat.div (to_float positive_count) (to_float total) in
    let sentiment :=
      if PrimFloat.ltb 0.6%float positive_ratio then "positive"
      else if PrimFloat.ltb positive_ratio 0.4%float then "negative"
      else "neutral" in
    let confidence :=
      PrimFloat.mul (PrimFloat.abs (PrimFloat.sub positive_ratio 0.5%float))
                    2%float in
    {| sentiment := sentiment; confidence := confidence |}.

Section Sentiment.

Variable lower : string -> string.

Definition analyze_sentiment (text : string) : sentiment_scores :=
  let text_lower := lower text in
  let positive_count := Py.count_in positive_words text_lower in
  let negative_count := Py.count_in negative_words text_lower in
  score positive_count negative_count.

End Sentiment.

End EmotionDetector.

(** ** src/conversation.py *)

Module ConversationManager.

Record t := mk { messages : list Chat.message }.

(** [ConversationManager(api_key)]: an empty key is a [ValueError]. *)
Definition init (api_key : string) : Py.result t :=
  if String.eqb api_key "" then Py.Raise Py.OtherException
  else Py.Return (mk [Chat.mk "system" Config.SYSTEM_PROMPT]).

Definition add_message (role content : string) : Py.M t unit :=
  fun self =>
    let messages := (messages self ++ [Chat.mk role content])%list in
    if (Config.MAX_CONVERSATION_TURNS + 1 <? List.length messages)%nat
    then
      if (3 <=? List.length messages)%nat
      then
        match Py.pop 1 messages with
        | None => (Py.Raise Py.OtherException, mk messages)
        | Some messages1 =>
            match Py.pop 1 messages1 with
            | None => (Py.Raise Py.OtherException, mk messages1)
            | Some messages2 => (Py.Return tt, mk messages2)
            end
        end
      else (Py.Return tt, mk messages)
    else (Py.Return tt, mk messages).

Section Chat.

(** [openai.chat.completions.create(model, messages)] and the content of its
    first choice; [None] when the call raises. *)
Variable chat : list Chat.message -> option string.

(** The user message is added outside the [try]; whatever is raised inside
    it makes the result [None]. *)
Definition get_response (user_input : string) : Py.M t (option string) :=
  add_message "user" user_input ;;
  fun self =>
    match chat (messages self) with
    | None => (Py.Return None, self)
    | Some assistant_message =>
        match add_message "assistant" assistant_message self with
        | (Py.Return _, self') => (Py.Return (Some assistant_message), self')
        | (Py.Raise _, self') => (Py.Return None, self')
        end
    end.

End Chat.

Definition clear_memory : Py.M t unit :=
  fun _ => (Py.Return tt, mk [Chat.mk "system" Config.SYSTEM_PROMPT]).

(** [self.messages[0] = ...]: an [IndexError] on an empty list. *)
Definition set_system_prompt (prompt : string) : Py.M t unit :=
  fun self =>
    match messages self with
    | [] => (Py.Raise Py.OtherException, self)
    | _ :: rest => (Py.Return tt, mk (Chat.mk "system" prompt :: rest))
    end.

End ConversationManager.

(** ** src/rufus.py: class RufusBot *)

Module RufusBot.

Import Trace GestureController.

Section Clock.

Variable rng : nat -> nat -> Py.draws.

(** The hardware part of [__init__]. *)
Definition init (hw : option Serial.port) : Py.result unit * t :=
  let arduino := ArduinoController._connect hw in
  let gestures := GestureController.init arduino in
  let gestures := start_idle_animations rng gestures in
  perform rng Gestures.gesture_neutral gestures.

Definition disconnect : Py.M t unit :=
  fun w =>
    match ArduinoController.connection (arduino w) with
    | Some p =>
        if Serial.is_open p
        then (Py.Return tt,
              log Close
                (set_arduino (snd (ArduinoController.disconnect (arduino w))) w))
        else (Py.Return tt, w)
    | None => (Py.Return tt, w)
    end.

Definition shutdown : Py.M t unit :=
  (fun w => (Py.Return tt, stop_idle_animations rng w)) ;;
  perform rng Gestures.gesture_neutral ;;
  disconnect.

End Clock.

(** [think]: the AI side of the bot.  [MemorySystem] sits on a vector
    database; it is taken here as any type with the two methods [think]
    calls on it. *)
Section Think.

Variable lower : string -> string.
Variable chat : list Chat.message -> option string.
Variable MemorySystem : Type.
Variable get_context_for_response : string -> MemorySystem -> string.
Variable add_memory
  : string -> string -> string -> MemorySystem -> MemorySystem.

Record ai := mk_ai {
  conversation : ConversationManager.t;
  emotion : EmotionDetector.t;
  memory : option MemorySystem
}.

Definition think (user_input : string) (use_memory : bool) : Py.M ai string :=
  fun self =>
    let '(detected_emotion, emotion') :=
      EmotionDetector.detect_emotion lower user_input (emotion self) in
    let context :=
      match memory self with
      | Some m => if use_memory then get_context_for_response user_input m
                  else ""
      | None => ""
      end in
    (* if context: current_prompt = self.conversation.messages[0]["content"];
       enhanced_prompt = current_prompt + context, which nothing reads *)
    let indexed :=
      if String.eqb context "" then true
      else match ConversationManager.messages (conversation self) with
           | [] => false
           | _ :: _ => true
           end in
    if negb indexed
    then (Py.Raise Py.OtherException,
          mk_ai (conversation self) emotion' (memory self))
    else
      match ConversationManager.get_response chat user_input (conversation self)
      with
      | (Py.Raise e, conversation') =>
          (Py.Raise e, mk_ai conversation' emotion' (memory self))
      | (Py.Return response, conversation') =>
          let response :=
            Py.or_else response
              "I'm having trouble thinking right now. Could you try again?" in
          let memory' :=
            match memory self with
            | Some m =>
                Some (add_memory user_input response detected_emotion m)
            | None => None
            end in
          (Py.Return response, mk_ai conversation' emotion' memory')
      end.

End Think.

End RufusBot.

(** ** rufus.py: the stand-alone script *)

Module Rufus.

Import Trace.

Record limits := { min : Z; max : Z; rest : Z }.

Definition SERVO_LIMITS : Py.dict limits :=
  [("head", {| min := 40; max := 120; rest := 90 |});
   ("left_arm", {| min := 0; max := 80; rest := 80 |});
   ("right_arm", {| min := 90; max := 180; rest := 90 |})].

Definition IDLE_ANIMATION_MIN : nat := 8.
Definition IDLE_ANIMATION_MAX : nat := 15.

(** [max(limits["min"], min(limits["max"], new_pos))] *)
Definition clamp (limits : limits) (new_pos : Z) : Z :=
  Z.max (min limits) (Z.min (max limits) new_pos).

(** [send_command(uno, cmd)] returns nothing; any exception is printed and
    dropped.  After a successful write it sleeps 0.1s and reads what the
    device answered. *)
Definition send_command (uno : option Serial.port) (cmd : string)
  : unit * option Serial.port :=
  match uno with
  | None => (tt, None)
  | Some p =>
      match Serial.write (cmd ++ Py.nl) p with
      | inr p' => (tt, Some (Serial.drain p'))
      | inl _ => (tt, uno)
      end
  end.

(** Whether the write inside [send_command] went through (the 0.1s sleep
    is taken only then). *)
Definition write_ok (uno : option Serial.port) (cmd : string) : bool :=
  match uno with
  | None => false
  | Some p => match Serial.write (cmd ++ Py.nl) p with
              | inr _ => true
              | inl _ => false
              end
  end.

Definition open_arduino (hw : option Serial.port) : option Serial.port :=
  match Serial.Serial hw with
  | inr ser => snd (send_command (Some ser) "rest")
  | inl _ => None
  end.

Definition wire (uno : option Serial.port) : list string :=
  match uno with
  | Some p => Serial.written p
  | None => []
  end.

(** *** Conversation memory *)

Definition MAX_TURNS : nat := 10.

Definition system_message : Chat.message :=
  Chat.mk "system"
    ("You are Rufus, a friendly robot companion in a small cardboard body. "
     ++ "You have expressive servo gestures (head shake, arm wave). "
     ++ "Keep responses short (1-2 sentences), warm, and natural. "
     ++ "Remember conversation context.").

(** The global [conversation_history] as the module is loaded, and after
    [clear_memory()]. *)
Definition clear_memory : list Chat.message := [system_message].

Definition add_to_memory (question answer : string)
           (conversation_history : list Chat.message) : list Chat.message :=
  let conversation_history :=
    (conversation_history ++ [Chat.mk "user" question])%list in
  let conversation_history :=
    (conversation_history ++ [Chat.mk "assistant" answer])%list in
  if (1 + 2 * MAX_TURNS <? List.length conversation_history)%nat
  then
    match conversation_history with
    | first :: _ => first :: Py.suffix (2 * MAX_TURNS) conversation_history
    | [] => conversation_history
    end
  else conversation_history.

Section Chat.

(** [client.chat.completions.create(model, messages, ...)] and the content
    of its first choice; [None] when anything raises. *)
Variable chat : list Chat.message -> option string.
Variable strip : string -> string.

Definition get_ai_response (question : string)
           (conversation_history : list Chat.message) : string :=
  match chat conversation_history with
  | Some content => strip content
  | None => "I'm having trouble thinking right. Could you try again?"
  end.

(** The two lines of [main] that make a turn of the conversation:
    [answer = get_ai_response(question)], [add_to_memory(question, answer)]. *)
Definition main_turn (question : string)
           (conversation_history : list Chat.message)
  : string * list Chat.message :=
  let answer := get_ai_response question conversation_history in
  (answer, add_to_memory question answer conversation_history).

(** The answers to a run of questions, and the memory they leave. *)
Fixpoint main_turns (questions : list string)
         (conversation_history : list Chat.message)
  : list string * list Chat.message :=
  match questions with
  | [] => ([], conversation_history)
  | question :: questions' =>
      let '(answer, conversation_history') :=
        main_turn question conversation_history in
      let '(answers, conversation_history'') :=
        main_turns questions' conversation_history' in
      (answer :: answers, conversation_history'')
  end.

End Chat.

(** *** Gestures chosen from the answer *)

Section Lower.

Variable lower : string -> string.

Definition classify_gesture (question answer : string) : string :=
  let answer_lower := lower answer in
  if Py.any_in ["yes"; "good"; "happy"; "great"; "awesome"; "certainly";
                "absolutely"] answer_lower
  then "yes"
  else if Py.any_in ["no"; "sorry"; "bad"; "can't"; "unfortunately"] answer_lower
  then "no"
  else "neutral".

(** The list [movements] of [natural_movements]; [None] for the [KeyError]
    of a servo missing from [SERVO_LIMITS]. *)
Definition movements (answer : string) (r1 r2 : nat) : option (list string) :=
  let answer_lower := lower answer in
  if Py.any_in ["happy"; "excited"; "great"; "awesome"] answer_lower
  then Some ["right_arm_150"; "left_arm_60"]
  else if Py.contains "no" answer_lower
  then Some ["head_110"; "head_70"]
  else if Py.any_in ["hmm"; "interesting"; "think"] answer_lower
  then Some ["head_100"]
  else if Py.any_in ["hello"; "hi"] answer_lower
  then Some ["right_arm_160"; "left_arm_50"]
  else
    let servo := Py.choice "" ["head"; "left_arm"; "right_arm"] r1 in
    match Py.get servo SERVO_LIMITS with
    | None => None
    | Some limits =>
        let pos := Py.randint (min limits + 10) (max limits - 10) r2 in
        Some [servo ++ "_" ++ Py.str pos]
    end.

(** [for movement in l: send_command(uno, movement); time.sleep(...)] *)
Fixpoint send_each (l : list string) (uno : option Serial.port)
  : option Serial.port :=
  match l with
  | [] => uno
  | movement :: l' => send_each l' (snd (send_command uno movement))
  end.

Definition natural_movements (uno : option Serial.port) (answer : string)
           (r1 r2 : nat) : Py.result unit * option Serial.port :=
  match movements answer r1 r2 with
  | None => (Py.Raise Py.OtherException, uno)
  | Some movements =>
      let uno := send_each (firstn 2 movements) uno in
      (Py.Return tt, snd (send_command uno "rest"))
  end.

(** The gesture part of a turn of [main]:
    [send_command(arduino, classify_gesture(question, answer))], then
    [natural_movements(arduino, answer)]. *)
Definition main_gestures (uno : option Serial.port) (question answer : string)
           (r1 r2 : nat) : Py.result unit * option Serial.port :=
  let gesture := classify_gesture question answer in
  let uno := snd (send_command uno gesture) in
  natural_movements uno answer r1 r2.

End Lower.

(** *** The idle-animation thread

    The thread is observed where it blocks: in one of the 0.1s slices of its
    interval sleep, in the pause after its first command (0.1s inside
    [send_command], then 0.5s), or in the 0.1s after its second command. *)
Inductive pc :=
| Sleeping (k : nat)                       (* k slices left, this one included *)
| Holding (servo : string) (limits : limits) (k : nat)
| Settling
| Done.

(** The module-level globals, the threads started so far, and the clock
    (in slices). *)
Record t := mk {
  arduino : option Serial.port;
  idle_animation_running : bool;
  conversation_locked : bool;
  threads : list pc;
  clock : nat;
  trace : list event
}.

Definition set_arduino (uno : option Serial.port) (w : t) : t :=
  mk uno (idle_animation_running w) (conversation_locked w) (threads w)
     (clock w) (trace w).
Definition set_running (b : bool) (w : t) : t :=
  mk (arduino w) b (conversation_locked w) (threads w) (clock w)
     (trace w ++ [Signal b]).
Definition set_locked (b : bool) (w : t) : t :=
  mk (arduino w) (idle_animation_running w) b (threads w) (clock w)
     (trace w ++ [Suppress b]).
Definition set_threads (ps : list pc) (w : t) : t :=
  mk (arduino w) (idle_animation_running w) (conversation_locked w) ps
     (clock w) (trace w).
Definition set_clock (n : nat) (w : t) : t :=
  mk (arduino w) (idle_animation_running w) (conversation_locked w)
     (threads w) n (trace w).
Definition log (e : event) (w : t) : t :=
  mk (arduino w) (idle_animation_running w) (conversation_locked w)
     (threads w) (clock w) (trace w ++ [e]).

(** The program as [main] starts it: [arduino = open_arduino()]. *)
Definition init (hw : option Serial.port) : t :=
  mk (open_arduino hw) false false [] 0 [].

(** [send_command(arduino, cmd)] called by [who]; the boolean says whether
    the call went on to sleep its 0.1s. *)
Definition call (who : actor) (cmd : string) (w : t) : bool * t :=
  (write_ok (arduino w) cmd,
   log (Call who cmd) (set_arduino (snd (send_command (arduino w) cmd)) w)).

(** [rest_pos + random.randint(-15, 15)], clamped. *)
Definition idle_target (limits : limits) (r : nat) : Z :=
  let rest_pos := rest limits in
  let new_pos := rest_pos + Py.randint (-15) 15 r in
  clamp limits new_pos.

(** [while idle_animation_running:] and the draw of the next interval. *)
Definition loop_head (d : Py.draws) (w : t) : pc :=
  if idle_animation_running w
  then Sleeping (Py.uniform_slices IDLE_ANIMATION_MIN IDLE_ANIMATION_MAX
                   (Py.interval_draw d))
  else Done.

(** The loop body once the interval has been slept through: the check of
    [conversation_locked], then, with a port, the choice of a servo and a
    position and the first [send_command]. *)
Definition after_sleep (i : nat) (d : Py.draws) (w : t) : pc * t :=
  if conversation_locked w then (loop_head d w, w)     (* continue *)
  else
    match arduino w with
    | None => (loop_head d w, w)                       (* if arduino: fails *)
    | Some _ =>
        let servo := Py.choice "" ["head"; "left_arm"; "right_arm"]
                       (Py.servo_draw d) in
        match Py.get servo SERVO_LIMITS with
        | None => (Done, w)                            (* KeyError *)
        | Some limits =>
            let new_pos := idle_target limits (Py.offset_draw d) in
            let '(ok, w') := call (Idle i) (servo ++ "_" ++ Py.str new_pos) w in
            (Holding servo limits (if ok then 6 else 5), w')
        end
    end.

(** One slice of time passes for thread [i].  In the interval sleep the slice
    ends with the check of the flag; the last slice is followed by the loop
    body.  The pause of a movement ends with the second [send_command], the
    return to [limits["rest"]]. *)
Definition advance (i : nat) (d : Py.draws) (p : pc) (w : t) : pc * t :=
  match p with
  | Sleeping k =>
      if negb (idle_animation_running w) then (Done, w)   (* return *)
      else match k with
           | S (S k') => (Sleeping (S k'), w)
           | _ => after_sleep i d w
           end
  | Holding servo limits k =>
      match k with
      | S (S k') => (Holding servo limits (S k'), w)
      | _ =>
          let '(ok, w') := call (Idle i) (servo ++ "_" ++ Py.str (rest limits)) w in
          if ok then (Settling, w') else (loop_head d w', w')
      end
  | Settling => (loop_head d w, w)
  | Done => (Done, w)
  end.

Section Clock.

(** The random module: the draws thread [i] makes at time [n]. *)
Variable rng : nat -> nat -> Py.draws.

Fixpoint advance_all (i : nat) (ps : list pc) (w : t) : list pc * t :=
  match ps with
  | [] => ([], w)
  | p :: ps' =>
      let '(p', w') := advance i (rng (clock w) i) p w in
      let '(ps'', w'') := advance_all (S i) ps' w' in
      (p' :: ps'', w'')
  end.

(** 100ms pass. *)
Definition tick (w : t) : t :=
  let '(ps, w') := advance_all 0 (threads w) w in
  set_clock (S (clock w)) (set_threads ps w').

Fixpoint ticks (n : nat) (w : t) : t :=
  match n with
  | O => w
  | S n' => ticks n' (tick w)
  end.

Definition start_idle_animations (w : t) : t :=
  if idle_animation_running w then w
  else
    let w1 := set_running true w in
    let i := List.length (threads w1) in
    log (Spawn i)
        (set_threads (threads w1 ++ [loop_head (rng (clock w1) i) w1]) w1).

Definition terminated (i : nat) (w : t) : bool :=
  match nth i (threads w) Done with
  | Done => true
  | _ => false
  end.

(** [thread.join(timeout)] with the timeout in slices. *)
Fixpoint join (timeout : nat) (i : nat) (w : t) : t :=
  if terminated i w then log (Join i true) w
  else match timeout with
       | O => log (Join i false) w
       | S timeout' => join timeout' i (tick w)
       end.

(** [idle_thread] is the last thread started. *)
Definition stop_idle_animations (w : t) : t :=
  let w1 := set_running false w in
  match threads w1 with
  | [] => w1
  | _ :: _ => join 20 (List.length (threads w1) - 1) w1
  end.

(** [send_command(arduino, cmd)] on the main thread. *)
Definition main_send (cmd : string) (w : t) : t :=
  let '(ok, w') := call Main cmd w in
  if ok then tick w' else w'.

(** The number of idle-animation threads alive. *)
Definition alive (w : t) : nat :=
  List.length (filter (fun p => match p with Done => false | _ => true end)
                      (threads w)).

(** The [finally] block of [main]. *)
Definition shutdown (w : t) : t :=
  let w := set_locked true w in
  let w := stop_idle_animations w in
  match arduino w with
  | Some _ =>
      let w := main_send "rest" w in
      let w := ticks 5 w in
      match arduino w with
      | Some p => log Close (set_arduino (Some (Serial.close p)) w)
      | None => w
      end
  | None => w
  end.

(** What the main thread may do between two slices. *)
Inductive step :=
| Tick
| Lock                  (* conversation_locked = True *)
| Unlock                (* conversation_locked = False *)
| Command (cmd : string)
| Start                 (* start_idle_animations(arduino) *)
| Stop.                 (* stop_idle_animations() *)

Definition do_step (s : step) (w : t) : t :=
  match s with
  | Tick => tick w
  | Lock => set_locked true w
  | Unlock => set_locked false w
  | Command cmd => main_send cmd w
  | Start => start_idle_animations w
  | Stop => stop_idle_animations w
  end.

Fixpoint do_steps (l : list step) (w : t) : t :=
  match l with
  | [] => w
  | s :: l' => do_steps l' (do_step s w)
  end.

End Clock.

End Rufus.

(** ** Notions used in the statements *)

(** The controller's port raises nothing but [SerialException]. *)
Definition serial_faults_only (self : ArduinoController.t) : Prop :=
  forall p, ArduinoController.connection self = Some p ->
            Serial.fault p <> Some Py.OtherException.

(** The angle of a [move_servo] call lies within the range [config.py] gives
    the servo. *)
Definition in_range (c : ArduinoController.call) : Prop :=
  match c with
  | ArduinoController.Move servo angle =>
      exists lo hi, Py.get servo Config.SERVO_RANGES = Some (lo, hi)
                    /\ lo <= angle <= hi
  | _ => True
  end.

(** [l] is [l1] and [l2] shuffled together, each in its own order. *)
Inductive Merge {A : Type} : list A -> list A -> list A -> Prop :=
| Merge_nil : Merge [] [] []
| Merge_left x l1 l2 l : Merge l1 l2 l -> Merge (x :: l1) l2 (x :: l)
| Merge_right y l1 l2 l : Merge l1 l2 l -> Merge l1 (y :: l2) (y :: l).

(** The script's idle thread is in its interval sleep, or has returned. *)
Definition quiet (p : Rufus.pc) : bool :=
  match p with
  | Rufus.Sleeping _ | Rufus.Done => true
  | _ => false
  end.


(** The pause after the first command of an idle movement lasts at most
    the 0.6s the code sleeps. *)
Definition well_formed (p : Rufus.pc) : Prop :=
  match p with
  | Rufus.Holding _ _ k => (k <= 6)%nat
  | _ => True
  end.


(** The world [w'] is [w] after [dt] slices in which the only thread reached
    [p], the events [evs] happened, and the port stayed healthy. *)
Definition reaches (w w' : Rufus.t) (dt : nat) (p : Rufus.pc)
           (evs : list Trace.event) : Prop :=
  Rufus.threads w' = [p]
  /\ Rufus.idle_animation_running w' = Rufus.idle_animation_running w
  /\ Rufus.conversation_locked w' = Rufus.conversation_locked w
  /\ Rufus.clock w' = (dt + Rufus.clock w)%nat
  /\ Rufus.trace w' = (Rufus.trace w ++ evs)%list
  /\ (exists q, Rufus.arduino w' = Some q /\ Serial.writable q).

(** A random module whose every raw draw is 0: the shortest interval, the
    first servo, the lowest offset. *)
Definition zero_draws (n i : nat) : Py.draws :=
  {| Py.interval_draw := 0; Py.servo_draw := 0; Py.offset_draw := 0 |}.

(** The slices the script's thread still needs once the flag is cleared. *)
Definition winding_down (p : Rufus.pc) : nat :=
  match p with
  | Rufus.Done => 0
  | Rufus.Sleeping _ => 1
  | Rufus.Settling => 1
  | Rufus.Holding _ _ k => S (Nat.max k 1)
  end.

(** What is left of the movement the script's thread is in: the return of
    the servo to its rest position, when the thread is in the pause that
    follows its first command. *)
Definition remaining (p : Rufus.pc) : list string :=
  match p with
  | Rufus.Holding servo limits _ =>
      [servo ++ "_" ++ Py.str (Rufus.rest limits)]
  | _ => []
  end.

(** The class's idle thread is in its interval sleep, or has returned. *)
Definition calm (p : GestureController.pc) : Prop :=
  match p with
  | GestureController.Moving _ _ => False
  | _ => True
  end.






(** A slice changes neither flag, and leaves a port where there was one. *)
Definition framed (w w' : Rufus.t) : Prop :=
  Rufus.idle_animation_running w' = Rufus.idle_animation_running w
  /\ Rufus.conversation_locked w' = Rufus.conversation_locked w
  /\ Rufus.clock w' = Rufus.clock w
  /\ (forall q, Rufus.arduino w = Some q -> exists q', Rufus.arduino w' = Some q').

(** Every idle thread of the script but the last has returned; the last is
    well formed, and has returned too if the flag is clear. *)
Definition single (w : Rufus.t) : Prop :=
  Rufus.threads w = []
  \/ exists n p, Rufus.threads w = (repeat Rufus.Done n ++ [p])%list
                 /\ well_formed p
                 /\ (Rufus.idle_animation_running w = false -> p = Rufus.Done).

(** The two messages a turn of the conversation adds to the memory. *)
Definition exchange (turn : string * string) : list Chat.message :=
  [Chat.mk "user" (fst turn); Chat.mk "assistant" (snd turn)].

(** A servo command of the script, [servo_pos], whose position lies within
    the limits [SERVO_LIMITS] gives the servo. *)
Definition within_limits (cmd : string) : Prop :=
  exists servo limits pos,
    Py.get servo Rufus.SERVO_LIMITS = Some limits
    /\ cmd = servo ++ "_" ++ Py.str pos
    /\ Rufus.min limits <= pos <= Rufus.max limits.

(** [add_message] called for each message of a list in turn. *)
Fixpoint add_messages (ms : list Chat.message)
  : Py.M ConversationManager.t unit :=
  match ms with
  | [] => Py.ret tt
  | m :: ms' =>
      ConversationManager.add_message (Chat.role m) (Chat.content m) ;;
      add_messages ms'
  end.

(** What a user of a [ConversationManager] may call on it. *)
Inductive conversation_call :=
| AddMessage (role content : string)
| GetResponse (user_input : string)
| ClearMemory
| SetSystemPrompt (prompt : string).

Definition do_call (chat : list Chat.message -> option string)
           (c : conversation_call) : Py.M ConversationManager.t unit :=
  match c with
  | AddMessage role content => ConversationManager.add_message role content
  | GetResponse user_input =>
      ConversationManager.get_response chat user_input ;; Py.ret tt
  | ClearMemory => ConversationManager.clear_memory
  | SetSystemPrompt prompt => ConversationManager.set_system_prompt prompt
  end.

Fixpoint do_calls (chat : list Chat.message -> option string)
         (l : list conversation_call) : Py.M ConversationManager.t unit :=
  match l with
  | [] => Py.ret tt
  | c :: l' => do_call chat c ;; do_calls chat l'
  end.

(** The conversation starts with a system message, followed by at most
    [MAX_CONVERSATION_TURNS] others. *)
Definition prompted (self : ConversationManager.t) : Prop :=
  exists first rest,
    ConversationManager.messages self = first :: rest
    /\ Chat.role first = "system"
    /\ (List.length rest <= Config.MAX_CONVERSATION_TURNS)%nat.

(** The angle of the last [move_servo] a body makes on a servo. *)
Fixpoint last_move (servo : string) (body : list ArduinoController.call)
  : option Z :=
  match body with
  | [] => None
  | c :: body' =>
      match last_move servo body' with
      | Some angle => Some angle
      | None =>
          match c with
          | ArduinoController.Move servo' angle =>
              if String.eqb servo' servo then Some angle else None
          | _ => None
          end
      end
  end.

(** The last angle a sequence of the API server gives a servo. *)
Fixpoint last_angle (servo : string) (sequence : list (string * Z))
  : option Z :=
  match sequence with
  | [] => None
  | (servo', angle) :: sequence' =>
      match last_angle servo sequence' with
      | Some a => Some a
      | None => if String.eqb servo' servo then Some angle else None
      end
  end.

(** The line a step of a sequence of the API server puts on the wire. *)
Definition step_line (step : string * Z) : list string :=
  match Py.get (fst step) PiServer.SERVO_PINS with
  | Some pin => [Py.str pin ++ ":" ++ Py.str (snd step) ++ Py.nl]
  | None => []
  end.

(** The script runs without a port and no idle thread is in the middle of
    a movement. *)
Definition simulated (w : Rufus.t) : Prop :=
  Rufus.arduino w = None /\ forallb quiet (Rufus.threads w) = true.

(** * Properties *)

(** ** The registry tables *)

Lemma servo_limits_ordered (servo : string) (limits : Rufus.limits) :
  Py.get servo Rufus.SERVO_LIMITS = Some limits ->
  Rufus.min limits <= Rufus.rest limits <= Rufus.max limits.
Proof.
  unfold Rufus.SERVO_LIMITS; simpl.
  repeat match goal with
         | |- context [String.eqb ?a ?b] => destruct (String.eqb a b)
         end;
    intros H; inversion H; subst; simpl; lia.
Qed.

Lemma randint_range (a b : Z) (r : nat) :
  a <= b -> a <= Py.randint a b r <= b.
Proof.
  intros Hab. unfold Py.randint.
  pose proof (Z.mod_pos_bound (Z.of_nat r) (b - a + 1)). lia.
Qed.

Lemma choice_in {A} (dflt : A) (l : list A) (r : nat) :
  l <> [] -> In (Py.choice dflt l r) l.
Proof.
  intros Hl. unfold Py.choice. apply nth_In.
  apply Nat.mod_upper_bound. destruct l; [congruence | discriminate].
Qed.

Lemma uniform_slices_range (a b r : nat) :
  (a <= b -> 10 * a <= Py.uniform_slices a b r <= 10 * b)%nat.
Proof.
  intros Hab. unfold Py.uniform_slices.
  pose proof (Nat.mod_upper_bound r (10 * (b - a) + 1)). lia.
Qed.

(** ** The clamp of the idle loop *)

Lemma clamp_range (limits : Rufus.limits) (A : Z) :
  Rufus.min limits <= Rufus.max limits ->
  Rufus.min limits <= Rufus.clamp limits A <= Rufus.max limits.
Proof. unfold Rufus.clamp. lia. Qed.

Lemma clamp_id (limits : Rufus.limits) (A : Z) :
  Rufus.min limits <= A <= Rufus.max limits -> Rufus.clamp limits A = A.
Proof. unfold Rufus.clamp. lia. Qed.

(** C9: for every joint of the registry and every angle, the clamp
    [max(min, min(max, A))] lies within the joint's range, and it is the
    identity on an angle already within the range. *)
Theorem clamp_within_limits (servo : string) (limits : Rufus.limits) (A : Z) :
  Py.get servo Rufus.SERVO_LIMITS = Some limits ->
  Rufus.clamp limits A = Z.max (Rufus.min limits) (Z.min (Rufus.max limits) A)
  /\ Rufus.min limits <= Rufus.clamp limits A <= Rufus.max limits
  /\ (Rufus.min limits <= A <= Rufus.max limits -> Rufus.clamp limits A = A).
Proof.
  intros Hget. pose proof (servo_limits_ordered _ _ Hget) as Hord.
  split; [reflexivity | split].
  - apply clamp_range. lia.
  - apply clamp_id.
Qed.

Lemma clamp_within_limits_head :
  Rufus.clamp {| Rufus.min := 40; Rufus.max := 120; Rufus.rest := 90 |} 200 = 120
  /\ Rufus.clamp {| Rufus.min := 40; Rufus.max := 120; Rufus.rest := 90 |} 75 = 75.
Proof.
  pose proof (clamp_within_limits "head"
                {| Rufus.min := 40; Rufus.max := 120; Rufus.rest := 90 |}
                75 eq_refl) as [_ [_ Hid]].
  split; [reflexivity | apply Hid; simpl; lia].
Defined.

(** ** One command on the wire *)

Lemma write_writable (data : string) (p : Serial.port) :
  Serial.writable p ->
  exists p', Serial.write data p = inr p'
             /\ Serial.writable p'
             /\ Serial.written p' = (Serial.written p ++ [data])%list.
Proof.
  intros [Hopen Hfault]. unfold Serial.write. rewrite Hopen, Hfault. simpl.
  eexists; split; [reflexivity | split]; [split |]; reflexivity.
Qed.



Lemma send_command_writable (command : string) (self : ArduinoController.t)
      (p : Serial.port) :
  ArduinoController.connection self = Some p ->
  Serial.writable p ->
  exists p',
    ArduinoController.send_command command self
    = (Py.Return true, ArduinoController.mk (Some p'))
    /\ Serial.writable p'
    /\ Serial.written p' = (Serial.written p ++ [(command ++ Py.nl)%string])%list.
Proof.
  intros Hc Hw. unfold ArduinoController.send_command. rewrite Hc.
  destruct (write_writable (command ++ Py.nl) p Hw) as (p' & -> & Hw' & Hwr).
  eauto.
Qed.

Lemma send_command_simulation (command : string) (self : ArduinoController.t) :
  ArduinoController.connection self = None ->
  ArduinoController.send_command command self = (Py.Return true, self).
Proof. intros Hc. unfold ArduinoController.send_command. now rewrite Hc. Qed.

Lemma write_preserves_fault (data : string) (p p' : Serial.port) :
  Serial.write data p = inr p' -> Serial.fault p' = Serial.fault p.
Proof.
  unfold Serial.write.
  destruct (Serial.is_open p); simpl; [| discriminate].
  destruct (Serial.fault p); [discriminate |].
  intros H; inversion H; reflexivity.
Qed.

Lemma send_command_no_raise (command : string) (self : ArduinoController.t) :
  serial_faults_only self ->
  exists b self', ArduinoController.send_command command self = (Py.Return b, self')
                  /\ serial_faults_only self'.
Proof.
  intros Hs. unfold ArduinoController.send_command.
  destruct (ArduinoController.connection self) as [p |] eqn:Hc; [| eauto].
  destruct (Serial.write (command ++ Py.nl) p) as [e | p'] eqn:Hw.
  - destruct e; [eauto |].
    exfalso. apply (Hs p Hc). unfold Serial.write in Hw.
    destruct (Serial.is_open p); simpl in Hw; [| discriminate].
    destruct (Serial.fault p); congruence.
  - exists true, (ArduinoController.mk (Some p')). split; [reflexivity |].
    intros q Hq. simpl in Hq. inversion Hq; subst q.
    rewrite (write_preserves_fault _ _ _ Hw). apply (Hs p Hc).
Qed.

Lemma exec_no_raise (c : ArduinoController.call) (self : ArduinoController.t) :
  serial_faults_only self ->
  exists self', ArduinoController.exec c self = (Py.Return tt, self')
                /\ serial_faults_only self'.
Proof.
  intros Hs. destruct c as [command | servo angle | ms]; simpl.
  - unfold Py.bind, Py.ret, Py.sleep.
    destruct (send_command_no_raise command self Hs) as (b & self' & -> & Hs').
    simpl; eauto.
  - unfold Py.bind, Py.ret, Py.sleep, ArduinoController.move_servo.
    destruct (negb (Py.mem servo Config.SERVO_PINS)); [simpl; eauto |].
    destruct (send_command_no_raise (servo ++ "_" ++ Py.str angle) self Hs)
      as (b & self' & -> & Hs').
    simpl; eauto.
  - exists self. split; [reflexivity | assumption].
Qed.

Lemma run_no_raise (body : list ArduinoController.call)
      (self : ArduinoController.t) :
  serial_faults_only self ->
  exists self', ArduinoController.run body self = (Py.Return tt, self')
                /\ serial_faults_only self'.
Proof.
  revert self. induction body as [| c body IH]; intros self Hs; simpl.
  - exists self. split; [reflexivity | assumption].
  - unfold Py.bind, Py.ret, Py.sleep.
    destruct (exec_no_raise c self Hs) as (self1 & -> & Hs1).
    apply IH, Hs1.
Qed.

(** On a healthy port each call puts its line on the wire. *)
Lemma exec_writable (c : ArduinoController.call) (self : ArduinoController.t)
      (p : Serial.port) :
  ArduinoController.connection self = Some p ->
  Serial.writable p ->
  exists p',
    ArduinoController.exec c self = (Py.Return tt, ArduinoController.mk (Some p'))
    /\ Serial.writable p'
    /\ Serial.written p' = (Serial.written p ++ Gestures.line_of c)%list.
Proof.
  intros Hc Hw.
  destruct c as [command | servo angle | ms];
    unfold ArduinoController.exec, Gestures.line_of, Py.bind, Py.ret, Py.sleep,
      ArduinoController.move_servo.
  - destruct (send_command_writable command self p Hc Hw) as (p' & -> & ? & ?).
    eauto.
  - destruct (Py.mem servo Config.SERVO_PINS); cbv [negb].
    + destruct (send_command_writable (servo ++ "_" ++ Py.str angle) self p Hc Hw)
        as (p' & -> & ? & Hwr).
      eauto.
    + exists p. destruct self as [conn]; simpl in *; subst conn.
      rewrite app_nil_r. repeat split; apply Hw.
  - exists p. destruct self as [conn]; simpl in *; subst conn.
    rewrite app_nil_r. repeat split; apply Hw.
Qed.

(** ** Angles on the wire *)

Lemma natural_servo_cases (r : nat) :
  ArduinoController.natural_servo r = "head"
  \/ ArduinoController.natural_servo r = "left_arm"
  \/ ArduinoController.natural_servo r = "right_arm".
Proof.
  pose proof (choice_in "" (Py.keys Config.SERVO_PINS) r) as Hin.
  simpl in Hin. unfold ArduinoController.natural_servo. simpl.
  destruct Hin as [H | [H | [H | []]]]; [discriminate | | |]; auto.
Qed.

Lemma home_positions :
  ArduinoController.home "head" = 80
  /\ ArduinoController.home "left_arm" = 40
  /\ ArduinoController.home "right_arm" = 135.
Proof. repeat split. Qed.

Lemma natural_movement_in_range (r1 r2 : nat) :
  Forall in_range (ArduinoController.natural_movement_body r1 r2).
Proof.
  unfold ArduinoController.natural_movement_body, ArduinoController.natural_angle.
  pose proof (randint_range (-15) 15 r2 ltac:(lia)) as Hr.
  remember (Py.randint (-15) 15 r2) as delta eqn:Hdelta. clear Hdelta.
  cbv zeta. destruct home_positions as (Hh & Hl & Hr').
  destruct (natural_servo_cases r1) as [E | [E | E]]; rewrite E;
    rewrite ?Hh, ?Hl, ?Hr';
    (apply Forall_cons;
     [| apply Forall_cons; [exact I | apply Forall_cons; [| apply Forall_nil]]]);
    unfold in_range; do 2 eexists;
    (split; [reflexivity | lia]).
Qed.

Lemma gestures_in_range (gesture_name : string) (r1 r2 : nat)
      (body : list ArduinoController.call) :
  Py.get gesture_name (Gestures.gestures r1 r2) = Some body ->
  Forall in_range body.
Proof.
  unfold Gestures.gestures. simpl.
  repeat match goal with
         | |- context [String.eqb ?a ?b] => destruct (String.eqb a b)
         end;
    intros H; inversion H; subst;
    try apply natural_movement_in_range;
    repeat constructor; simpl; do 2 eexists; (split; [reflexivity | lia]).
Qed.

Lemma idle_target_range (servo : string) (limits : Rufus.limits) (r : nat) :
  Py.get servo Rufus.SERVO_LIMITS = Some limits ->
  Rufus.min limits <= Rufus.idle_target limits r <= Rufus.max limits.
Proof.
  intros Hget. unfold Rufus.idle_target. apply clamp_range.
  pose proof (servo_limits_ordered _ _ Hget). lia.
Qed.

(** C1, as the code has it: an explicit [move_servo] puts the caller's angle
    on the wire unchanged; the gesture steps and the idle movements carry
    angles within the safe range of their joint. *)
Theorem angles_on_the_wire :
  (forall servo angle self p,
      Py.mem servo Config.SERVO_PINS = true ->
      ArduinoController.connection self = Some p ->
      Serial.writable p ->
      fst (ArduinoController.move_servo servo angle self) = Py.Return true
      /\ ArduinoController.wire (snd (ArduinoController.move_servo servo angle self))
         = (ArduinoController.wire self
              ++ [((servo ++ "_" ++ Py.str angle) ++ Py.nl)%string])%list)
  /\ (forall gesture_name r1 r2 body,
         Py.get gesture_name (Gestures.gestures r1 r2) = Some body ->
         Forall in_range body)
  /\ (forall r1 r2, Forall in_range (ArduinoController.natural_movement_body r1 r2))
  /\ (forall servo limits r,
         Py.get servo Rufus.SERVO_LIMITS = Some limits ->
         Rufus.min limits <= Rufus.idle_target limits r <= Rufus.max limits
         /\ Rufus.min limits <= Rufus.rest limits <= Rufus.max limits).
Proof.
  split; [| split; [| split]].
  - intros servo angle self p Hmem Hc Hw.
    unfold ArduinoController.move_servo. rewrite Hmem. cbv [negb].
    destruct (send_command_writable (servo ++ "_" ++ Py.str angle) self p Hc Hw)
      as (p' & -> & _ & Hwr).
    unfold ArduinoController.wire. rewrite Hc. simpl. auto.
  - apply gestures_in_range.
  - apply natural_movement_in_range.
  - intros servo limits r Hget. split.
    + apply (idle_target_range servo), Hget.
    + apply (servo_limits_ordered servo), Hget.
Qed.

Lemma angles_on_the_wire_head :
  ArduinoController.wire
    (snd (ArduinoController.move_servo "head" 95
            (ArduinoController._connect (Some Serial.fresh))))
  = ["head_95" ++ Py.nl]
  /\ 40 <= Rufus.idle_target
             {| Rufus.min := 40; Rufus.max := 120; Rufus.rest := 90 |} 7%nat <= 120.
Proof.
  destruct angles_on_the_wire as (Hmove & _ & _ & Hidle).
  split.
  - apply (proj2 (Hmove "head" 95 (ArduinoController._connect (Some Serial.fresh))
                        Serial.fresh eq_refl eq_refl (conj eq_refl eq_refl))).
  - apply (proj1 (Hidle "head" _ 7%nat eq_refl)).
Defined.

(** C1 fails for an explicit move: [move_servo("head", 200)] writes the line
    [head_200], although the range of [head] is [40, 120]. *)
Lemma move_servo_head_200_unclamped :
  ArduinoController.wire
    (snd (ArduinoController.move_servo "head" 200
            (ArduinoController._connect (Some Serial.fresh))))
  = ["head_200" ++ Py.nl]
  /\ Py.get "head" Config.SERVO_RANGES = Some (40, 120)
  /\ ~ (40 <= 200 <= 120).
Proof. split; [reflexivity | split; [reflexivity | lia]]. Qed.

(** ** Performing a named gesture *)




(** ** A link that never connected *)

Lemma run_simulation (body : list ArduinoController.call)
      (self : ArduinoController.t) :
  ArduinoController.connection self = None ->
  ArduinoController.run body self = (Py.Return tt, self).
Proof.
  intros Hc. induction body as [| c body IH]; simpl; [reflexivity |].
  unfold Py.bind, Py.ret, Py.sleep.
  destruct c as [command | servo angle | ms]; simpl.
  - unfold Py.bind. rewrite (send_command_simulation _ _ Hc). exact IH.
  - unfold Py.bind, Py.ret, ArduinoController.move_servo.
    destruct (negb (Py.mem servo Config.SERVO_PINS)); [exact IH |].
    rewrite (send_command_simulation _ _ Hc). exact IH.
  - exact IH.
Qed.

Lemma run_sequence_disconnected (sequence : list (string * Z)) :
  PiServer.run_sequence sequence None = None.
Proof.
  induction sequence as [| [servo angle] rest IH]; [reflexivity |].
  cbn [PiServer.run_sequence].
  destruct (Py.get servo PiServer.SERVO_PINS) as [pin |]; [| exact IH].
  destruct (pin =? 0); exact IH.
Qed.

(** C4, as the code has it: when the port was never opened no send writes or
    raises anything and every recognized gesture returns true; the controller
    class reports such a send as successful, the script returns nothing, the
    API server returns false. *)
Theorem never_connected :
  (forall command,
      ArduinoController.send_command command (ArduinoController._connect None)
      = (Py.Return true, ArduinoController._connect None))
  /\ (forall gesture_name r1 r2,
         Py.get gesture_name (Gestures.gestures r1 r2) <> None ->
         Gestures.perform_gesture gesture_name r1 r2 (ArduinoController._connect None)
         = (Py.Return true, ArduinoController._connect None))
  /\ ArduinoController.wire (ArduinoController._connect None) = []
  /\ (forall cmd, Rufus.send_command (Rufus.open_arduino None) cmd = (tt, None))
  /\ (forall pin angle, PiServer.send_servo_command pin angle None = (false, None))
  /\ (forall gesture_name,
         Py.get gesture_name PiServer.GESTURES <> None ->
         PiServer.perform_gesture gesture_name None = (true, None)).
Proof.
  repeat split.
  - intros gesture_name r1 r2 Hsome. unfold Gestures.perform_gesture.
    destruct (Py.get gesture_name (Gestures.gestures r1 r2)) as [body |];
      [| congruence].
    unfold Py.bind. now rewrite run_simulation.
  - intros gesture_name Hsome. unfold PiServer.perform_gesture.
    destruct (Py.get gesture_name PiServer.GESTURES) as [sequence |];
      [| congruence].
    now rewrite run_sequence_disconnected.
Qed.

Lemma never_connected_nod :
  PiServer.perform_gesture "nod" None = (true, None)
  /\ Gestures.perform_gesture "yes" 0 0 (ArduinoController._connect None)
     = (Py.Return true, ArduinoController._connect None).
Proof.
  destruct never_connected as (_ & Hg & _ & _ & _ & Hp).
  split.
  - apply (Hp "nod"). discriminate.
  - apply (Hg "yes" 0%nat 0%nat). discriminate.
Defined.

(** C4 fails on the value reported: without a connection [send_command]
    returns [True], the value it returns after a completed write. *)
Lemma simulated_send_reports_success :
  fst (ArduinoController.send_command "yes" (ArduinoController._connect None))
  = Py.Return true
  /\ fst (ArduinoController.send_command "yes"
            (ArduinoController._connect (Some Serial.fresh)))
     = Py.Return true
  /\ ArduinoController.wire
       (snd (ArduinoController.send_command "yes" (ArduinoController._connect None)))
     = [].
Proof. repeat split. Qed.

(** ** What the caller of a send observes *)




(** The API server tests the reply after decoding and stripping it: a padded
    [OK] is an acknowledgment, an [ERR] is none, and neither is a line that is
    not UTF-8. *)
Lemma send_servo_command_replies :
  let answering (line : string) :=
    Some (Serial.mk true None [] [] (fun _ => [line])) in
  fst (PiServer.send_servo_command 9 90
         (answering (" OK" ++ String (ascii_of_nat 13) Py.nl))) = true
  /\ fst (PiServer.send_servo_command 9 90 (answering ("ERR" ++ Py.nl))) = false
  /\ fst (PiServer.send_servo_command 9 90
            (answering (String (ascii_of_nat 255) "OK"))) = false
  /\ fst (PiServer.send_servo_command 9 90 (Some Serial.fresh)) = true.
Proof. repeat split. Qed.

(** ** Two gestures at once *)

Lemma Merge_right_only {A} (l : list A) : Merge [] l l.
Proof. induction l; constructor; assumption. Qed.

Lemma Merge_more_left {A} (x l1 l2 l : list A) :
  Merge l1 l2 l -> Merge (x ++ l1) l2 (x ++ l).
Proof. intros H. induction x; simpl; [assumption | now constructor]. Qed.

Lemma Merge_more_right {A} (y l1 l2 l : list A) :
  Merge l1 l2 l -> Merge l1 (y ++ l2) (y ++ l).
Proof. intros H. induction y; simpl; [assumption | now constructor]. Qed.

Lemma Merge_app {A} (l1 l2 : list A) : Merge l1 l2 (l1 ++ l2).
Proof.
  rewrite <- (app_nil_r l1) at 1. apply Merge_more_left, Merge_right_only.
Qed.

Lemma finish_writable (body : list ArduinoController.call)
      (self : ArduinoController.t) (p : Serial.port) :
  ArduinoController.connection self = Some p ->
  Serial.writable p ->
  exists p',
    Gestures.finish body self = ArduinoController.mk (Some p')
    /\ Serial.writable p'
    /\ Serial.written p' = (Serial.written p ++ Gestures.lines_of body)%list.
Proof.
  revert self p. induction body as [| c body IH]; intros self p Hc Hw.
  - exists p. destruct self as [conn]; simpl in *; subst conn.
    rewrite app_nil_r. repeat split; apply Hw.
  - cbn [Gestures.finish].
    destruct (exec_writable c self p Hc Hw) as (p1 & -> & Hw1 & Hwr1).
    destruct (IH (ArduinoController.mk (Some p1)) p1 eq_refl Hw1)
      as (p2 & -> & Hw2 & Hwr2).
    exists p2. repeat split; try apply Hw2.
    unfold Gestures.lines_of in *. cbn [flat_map]. rewrite Hwr2, Hwr1.
    now rewrite app_assoc.
Qed.

Lemma interleave_merges (sched : list bool) :
  forall (a b : list ArduinoController.call) (self : ArduinoController.t)
         (p : Serial.port),
    ArduinoController.connection self = Some p ->
    Serial.writable p ->
    exists merged,
      Merge (Gestures.lines_of a) (Gestures.lines_of b) merged
      /\ ArduinoController.wire (Gestures.interleave sched a b self)
         = (Serial.written p ++ merged)%list.
Proof.
  induction sched as [| first sched IH]; intros a b self p Hc Hw.
  - cbn [Gestures.interleave].
    destruct (finish_writable a self p Hc Hw) as (p1 & -> & Hw1 & Hwr1).
    destruct (finish_writable b (ArduinoController.mk (Some p1)) p1 eq_refl Hw1)
      as (p2 & -> & Hw2 & Hwr2).
    exists (Gestures.lines_of a ++ Gestures.lines_of b)%list.
    split; [apply Merge_app |].
    unfold ArduinoController.wire. cbn [ArduinoController.connection].
    rewrite Hwr2, Hwr1. now rewrite app_assoc.
  - destruct first; cbn [Gestures.interleave].
    + destruct a as [| c a']; cbn [Gestures.exec_next].
      * apply IH; assumption.
      * destruct (exec_writable c self p Hc Hw) as (p1 & -> & Hw1 & Hwr1).
        destruct (IH a' b (ArduinoController.mk (Some p1)) p1 eq_refl Hw1)
          as (merged & Hm & Hwire).
        exists (Gestures.line_of c ++ merged)%list. split.
        -- unfold Gestures.lines_of. cbn [flat_map].
           apply Merge_more_left, Hm.
        -- rewrite Hwire, Hwr1. now rewrite app_assoc.
    + destruct b as [| c b']; cbn [Gestures.exec_next].
      * apply IH; assumption.
      * destruct (exec_writable c self p Hc Hw) as (p1 & -> & Hw1 & Hwr1).
        destruct (IH a b' (ArduinoController.mk (Some p1)) p1 eq_refl Hw1)
          as (merged & Hm & Hwire).
        exists (Gestures.line_of c ++ merged)%list. split.
        -- unfold Gestures.lines_of. cbn [flat_map].
           apply Merge_more_right, Hm.
        -- rewrite Hwire, Hwr1. now rewrite app_assoc.
Qed.

(** C3, as the code has it: nothing serializes two [perform_gesture] calls.
    Whatever the scheduler does, the wire carries the commands of the two
    gestures shuffled together, each gesture's own commands in its order; the
    two sequences are contiguous when the calls do not overlap. *)
Theorem concurrent_gestures_merge (sched : list bool)
        (a b : list ArduinoController.call) (self : ArduinoController.t)
        (p : Serial.port) :
  ArduinoController.connection self = Some p ->
  Serial.writable p ->
  (exists merged,
      Merge (Gestures.lines_of a) (Gestures.lines_of b) merged
      /\ ArduinoController.wire (Gestures.interleave sched a b self)
         = (Serial.written p ++ merged)%list)
  /\ ArduinoController.wire (Gestures.interleave [] a b self)
     = (Serial.written p ++ Gestures.lines_of a ++ Gestures.lines_of b)%list.
Proof.
  intros Hc Hw. split; [apply interleave_merges; assumption |].
  cbn [Gestures.interleave].
  destruct (finish_writable a self p Hc Hw) as (p1 & -> & Hw1 & Hwr1).
  destruct (finish_writable b (ArduinoController.mk (Some p1)) p1 eq_refl Hw1)
    as (p2 & -> & Hw2 & Hwr2).
  unfold ArduinoController.wire. cbn [ArduinoController.connection].
  rewrite Hwr2, Hwr1. now rewrite app_assoc.
Qed.

Lemma concurrent_gestures_merge_yes_tilt :
  ArduinoController.wire
    (Gestures.interleave [] Gestures.gesture_yes Gestures.gesture_head_tilt
       (ArduinoController._connect (Some Serial.fresh)))
  = ["yes" ++ Py.nl; "head_100" ++ Py.nl; "head_80" ++ Py.nl].
Proof.
  apply (proj2 (concurrent_gestures_merge [] Gestures.gesture_yes
                  Gestures.gesture_head_tilt
                  (ArduinoController._connect (Some Serial.fresh))
                  Serial.fresh eq_refl (conj eq_refl eq_refl))).
Defined.

(** C3 fails: a wave and a natural movement performed at the same time, the
    scheduler switching after the first call of the wave, put the head
    command between two commands of the wave. *)
Lemma gestures_interleave_on_the_wire :
  Py.get "wave" (Gestures.gestures 0 0) = Some Gestures.gesture_wave
  /\ Py.get "natural_movement" (Gestures.gestures 0 0)
     = Some (ArduinoController.natural_movement_body 0 0)
  /\ ArduinoController.wire
       (Gestures.interleave [true; false] Gestures.gesture_wave
          (ArduinoController.natural_movement_body 0 0)
          (ArduinoController._connect (Some Serial.fresh)))
     = map (fun command => command ++ Py.nl)
         ["right_arm_135"; "head_65"; "right_arm_150"; "right_arm_135";
          "right_arm_150"; "right_arm_135"; "head_80"].
Proof. repeat split. Qed.

(** ** The script's idle thread and the conversation lock *)

Lemma idle_calls_app (tr1 tr2 : list Trace.event) :
  Trace.idle_calls (tr1 ++ tr2) = (Trace.idle_calls tr1 ++ Trace.idle_calls tr2)%list.
Proof. apply flat_map_app. Qed.

Lemma loop_head_quiet (d : Py.draws) (w : Rufus.t) :
  quiet (Rufus.loop_head d w) = true.
Proof. unfold Rufus.loop_head. now destruct (Rufus.idle_animation_running w). Qed.







Lemma idle_servo_limits (r : nat) :
  exists limits,
    Py.get (Py.choice "" ["head"; "left_arm"; "right_arm"] r) Rufus.SERVO_LIMITS
    = Some limits.
Proof.
  destruct (choice_in "" ["head"; "left_arm"; "right_arm"] r ltac:(discriminate))
    as [<- | [<- | [<- | []]]]; eexists; reflexivity.
Qed.

Lemma drain_writable (p : Serial.port) :
  Serial.writable p -> Serial.writable (Serial.drain p).
Proof. intros H. exact H. Qed.

Lemma call_writable (who : Trace.actor) (cmd : string) (w : Rufus.t)
      (p : Serial.port) :
  Rufus.arduino w = Some p ->
  Serial.writable p ->
  exists p',
    Rufus.call who cmd w
    = (true, Rufus.log (Trace.Call who cmd) (Rufus.set_arduino (Some p') w))
    /\ Serial.writable p'.
Proof.
  intros Ha Hw. unfold Rufus.call, Rufus.write_ok, Rufus.send_command.
  rewrite Ha.
  destruct (write_writable (cmd ++ Py.nl) p Hw) as (p' & -> & Hw' & _).
  exists (Serial.drain p'). split; [reflexivity | apply drain_writable, Hw'].
Qed.

Lemma tick_single (rng : nat -> nat -> Py.draws) (w : Rufus.t) (p : Rufus.pc) :
  Rufus.threads w = [p] ->
  Rufus.tick rng w
  = Rufus.set_clock (S (Rufus.clock w))
      (Rufus.set_threads [fst (Rufus.advance 0 (rng (Rufus.clock w) 0%nat) p w)]
         (snd (Rufus.advance 0 (rng (Rufus.clock w) 0%nat) p w))).
Proof.
  intros Ht. unfold Rufus.tick. rewrite Ht. cbn [Rufus.advance_all].
  now destruct (Rufus.advance 0 (rng (Rufus.clock w) 0%nat) p w).
Qed.

Lemma sleep_through (rng : nat -> nat -> Py.draws) (k : nat) :
  forall w : Rufus.t,
    Rufus.threads w = [Rufus.Sleeping (S k)] ->
    Rufus.idle_animation_running w = true ->
    (exists q, Rufus.arduino w = Some q /\ Serial.writable q) ->
    reaches w (Rufus.ticks rng k w) k (Rufus.Sleeping 1) [].
Proof.
  induction k as [| k IH]; intros w Ht Hr Hq.
  - cbn [Rufus.ticks]. unfold reaches. rewrite app_nil_r. auto 10.
  - cbn [Rufus.ticks]. rewrite (tick_single rng w _ Ht).
    cbn [Rufus.advance]. rewrite Hr. cbn [negb fst snd].
    set (w1 := Rufus.set_clock _ _).
    destruct (IH w1 eq_refl Hr Hq) as (H1 & H2 & H3 & H4 & H5 & H6).
    unfold reaches. repeat split; try assumption.
    rewrite H4. subst w1. cbn [Rufus.set_clock Rufus.clock]. lia.
Qed.


Lemma ticks_add (rng : nat -> nat -> Py.draws) (a b : nat) (w : Rufus.t) :
  Rufus.ticks rng (a + b) w = Rufus.ticks rng b (Rufus.ticks rng a w).
Proof.
  revert w. induction a as [| a IH]; intros w; [reflexivity |].
  cbn [Nat.add Rufus.ticks]. apply IH.
Qed.




(** ** Shutting down the script *)

Lemma call_shape (who : Trace.actor) (cmd : string) (w : Rufus.t)
      (q : Serial.port) :
  Rufus.arduino w = Some q ->
  exists q',
    Rufus.call who cmd w
    = (Rufus.write_ok (Some q) cmd,
       Rufus.log (Trace.Call who cmd) (Rufus.set_arduino (Some q') w)).
Proof.
  intros Ha. unfold Rufus.call, Rufus.send_command, Rufus.write_ok. rewrite Ha.
  destruct (Serial.write (cmd ++ Py.nl) q) as [e | q']; cbn [snd]; eauto.
Qed.

Lemma advance_all_dones (rng : nat -> nat -> Py.draws) (n : nat) :
  forall (i : nat) (ps : list Rufus.pc) (w : Rufus.t),
    Rufus.advance_all rng i (repeat Rufus.Done n ++ ps) w
    = (repeat Rufus.Done n ++ fst (Rufus.advance_all rng (n + i) ps w),
       snd (Rufus.advance_all rng (n + i) ps w))%list.
Proof.
  induction n as [| n IH]; intros i ps w.
  - cbn [repeat app Nat.add]. now destruct (Rufus.advance_all rng i ps w).
  - cbn [repeat app Rufus.advance_all Rufus.advance].
    rewrite IH, Nat.add_succ_r. reflexivity.
Qed.

(** The threads before the last have returned: a slice moves the last. *)
Lemma tick_last (rng : nat -> nat -> Py.draws) (w : Rufus.t) (n : nat)
      (p : Rufus.pc) :
  Rufus.threads w = (repeat Rufus.Done n ++ [p])%list ->
  Rufus.tick rng w
  = Rufus.set_clock (S (Rufus.clock w))
      (Rufus.set_threads
         (repeat Rufus.Done n
            ++ [fst (Rufus.advance n (rng (Rufus.clock w) n) p w)])
         (snd (Rufus.advance n (rng (Rufus.clock w) n) p w))).
Proof.
  intros Ht. unfold Rufus.tick. rewrite Ht, advance_all_dones, Nat.add_0_r.
  cbn [Rufus.advance_all].
  now destruct (Rufus.advance n (rng (Rufus.clock w) n) p w).
Qed.

Lemma nth_last_thread (n : nat) (p : Rufus.pc) :
  nth n (repeat Rufus.Done n ++ [p]) Rufus.Done = p.
Proof.
  rewrite app_nth2; rewrite repeat_length; [| lia].
  now rewrite Nat.sub_diag.
Qed.

Lemma framed_refl (w : Rufus.t) : framed w w.
Proof. unfold framed. eauto. Qed.

Lemma framed_trans (w1 w2 w3 : Rufus.t) :
  framed w1 w2 -> framed w2 w3 -> framed w1 w3.
Proof.
  intros (H1 & H2 & H3 & H4) (H1' & H2' & H3' & H4'). unfold framed.
  rewrite H1', H2', H3', H1, H2, H3. repeat split.
  intros q Hq. destruct (H4 q Hq) as (q' & Hq'). eauto.
Qed.

Lemma call_framed (who : Trace.actor) (cmd : string) (w : Rufus.t) :
  framed w (snd (Rufus.call who cmd w)).
Proof.
  unfold framed. repeat split. intros q Hq.
  destruct (call_shape who cmd w q Hq) as (q' & ->).
  exists q'. reflexivity.
Qed.

Lemma after_sleep_framed (i : nat) (d : Py.draws) (w : Rufus.t) :
  framed w (snd (Rufus.after_sleep i d w)).
Proof.
  unfold Rufus.after_sleep.
  destruct (Rufus.conversation_locked w); [apply framed_refl |].
  destruct (Rufus.arduino w); [| apply framed_refl].
  destruct (Py.get _ Rufus.SERVO_LIMITS) as [limits |]; [| apply framed_refl].
  match goal with
  | |- context [Rufus.call ?a ?c ?w0] =>
      pose proof (call_framed a c w0) as Hcall;
        destruct (Rufus.call a c w0) as [ok w']
  end.
  exact Hcall.
Qed.

Lemma advance_framed (i : nat) (d : Py.draws) (p : Rufus.pc) (w : Rufus.t) :
  framed w (snd (Rufus.advance i d p w)).
Proof.
  destruct p as [k | servo limits k | |]; cbn [Rufus.advance];
    try apply framed_refl.
  - destruct (negb (Rufus.idle_animation_running w)); [apply framed_refl |].
    destruct k as [| [| k']];
      [apply after_sleep_framed | apply after_sleep_framed | apply framed_refl].
  - destruct k as [| [| k']]; [| | apply framed_refl].
    all: match goal with
         | |- context [Rufus.call ?a ?c ?w0] =>
             pose proof (call_framed a c w0) as Hcall;
               destruct (Rufus.call a c w0) as [ok w']
         end;
      destruct ok; exact Hcall.
Qed.

Lemma advance_all_framed (rng : nat -> nat -> Py.draws) (ps : list Rufus.pc) :
  forall (i : nat) (w : Rufus.t),
    framed w (snd (Rufus.advance_all rng i ps w)).
Proof.
  induction ps as [| p ps IH]; intros i w; [apply framed_refl |].
  cbn [Rufus.advance_all].
  pose proof (advance_framed i (rng (Rufus.clock w) i) p w) as H1.
  destruct (Rufus.advance i (rng (Rufus.clock w) i) p w) as [p' w'].
  pose proof (IH (S i) w') as H2.
  destruct (Rufus.advance_all rng (S i) ps w') as [ps' w''].
  exact (framed_trans _ _ _ H1 H2).
Qed.

Lemma tick_frame (rng : nat -> nat -> Py.draws) (w : Rufus.t) :
  Rufus.idle_animation_running (Rufus.tick rng w) = Rufus.idle_animation_running w
  /\ Rufus.conversation_locked (Rufus.tick rng w) = Rufus.conversation_locked w
  /\ (forall q, Rufus.arduino w = Some q ->
                exists q', Rufus.arduino (Rufus.tick rng w) = Some q').
Proof.
  unfold Rufus.tick.
  destruct (advance_all_framed rng (Rufus.threads w) 0 w) as (H1 & H2 & _ & H3).
  destruct (Rufus.advance_all rng 0 (Rufus.threads w) w) as [ps w'].
  cbn [snd] in *. auto.
Qed.

Lemma join_frame (rng : nat -> nat -> Py.draws) (t : nat) :
  forall (i : nat) (w : Rufus.t),
    Rufus.idle_animation_running (Rufus.join rng t i w)
    = Rufus.idle_animation_running w
    /\ Rufus.conversation_locked (Rufus.join rng t i w)
       = Rufus.conversation_locked w
    /\ (forall q, Rufus.arduino w = Some q ->
                  exists q', Rufus.arduino (Rufus.join rng t i w) = Some q').
Proof.
  induction t as [| t IH]; intros i w; cbn [Rufus.join];
    destruct (Rufus.terminated i w); try (cbn; eauto).
  destruct (tick_frame rng w) as (H1 & H2 & H3).
  destruct (IH i (Rufus.tick rng w)) as (H1' & H2' & H3').
  rewrite H1', H2', H1, H2. repeat split.
  intros q Hq. destruct (H3 q Hq) as (q' & Hq'). eauto.
Qed.

Lemma tick_winding_down (rng : nat -> nat -> Py.draws) (w : Rufus.t) (n : nat)
      (pc : Rufus.pc) :
  Rufus.idle_animation_running w = false ->
  Rufus.threads w = (repeat Rufus.Done n ++ [pc])%list ->
  exists pc' cs,
    Rufus.threads (Rufus.tick rng w) = (repeat Rufus.Done n ++ [pc'])%list
    /\ (winding_down pc' <= winding_down pc - 1)%nat
    /\ Rufus.trace (Rufus.tick rng w)
       = (Rufus.trace w ++ map (Trace.Call (Trace.Idle n)) cs)%list
    /\ (cs ++ remaining pc')%list = remaining pc.
Proof.
  intros Hr Ht. rewrite (tick_last rng w n pc Ht).
  destruct pc as [k | servo limits k | |]; cbn [Rufus.advance].
  - rewrite Hr. cbn [negb fst snd].
    exists Rufus.Done, []. cbn. rewrite app_nil_r. auto.
  - destruct k as [| [| k']].
    1,2: unfold Rufus.call;
      destruct (Rufus.write_ok (Rufus.arduino w)
                  (servo ++ "_" ++ Py.str (Rufus.rest limits)));
      [ exists Rufus.Settling | exists Rufus.Done ];
      exists [(servo ++ "_" ++ Py.str (Rufus.rest limits))%string];
      unfold Rufus.loop_head;
      cbn [Rufus.log Rufus.set_arduino Rufus.set_clock Rufus.set_threads
             Rufus.idle_animation_running Rufus.threads Rufus.trace
             fst snd winding_down map Nat.max Nat.sub remaining app];
      rewrite ?Hr; repeat split; auto; lia.
    exists (Rufus.Holding servo limits (S k')), [].
    cbn [fst snd Rufus.set_clock Rufus.set_threads Rufus.threads Rufus.trace
           map winding_down remaining app].
    rewrite app_nil_r. repeat split; auto; lia.
  - unfold Rufus.loop_head. rewrite Hr. cbn [fst snd].
    exists Rufus.Done, []. cbn. rewrite app_nil_r. auto.
  - exists Rufus.Done, []. cbn. rewrite app_nil_r. auto.
Qed.

Lemma join_winding_down (rng : nat -> nat -> Py.draws) (t : nat) :
  forall (w : Rufus.t) (n : nat) (pc : Rufus.pc),
    Rufus.idle_animation_running w = false ->
    Rufus.threads w = (repeat Rufus.Done n ++ [pc])%list ->
    (winding_down pc <= t)%nat ->
    Rufus.threads (Rufus.join rng t n w)
    = (repeat Rufus.Done n ++ [Rufus.Done])%list
    /\ Rufus.trace (Rufus.join rng t n w)
       = (Rufus.trace w ++ map (Trace.Call (Trace.Idle n)) (remaining pc)
            ++ [Trace.Join n true])%list.
Proof.
  induction t as [| t IH]; intros w n pc Hr Ht Hpc.
  - destruct pc; cbn [winding_down] in Hpc; try lia.
    cbn [Rufus.join]. unfold Rufus.terminated.
    rewrite Ht, nth_last_thread. cbn. auto.
  - cbn [Rufus.join]. unfold Rufus.terminated. rewrite Ht, nth_last_thread.
    destruct pc as [k | servo limits k | |].
    4: { cbn. auto. }
    all: destruct (tick_winding_down rng w n _ Hr Ht)
        as (pc' & cs & Ht' & Hpc' & Htr' & Hcs);
      destruct (tick_frame rng w) as (Hr' & _ & _);
      rewrite Hr in Hr';
      destruct (IH (Rufus.tick rng w) n pc' Hr' Ht' ltac:(lia)) as (H1 & H2);
      rewrite H2, Htr', <- Hcs, map_app, <- !app_assoc; auto.
Qed.


Lemma well_formed_winds_down (pc : Rufus.pc) :
  well_formed pc -> (winding_down pc <= 20)%nat.
Proof. destruct pc; cbn; lia. Qed.

Lemma script_stop_last (rng : nat -> nat -> Py.draws) (w : Rufus.t) (n : nat)
      (pc : Rufus.pc) :
  Rufus.threads w = (repeat Rufus.Done n ++ [pc])%list ->
  well_formed pc ->
  Rufus.threads (Rufus.stop_idle_animations rng w)
  = (repeat Rufus.Done n ++ [Rufus.Done])%list
  /\ Rufus.trace (Rufus.stop_idle_animations rng w)
     = (Rufus.trace w ++ [Trace.Signal false]
          ++ map (Trace.Call (Trace.Idle n)) (remaining pc)
          ++ [Trace.Join n true])%list
  /\ Rufus.idle_animation_running (Rufus.stop_idle_animations rng w) = false
  /\ Rufus.conversation_locked (Rufus.stop_idle_animations rng w)
     = Rufus.conversation_locked w
  /\ (forall q, Rufus.arduino w = Some q ->
                exists q', Rufus.arduino (Rufus.stop_idle_animations rng w)
                           = Some q').
Proof.
  intros Ht Hwf. unfold Rufus.stop_idle_animations.
  change (Rufus.threads (Rufus.set_running false w)) with (Rufus.threads w).
  rewrite Ht.
  assert (Hlen : (List.length (repeat Rufus.Done n ++ [pc]) - 1 = n)%nat).
  { rewrite length_app, repeat_length. cbn. lia. }
  rewrite Hlen.
  destruct (repeat Rufus.Done n ++ [pc])%list as [| p0 l0] eqn:Hnil.
  { destruct (repeat Rufus.Done n); discriminate. }
  rewrite <- Hnil in Ht.
  destruct (join_winding_down rng 20 (Rufus.set_running false w) n pc
              eq_refl Ht (well_formed_winds_down pc Hwf)) as (H1 & H2).
  destruct (join_frame rng 20 n (Rufus.set_running false w)) as (H3 & H4 & H5).
  rewrite H1, H2, H3, H4.
  cbn [Rufus.set_running Rufus.trace Rufus.idle_animation_running
         Rufus.conversation_locked].
  rewrite <- !app_assoc. repeat split. exact H5.
Qed.



(** ** Shutting down the class *)






Lemma bot_tick_single (rng : nat -> nat -> Py.draws) (w : GestureController.t)
      (p : GestureController.pc) :
  GestureController.threads w = [p] ->
  GestureController.tick rng w
  = GestureController.set_clock (S (GestureController.clock w))
      (GestureController.set_threads
         [fst (GestureController.advance 0
                 (rng (GestureController.clock w) 0%nat) p w)]
         (snd (GestureController.advance 0
                 (rng (GestureController.clock w) 0%nat) p w))).
Proof.
  intros Ht. unfold GestureController.tick. rewrite Ht.
  cbn [GestureController.advance_all].
  now destruct (GestureController.advance 0 _ p w).
Qed.

Lemma bot_tick_calm (rng : nat -> nat -> Py.draws) (w : GestureController.t)
      (pc : GestureController.pc) :
  GestureController.idle_animation_running w = false ->
  GestureController.threads w = [pc] ->
  calm pc ->
  exists pc',
    calm pc'
    /\ GestureController.tick rng w
       = GestureController.set_clock (S (GestureController.clock w))
           (GestureController.set_threads [pc'] w).
Proof.
  intros Hr Ht Hc. rewrite (bot_tick_single rng w pc Ht).
  destruct pc as [k | todo k |]; [| contradiction |].
  - destruct k as [| [| k']]; cbn [GestureController.advance];
      rewrite ?Hr; cbn [negb fst snd].
    + now exists GestureController.Done.
    + now exists GestureController.Done.
    + now exists (GestureController.Sleeping (S k')).
  - now exists GestureController.Done.
Qed.

Lemma bot_ticks_calm (rng : nat -> nat -> Py.draws) (n : nat) :
  forall (w : GestureController.t) (pc : GestureController.pc),
    GestureController.idle_animation_running w = false ->
    GestureController.threads w = [pc] ->
    calm pc ->
    GestureController.trace (GestureController.ticks rng n w)
    = GestureController.trace w.
Proof.
  induction n as [| n IH]; intros w pc Hr Ht Hc; [reflexivity |].
  cbn [GestureController.ticks].
  destruct (bot_tick_calm rng w pc Hr Ht Hc) as (pc' & Hc' & ->).
  now rewrite (IH (GestureController.set_clock (S (GestureController.clock w))
                     (GestureController.set_threads [pc'] w)) pc' Hr eq_refl Hc').
Qed.









(** ** The class's idle thread: stopping and restarting *)

Lemma bot_join_times_out (rng : nat -> nat -> Py.draws) (t : nat) :
  forall (a : ArduinoController.t) (r : bool) (n c : nat) (tr : list Trace.event),
    (t + 2 <= n)%nat ->
    GestureController.join rng t 0
      (GestureController.mk a r [GestureController.Sleeping n] c tr)
    = GestureController.mk a r [GestureController.Sleeping (n - t)] (t + c)
        (tr ++ [Trace.Join 0 false]).
Proof.
  induction t as [| t IH]; intros a r n c tr Hn.
  - cbn. now rewrite Nat.sub_0_r.
  - destruct n as [| [| n']]; [lia | lia |].
    cbn [GestureController.join GestureController.terminated
           GestureController.threads nth].
    change (GestureController.tick rng
              (GestureController.mk a r [GestureController.Sleeping (S (S n'))] c tr))
      with (GestureController.mk a r [GestureController.Sleeping (S n')] (S c) tr).
    rewrite IH by lia. f_equal; lia.
Qed.

Lemma bot_first_interval (rng : nat -> nat -> Py.draws) (a : ArduinoController.t) :
  exists n,
    (80 <= n <= 150)%nat
    /\ GestureController.start_idle_animations rng (GestureController.init a)
       = GestureController.mk a true [GestureController.Sleeping n] 0
           [Trace.Signal true; Trace.Spawn 0].
Proof.
  eexists. split; [| reflexivity].
  apply (uniform_slices_range 8 15). lia.
Qed.

Lemma bot_stop_after_start (rng : nat -> nat -> Py.draws)
      (a : ArduinoController.t) :
  exists k,
    (60 <= k)%nat
    /\ GestureController.stop_idle_animations rng
         (GestureController.start_idle_animations rng (GestureController.init a))
       = GestureController.mk a false [GestureController.Sleeping k] 20
           [Trace.Signal true; Trace.Spawn 0; Trace.Signal false;
            Trace.Join 0 false].
Proof.
  destruct (bot_first_interval rng a) as (n & Hn & ->).
  exists (n - 20)%nat. split; [lia |].
  change (GestureController.stop_idle_animations rng
            (GestureController.mk a true [GestureController.Sleeping n] 0
               [Trace.Signal true; Trace.Spawn 0]))
    with (GestureController.join rng 20 0
            (GestureController.mk a false [GestureController.Sleeping n] 0
               [Trace.Signal true; Trace.Spawn 0; Trace.Signal false])).
  rewrite bot_join_times_out by lia. reflexivity.
Qed.

(** C6 on the class: [stop_idle_animations] called right after
    [start_idle_animations] gives up its join after 2s with the thread still
    inside [time.sleep(interval)], 6s or more of it to go; the thread has
    sent nothing, and sends nothing later either. *)
Theorem stop_leaves_thread_asleep (rng : nat -> nat -> Py.draws)
        (a : ArduinoController.t) :
  exists k,
    (60 <= k)%nat
    /\ GestureController.stop_idle_animations rng
         (GestureController.start_idle_animations rng (GestureController.init a))
       = GestureController.mk a false [GestureController.Sleeping k] 20
           [Trace.Signal true; Trace.Spawn 0; Trace.Signal false;
            Trace.Join 0 false]
    /\ forall n,
        GestureController.trace
          (GestureController.ticks rng n
             (GestureController.stop_idle_animations rng
                (GestureController.start_idle_animations rng
                   (GestureController.init a))))
        = [Trace.Signal true; Trace.Spawn 0; Trace.Signal false;
           Trace.Join 0 false].
Proof.
  destruct (bot_stop_after_start rng a) as (k & Hk & Hstop).
  exists k. split; [exact Hk | split; [exact Hstop |]].
  intros n. rewrite Hstop.
  now rewrite (bot_ticks_calm rng n
                 (GestureController.mk a false [GestureController.Sleeping k] 20
                    [Trace.Signal true; Trace.Spawn 0; Trace.Signal false;
                     Trace.Join 0 false])
                 (GestureController.Sleeping k) eq_refl eq_refl I).
Qed.

(** C10 on the class: [start], [stop], [start] leaves two idle threads alive,
    the flag set for both; with every draw 0 and a healthy port both go on to
    move the head. *)
Theorem restart_leaves_two_threads :
  (forall rng a,
      let w := GestureController.start_idle_animations rng
                 (GestureController.stop_idle_animations rng
                    (GestureController.start_idle_animations rng
                       (GestureController.init a))) in
      GestureController.alive w = 2%nat
      /\ GestureController.idle_animation_running w = true
      /\ exists k n, GestureController.threads w
                     = [GestureController.Sleeping k; GestureController.Sleeping n])
  /\ GestureController.trace
       (GestureController.ticks zero_draws 90
          (GestureController.start_idle_animations zero_draws
             (GestureController.stop_idle_animations zero_draws
                (GestureController.start_idle_animations zero_draws
                   (GestureController.init
                      (ArduinoController._connect (Some Serial.fresh)))))))
     = [Trace.Signal true; Trace.Spawn 0; Trace.Signal false; Trace.Join 0 false;
        Trace.Signal true; Trace.Spawn 1;
        Trace.Call (Trace.Idle 0) "head_65"; Trace.Call (Trace.Idle 0) "head_80";
        Trace.Call (Trace.Idle 1) "head_65"; Trace.Call (Trace.Idle 1) "head_80"].
Proof.
  split; [| vm_compute; reflexivity].
  intros rng a. destruct (bot_stop_after_start rng a) as (k & Hk & ->).
  cbv zeta. unfold GestureController.start_idle_animations.
  cbn [GestureController.idle_animation_running GestureController.set_running
         GestureController.threads GestureController.log
         GestureController.set_threads GestureController.loop_head
         GestureController.alive app filter List.length].
  repeat split. eauto.
Qed.

(** ** Starting twice, and stopping the script's thread *)

(** A second [start_idle_animations] finds the flag set and does nothing, in
    the script and in the class alike. *)
Theorem start_idle_animations_idempotent (rng : nat -> nat -> Py.draws) :
  (forall w, Rufus.idle_animation_running w = true ->
             Rufus.start_idle_animations rng w = w)
  /\ (forall w, Rufus.start_idle_animations rng (Rufus.start_idle_animations rng w)
                = Rufus.start_idle_animations rng w)
  /\ (forall w, GestureController.idle_animation_running w = true ->
                GestureController.start_idle_animations rng w = w)
  /\ (forall w, GestureController.start_idle_animations rng
                  (GestureController.start_idle_animations rng w)
                = GestureController.start_idle_animations rng w).
Proof.
  repeat split.
  - intros w Hr. unfold Rufus.start_idle_animations. now rewrite Hr.
  - intros w.
    assert (Hr : Rufus.idle_animation_running (Rufus.start_idle_animations rng w)
                 = true).
    { unfold Rufus.start_idle_animations.
      destruct (Rufus.idle_animation_running w) eqn:Hr; [exact Hr | reflexivity]. }
    unfold Rufus.start_idle_animations at 1. now rewrite Hr.
  - intros w Hr. unfold GestureController.start_idle_animations. now rewrite Hr.
  - intros w.
    assert (Hr : GestureController.idle_animation_running
                   (GestureController.start_idle_animations rng w) = true).
    { unfold GestureController.start_idle_animations.
      destruct (GestureController.idle_animation_running w) eqn:Hr;
        [exact Hr | reflexivity]. }
    unfold GestureController.start_idle_animations at 1. now rewrite Hr.
Qed.

Lemma start_idle_animations_idempotent_script :
  Rufus.start_idle_animations zero_draws
    (Rufus.start_idle_animations zero_draws (Rufus.init None))
  = Rufus.start_idle_animations zero_draws (Rufus.init None).
Proof.
  apply (proj1 (start_idle_animations_idempotent zero_draws)). reflexivity.
Defined.

(** The script's thread, stopped anywhere in its interval sleep, returns when
    the slice it is in ends, having sent nothing. *)
Theorem script_stop_within_one_slice (rng : nat -> nat -> Py.draws)
        (w : Rufus.t) (k : nat) :
  Rufus.threads w = [Rufus.Sleeping k] ->
  Rufus.threads (Rufus.stop_idle_animations rng w) = [Rufus.Done]
  /\ Rufus.clock (Rufus.stop_idle_animations rng w) = S (Rufus.clock w)
  /\ Rufus.trace (Rufus.stop_idle_animations rng w)
     = (Rufus.trace w ++ [Trace.Signal false; Trace.Join 0 true])%list.
Proof.
  intros Ht. unfold Rufus.stop_idle_animations.
  change (Rufus.threads (Rufus.set_running false w)) with (Rufus.threads w).
  rewrite Ht. cbn [List.length Nat.sub Rufus.join].
  assert (Hterm : Rufus.terminated 0 (Rufus.set_running false w) = false).
  { unfold Rufus.terminated.
    change (Rufus.threads (Rufus.set_running false w)) with (Rufus.threads w).
    now rewrite Ht. }
  rewrite Hterm.
  rewrite (tick_single rng (Rufus.set_running false w) (Rufus.Sleeping k) Ht).
  cbn [Rufus.advance Rufus.set_running Rufus.idle_animation_running negb fst snd].
  cbn [Rufus.terminated Rufus.set_clock Rufus.set_threads Rufus.threads nth
         Rufus.log Rufus.clock Rufus.trace Rufus.arduino
         Rufus.idle_animation_running Rufus.conversation_locked].
  repeat split.
  change (Rufus.trace (Rufus.set_running false w))
    with (Rufus.trace w ++ [Trace.Signal false])%list.
  now rewrite <- app_assoc.
Qed.

Lemma script_stop_within_one_slice_early :
  Rufus.threads
    (Rufus.stop_idle_animations zero_draws
       (Rufus.start_idle_animations zero_draws (Rufus.init (Some Serial.fresh))))
  = [Rufus.Done]
  /\ Rufus.clock
       (Rufus.stop_idle_animations zero_draws
          (Rufus.start_idle_animations zero_draws
             (Rufus.init (Some Serial.fresh))))
     = 1%nat.
Proof.
  destruct (script_stop_within_one_slice zero_draws
              (Rufus.start_idle_animations zero_draws
                 (Rufus.init (Some Serial.fresh)))
              80 eq_refl) as (H1 & H2 & _).
  split; [exact H1 | exact H2].
Defined.

(** ** One idle thread at a time in the script *)

Lemma loop_head_well_formed (d : Py.draws) (w : Rufus.t) :
  well_formed (Rufus.loop_head d w).
Proof. unfold Rufus.loop_head. now destruct (Rufus.idle_animation_running w). Qed.

Lemma after_sleep_well_formed (i : nat) (d : Py.draws) (w : Rufus.t) :
  well_formed (fst (Rufus.after_sleep i d w)).
Proof.
  unfold Rufus.after_sleep.
  destruct (Rufus.conversation_locked w); [apply loop_head_well_formed |].
  destruct (Rufus.arduino w); [| apply loop_head_well_formed].
  destruct (Py.get _ Rufus.SERVO_LIMITS) as [limits |]; [| exact I].
  match goal with
  | |- context [Rufus.call ?a ?c ?w0] => destruct (Rufus.call a c w0) as [ok w']
  end.
  destruct ok; cbn; lia.
Qed.

Lemma advance_well_formed (i : nat) (d : Py.draws) (p : Rufus.pc) (w : Rufus.t) :
  well_formed p -> well_formed (fst (Rufus.advance i d p w)).
Proof.
  intros Hwf. destruct p as [k | servo limits k | |]; cbn [Rufus.advance].
  - destruct (negb (Rufus.idle_animation_running w)); [exact I |].
    destruct k as [| [| k']];
      [apply after_sleep_well_formed | apply after_sleep_well_formed | exact I].
  - destruct k as [| [| k']]; [| | cbn in *; lia].
    all: match goal with
         | |- context [Rufus.call ?a ?c ?w0] =>
             destruct (Rufus.call a c w0) as [ok w']
         end;
      destruct ok; cbn [fst]; try exact I; apply loop_head_well_formed.
  - apply loop_head_well_formed.
  - exact I.
Qed.

Lemma tick_keeps_single (rng : nat -> nat -> Py.draws) (w : Rufus.t) :
  single w -> single (Rufus.tick rng w).
Proof.
  intros [Ht | (n & p & Ht & Hwf & Hdone)].
  - left. unfold Rufus.tick. now rewrite Ht.
  - right. rewrite (tick_last rng w n p Ht).
    exists n, (fst (Rufus.advance n (rng (Rufus.clock w) n) p w)).
    split; [reflexivity | split; [apply advance_well_formed, Hwf |]].
    destruct (advance_framed n (rng (Rufus.clock w) n) p w) as (Hr & _).
    cbn [Rufus.set_clock Rufus.set_threads Rufus.idle_animation_running].
    rewrite Hr. intros Hoff. now rewrite (Hdone Hoff).
Qed.

Lemma call_keeps_single (who : Trace.actor) (cmd : string) (w : Rufus.t) :
  single w -> single (snd (Rufus.call who cmd w)).
Proof. intros H. exact H. Qed.

Lemma repeat_done_snoc (n : nat) :
  (repeat Rufus.Done n ++ [Rufus.Done])%list = repeat Rufus.Done (S n).
Proof. now rewrite <- repeat_cons. Qed.

Lemma start_keeps_single (rng : nat -> nat -> Py.draws) (w : Rufus.t) :
  single w -> single (Rufus.start_idle_animations rng w).
Proof.
  intros Hs. unfold Rufus.start_idle_animations.
  destruct (Rufus.idle_animation_running w) eqn:Hr; [exact Hs |].
  right. cbn [Rufus.log Rufus.set_threads Rufus.set_running Rufus.threads
                Rufus.idle_animation_running Rufus.clock].
  destruct Hs as [Ht | (n & p & Ht & Hwf & Hdone)].
  - exists 0%nat. eexists. rewrite Ht. split; [reflexivity |].
    split; [exact I | discriminate].
  - exists (S n). eexists. rewrite Ht, (Hdone Hr), repeat_done_snoc.
    split; [reflexivity |]. split; [exact I | discriminate].
Qed.

Lemma stop_keeps_single (rng : nat -> nat -> Py.draws) (w : Rufus.t) :
  single w -> single (Rufus.stop_idle_animations rng w).
Proof.
  intros [Ht | (n & p & Ht & Hwf & Hdone)].
  - left. unfold Rufus.stop_idle_animations.
    change (Rufus.threads (Rufus.set_running false w)) with (Rufus.threads w).
    now rewrite Ht.
  - right. destruct (script_stop_last rng w n p Ht Hwf) as (H1 & _).
    exists n, Rufus.Done. split; [exact H1 | split; [exact I | reflexivity]].
Qed.

Lemma do_step_keeps_single (rng : nat -> nat -> Py.draws) (s : Rufus.step)
      (w : Rufus.t) :
  single w -> single (Rufus.do_step rng s w).
Proof.
  intros Hs. destruct s as [| | | cmd | |]; cbn [Rufus.do_step].
  - apply tick_keeps_single, Hs.
  - exact Hs.
  - exact Hs.
  - unfold Rufus.main_send.
    pose proof (call_keeps_single Trace.Main cmd w Hs) as Hs'.
    destruct (Rufus.call Trace.Main cmd w) as [ok w'].
    destruct ok; [apply tick_keeps_single |]; exact Hs'.
  - apply start_keeps_single, Hs.
  - apply stop_keeps_single, Hs.
Qed.

Lemma single_alive (w : Rufus.t) : single w -> (Rufus.alive w <= 1)%nat.
Proof.
  unfold Rufus.alive. intros [-> | (n & p & -> & _)]; [cbn; lia |].
  rewrite filter_app, length_app.
  assert (Hd : filter (fun p0 => match p0 with
                                 | Rufus.Done => false
                                 | _ => true
                                 end) (repeat Rufus.Done n) = []).
  { induction n; [reflexivity | exact IHn]. }
  rewrite Hd. cbn. destruct p; cbn; lia.
Qed.

(** In the script at most one idle-animation thread is alive at any time,
    whatever the main thread does: start, stop, lock, unlock, send, wait. *)
Theorem script_single_thread (rng : nat -> nat -> Py.draws)
        (l : list Rufus.step) (hw : option Serial.port) :
  (Rufus.alive (Rufus.do_steps rng l (Rufus.init hw)) <= 1)%nat.
Proof.
  apply single_alive.
  assert (H0 : single (Rufus.init hw)) by (left; reflexivity).
  revert H0. generalize (Rufus.init hw).
  induction l as [| s l IH]; intros w Hs; [exact Hs |].
  cbn [Rufus.do_steps]. apply IH, do_step_keeps_single, Hs.
Qed.

(** ** Substrings *)

Lemma prefix_app (a s : string) :
  String.prefix a s = true <-> exists post, s = a ++ post.
Proof.
  revert s; induction a as [|c a IH]; intros s.
  - destruct s; simpl; (split; [intros _; eexists; reflexivity | reflexivity]).
  - destruct s as [|d s]; simpl.
    + split; [discriminate | intros [post H]; discriminate].
    + destruct (Ascii.ascii_dec c d) as [->|ne].
      * rewrite IH. split; intros [post H]; exists post.
        -- now rewrite H.
        -- now inversion H.
      * split; [discriminate | intros [post H]; inversion H; subst; now elim ne].
Qed.

(** [sub in s] holds exactly when [s] is [sub] with something before and
    something after. *)
Lemma contains_app (sub s : string) :
  Py.contains sub s = true <-> exists pre post, s = pre ++ sub ++ post.
Proof.
  induction s as [|c s IH]; cbn [Py.contains].
  - rewrite orb_false_r, prefix_app. split.
    + intros [post H]; exists "", post; exact H.
    + intros [pre [post H]]. destruct pre; [exists post; exact H | discriminate].
  - rewrite orb_true_iff, prefix_app, IH. split.
    + intros [[post H] | [pre [post H]]].
      * exists "", post; exact H.
      * exists (String c pre), post; simpl; now rewrite H.
    + intros [pre [post H]]. destruct pre as [|d pre]; simpl in H.
      * left; exists post; exact H.
      * right; inversion H; subst. exists pre, post; reflexivity.
Qed.

Lemma string_append_assoc (a b c : string) : (a ++ b) ++ c = a ++ b ++ c.
Proof. induction a; simpl; [reflexivity | now rewrite IHa]. Qed.

Lemma contains_trans (a b s : string) :
  Py.contains a b = true -> Py.contains b s = true -> Py.contains a s = true.
Proof.
  rewrite !contains_app. intros [p1 [q1 H1]] [p2 [q2 H2]].
  exists (p2 ++ p1), (q1 ++ q2). subst.
  now rewrite !string_append_assoc.
Qed.

Lemma any_in_spec (words : list string) (s : string) :
  Py.any_in words s = true <-> exists w, In w words /\ Py.contains w s = true.
Proof. unfold Py.any_in. apply existsb_exists. Qed.

Lemma any_in_cons (w : string) (words : list string) (s : string) :
  Py.any_in (w :: words) s = Py.contains w s || Py.any_in words s.
Proof. reflexivity. Qed.

(** ** Slices of a list *)

Lemma suffix_skipn {A} (n : nat) (l : list A) :
  Py.suffix (S n) l = skipn (List.length l - S n) l.
Proof. reflexivity. Qed.

Lemma suffix_length {A} (n : nat) (l : list A) :
  (List.length (Py.suffix (S n) l) <= S n)%nat.
Proof. rewrite suffix_skipn, length_skipn. lia. Qed.

Lemma suffix_short {A} (n : nat) (l : list A) :
  (List.length l <= n)%nat -> Py.suffix n l = l.
Proof.
  destruct n; [reflexivity|]. intros H. rewrite suffix_skipn.
  replace (List.length l - S n)%nat with 0%nat by lia. reflexivity.
Qed.

(** Trimming on the way changes nothing: the last [n] of what was kept and
    what came after are the last [n] of everything. *)
Lemma suffix_suffix_app {A} (n : nat) (l r : list A) :
  Py.suffix (S n) (Py.suffix (S n) l ++ r) = Py.suffix (S n) (l ++ r).
Proof.
  rewrite !suffix_skipn, !length_app, length_skipn.
  rewrite !skipn_app, skipn_skipn, length_skipn.
  f_equal; f_equal; lia.
Qed.

Lemma pop_1 {A} (x y : A) (l : list A) : Py.pop 1 (x :: y :: l) = Some (x :: l).
Proof. reflexivity. Qed.

(** ** The conversation memory of the script *)

Lemma add_to_memory_step (question answer : string) (first : Chat.message)
      (kept : list Chat.message) :
  Rufus.add_to_memory question answer (first :: kept)
  = first :: Py.suffix 20 (kept ++ exchange (question, answer)).
Proof.
  unfold Rufus.add_to_memory, exchange.
  change (2 * Rufus.MAX_TURNS)%nat with 20%nat.
  change (1 + 20)%nat with 21%nat.
  cbv zeta. cbn [fst snd].
  rewrite <- !app_assoc. cbn [app].
  cbn [List.length]. rewrite length_app. cbn [List.length].
  destruct (Nat.ltb_spec 21 (S (List.length kept + 2))) as [H|H].
  - f_equal. rewrite !suffix_skipn.
    cbn [List.length]. rewrite length_app. cbn [List.length].
    replace (S (List.length kept + 2) - 20)%nat
      with (S (List.length kept + 2 - 20))%nat by lia.
    reflexivity.
  - f_equal. symmetry. apply suffix_short.
    rewrite length_app. cbn [List.length]. lia.
Qed.

Lemma fold_add_to_memory (turns : list (string * string)) :
  forall (first : Chat.message) (seen : list Chat.message),
    fold_left (fun h turn => Rufus.add_to_memory (fst turn) (snd turn) h)
              turns (first :: Py.suffix 20 seen)
    = first :: Py.suffix 20 (seen ++ flat_map exchange turns).
Proof.
  induction turns as [|[q a] turns IH]; intros first seen;
    cbn [fold_left flat_map fst snd].
  - now rewrite app_nil_r.
  - rewrite add_to_memory_step, suffix_suffix_app, IH, <- app_assoc.
    reflexivity.
Qed.

(** After any number of turns since the memory was last cleared, the
    script's memory is the system prompt followed by the last
    [2 * MAX_TURNS] messages, the last ten exchanges: never more than 21
    messages, and the system prompt is never dropped. *)
Theorem script_memory_window (turns : list (string * string)) :
  let memory :=
    fold_left (fun h turn => Rufus.add_to_memory (fst turn) (snd turn) h)
              turns Rufus.clear_memory in
  memory = Rufus.system_message
             :: Py.suffix (2 * Rufus.MAX_TURNS) (flat_map exchange turns)
  /\ (List.length memory <= 1 + 2 * Rufus.MAX_TURNS)%nat.
Proof.
  change (2 * Rufus.MAX_TURNS)%nat with 20%nat. cbv zeta.
  unfold Rufus.clear_memory.
  change [Rufus.system_message] with (Rufus.system_message :: Py.suffix 20 []).
  rewrite fold_add_to_memory. cbn [app]. split; [reflexivity|].
  cbn [List.length]. pose proof (suffix_length 19 (flat_map exchange turns)). lia.
Qed.

(** The request of a turn is built from the memory as the turn finds it,
    and the question enters the memory only with its answer.  So the answers
    to a run of questions do not depend on the last question asked: the
    model is never shown the question it is answering. *)
Theorem answers_ignore_the_question
        (chat : list Chat.message -> option string) (strip : string -> string)
        (questions : list string) (q q' : string) (h : list Chat.message) :
  fst (Rufus.main_turns chat strip (questions ++ [q]) h)
  = fst (Rufus.main_turns chat strip (questions ++ [q']) h).
Proof.
  revert h; induction questions as [|x questions IH]; intros h;
    cbn [app Rufus.main_turns].
  - reflexivity.
  - unfold Rufus.main_turn.
    specialize (IH (Rufus.add_to_memory x (Rufus.get_ai_response chat strip x h) h)).
    destruct (Rufus.main_turns chat strip (questions ++ [q]) _) as [a1 h1].
    destruct (Rufus.main_turns chat strip (questions ++ [q']) _) as [a2 h2].
    cbn [fst] in *. now rewrite IH.
Qed.

(** ** The gestures of a turn of the script *)

Lemma script_send_writable (cmd : string) (p : Serial.port) :
  Serial.writable p ->
  exists p', Rufus.send_command (Some p) cmd = (tt, Some p')
             /\ Serial.writable p'
             /\ Serial.written p'
                = (Serial.written p ++ [(cmd ++ Py.nl)%string])%list.
Proof.
  intros W. destruct (write_writable (cmd ++ Py.nl) p W) as [p' [E [W' Wr]]].
  exists (Serial.drain p'). unfold Rufus.send_command. rewrite E.
  split; [reflexivity|]. split; [now apply drain_writable | exact Wr].
Qed.

Lemma send_each_writable (l : list string) :
  forall p : Serial.port,
    Serial.writable p ->
    exists p', Rufus.send_each l (Some p) = Some p'
               /\ Serial.writable p'
               /\ Serial.written p'
                  = (Serial.written p
                       ++ map (fun m => (m ++ Py.nl)%string) l)%list.
Proof.
  induction l as [|m l IH]; intros p W; cbn [Rufus.send_each map].
  - exists p. now rewrite app_nil_r.
  - destruct (script_send_writable m p W) as [p1 [E [W1 Wr1]]].
    rewrite E. cbn [snd].
    destruct (IH p1 W1) as [p2 [E2 [W2 Wr2]]].
    exists p2. split; [exact E2|]. split; [exact W2|].
    rewrite Wr2, Wr1, <- app_assoc. reflexivity.
Qed.

Lemma classify_gesture_cases (lower : string -> string)
      (question answer : string) :
  In (Rufus.classify_gesture lower question answer) ["yes"; "no"; "neutral"].
Proof.
  unfold Rufus.classify_gesture. cbv zeta.
  destruct (Py.any_in _ _); [now left|].
  destruct (Py.any_in _ _); [right; now left | right; right; now left].
Qed.

Lemma within_limits_intro (servo : string) (limits : Rufus.limits) (pos : Z)
      (cmd : string) :
  Py.get servo Rufus.SERVO_LIMITS = Some limits ->
  cmd = servo ++ "_" ++ Py.str pos ->
  Rufus.min limits <= pos <= Rufus.max limits ->
  within_limits cmd.
Proof. intros; exists servo, limits, pos; auto. Qed.

Lemma movements_within_limits (lower : string -> string) (answer : string)
      (r1 r2 : nat) :
  exists ms, Rufus.movements lower answer r1 r2 = Some ms
             /\ (1 <= List.length ms <= 2)%nat
             /\ Forall within_limits ms.
Proof.
  unfold Rufus.movements. cbv zeta.
  destruct (Py.any_in _ _).
  { eexists; split; [reflexivity|]. split; [cbn; lia|].
    repeat apply Forall_cons; try apply Forall_nil.
    - eapply (within_limits_intro "right_arm" _ 150);
        [reflexivity | reflexivity | cbn; lia].
    - eapply (within_limits_intro "left_arm" _ 60);
        [reflexivity | reflexivity | cbn; lia]. }
  destruct (Py.contains _ _).
  { eexists; split; [reflexivity|]. split; [cbn; lia|].
    repeat apply Forall_cons; try apply Forall_nil.
    - eapply (within_limits_intro "head" _ 110);
        [reflexivity | reflexivity | cbn; lia].
    - eapply (within_limits_intro "head" _ 70);
        [reflexivity | reflexivity | cbn; lia]. }
  destruct (Py.any_in _ _).
  { eexists; split; [reflexivity|]. split; [cbn; lia|].
    repeat apply Forall_cons; try apply Forall_nil.
    eapply (within_limits_intro "head" _ 100);
      [reflexivity | reflexivity | cbn; lia]. }
  destruct (Py.any_in _ _).
  { eexists; split; [reflexivity|]. split; [cbn; lia|].
    repeat apply Forall_cons; try apply Forall_nil.
    - eapply (within_limits_intro "right_arm" _ 160);
        [reflexivity | reflexivity | cbn; lia].
    - eapply (within_limits_intro "left_arm" _ 50);
        [reflexivity | reflexivity | cbn; lia]. }
  assert (C : In (Py.choice "" ["head"; "left_arm"; "right_arm"] r1)
                 ["head"; "left_arm"; "right_arm"])
    by (apply choice_in; discriminate).
  remember (Py.choice "" ["head"; "left_arm"; "right_arm"] r1) as servo eqn:Es.
  clear Es.
  destruct C as [<-|[<-|[<-|[]]]];
    (eexists; split; [reflexivity|]; split; [cbn; lia|];
     apply Forall_cons; [|apply Forall_nil]).
  - eapply (within_limits_intro "head"); [reflexivity | reflexivity |].
    pose proof (randint_range (40 + 10) (120 - 10) r2 ltac:(lia)).
    cbn [Rufus.min Rufus.max]. lia.
  - eapply (within_limits_intro "left_arm"); [reflexivity | reflexivity |].
    pose proof (randint_range (0 + 10) (80 - 10) r2 ltac:(lia)).
    cbn [Rufus.min Rufus.max]. lia.
  - eapply (within_limits_intro "right_arm"); [reflexivity | reflexivity |].
    pose proof (randint_range (90 + 10) (180 - 10) r2 ltac:(lia)).
    cbn [Rufus.min Rufus.max]. lia.
Qed.

(** What the gesture part of a turn puts on a healthy wire, whatever the
    answer and the draws: the classified gesture, which is [yes], [no] or
    [neutral]; then one or two servo commands, each within the limits of its
    servo; then [rest].  No [KeyError] is raised. *)
Theorem turn_gestures_on_the_wire (lower : string -> string)
        (question answer : string) (r1 r2 : nat) (p : Serial.port) :
  Serial.writable p ->
  exists gesture ms uno',
    Rufus.main_gestures lower (Some p) question answer r1 r2
    = (Py.Return tt, uno')
    /\ Rufus.wire uno'
       = (Serial.written p ++ [(gesture ++ Py.nl)%string]
            ++ map (fun m => (m ++ Py.nl)%string) ms
            ++ [("rest" ++ Py.nl)%string])%list
    /\ In gesture ["yes"; "no"; "neutral"]
    /\ (1 <= List.length ms <= 2)%nat
    /\ Forall within_limits ms.
Proof.
  intros W. unfold Rufus.main_gestures, Rufus.natural_movements. cbv zeta.
  destruct (script_send_writable (Rufus.classify_gesture lower question answer) p W)
    as [p1 [E1 [W1 Wr1]]].
  rewrite E1. cbn [snd].
  destruct (movements_within_limits lower answer r1 r2) as [ms [Em [Len F]]].
  rewrite Em.
  assert (Hf : firstn 2 ms = ms) by (apply firstn_all2; lia).
  rewrite Hf.
  destruct (send_each_writable ms p1 W1) as [p2 [E2 [W2 Wr2]]].
  rewrite E2.
  destruct (script_send_writable "rest" p2 W2) as [p3 [E3 [W3 Wr3]]].
  rewrite E3. cbn [snd].
  exists (Rufus.classify_gesture lower question answer), ms, (Some p3).
  split; [reflexivity|]. split.
  - cbn [Rufus.wire]. rewrite Wr3, Wr2, Wr1, <- !app_assoc. reflexivity.
  - split; [apply classify_gesture_cases | split; assumption].
Qed.

Lemma turn_gestures_on_the_wire_great :
  exists gesture ms uno',
    Rufus.main_gestures Py.lower_ascii (Some Serial.fresh)
      "How are you?" "I feel GREAT today" 0 0
    = (Py.Return tt, uno')
    /\ Rufus.wire uno'
       = (Serial.written Serial.fresh ++ [(gesture ++ Py.nl)%string]
            ++ map (fun m => (m ++ Py.nl)%string) ms
            ++ [("rest" ++ Py.nl)%string])%list
    /\ In gesture ["yes"; "no"; "neutral"]
    /\ (1 <= List.length ms <= 2)%nat
    /\ Forall within_limits ms.
Proof.
  exact (turn_gestures_on_the_wire Py.lower_ascii "How are you?"
           "I feel GREAT today" 0 0 Serial.fresh (conj eq_refl eq_refl)).
Defined.

(** ** The window of [ConversationManager] *)

Lemma add_message_step (role content : string) (first : Chat.message)
      (kept : list Chat.message) :
  ConversationManager.add_message role content
    (ConversationManager.mk (first :: kept))
  = (Py.Return tt,
     ConversationManager.mk
       (first :: (if (10 <=? List.length kept)%nat
                  then skipn 2 (kept ++ [Chat.mk role content])
                  else kept ++ [Chat.mk role content]))%list).
Proof.
  unfold ConversationManager.add_message. cbv zeta.
  cbn [ConversationManager.messages app List.length].
  rewrite length_app. cbn [List.length].
  change (Config.MAX_CONVERSATION_TURNS + 1)%nat with 11%nat.
  destruct (Nat.leb_spec 10 (List.length kept)) as [H|H].
  - destruct (Nat.ltb_spec 11 (S (List.length kept + 1))) as [H1|H1]; [|lia].
    destruct (Nat.leb_spec 3 (S (List.length kept + 1))) as [H2|H2]; [|lia].
    destruct kept as [|a [|b kept]]; cbn [List.length] in H; try lia.
    cbn [app]. rewrite pop_1.
    destruct (kept ++ [Chat.mk role content])%list as [|c rest] eqn:E.
    + destruct kept; discriminate.
    + rewrite pop_1. cbn [skipn]. reflexivity.
  - destruct (Nat.ltb_spec 11 (S (List.length kept + 1))) as [H1|H1]; [lia|].
    reflexivity.
Qed.

Lemma add_messages_window (ms : list Chat.message) :
  forall (first : Chat.message) (seen : list Chat.message),
    add_messages ms
      (ConversationManager.mk
         (first :: skipn (2 * ((List.length seen - 9) / 2)) seen))
    = (Py.Return tt,
       ConversationManager.mk
         (first :: skipn (2 * ((List.length (seen ++ ms) - 9) / 2))
                     (seen ++ ms))).
Proof.
  induction ms as [|m ms IH]; intros first seen; cbn [add_messages].
  - unfold Py.ret. now rewrite app_nil_r.
  - unfold Py.bind. rewrite add_message_step.
    replace (seen ++ m :: ms)%list with ((seen ++ [m]) ++ ms)%list
      by (rewrite <- app_assoc; reflexivity).
    rewrite <- IH. f_equal. f_equal. f_equal.
    destruct m as [role content]. cbn [Chat.role Chat.content].
    rewrite length_skipn, length_app. cbn [List.length].
    set (n := List.length seen).
    assert (D : (n - 9 = 2 * ((n - 9) / 2) + (n - 9) mod 2)%nat)
      by apply Nat.div_mod_eq.
    assert (D' : (n + 1 - 9 = 2 * ((n + 1 - 9) / 2) + (n + 1 - 9) mod 2)%nat)
      by apply Nat.div_mod_eq.
    pose proof (Nat.mod_upper_bound (n - 9) 2 ltac:(lia)).
    pose proof (Nat.mod_upper_bound (n + 1 - 9) 2 ltac:(lia)).
    assert (A1 : (skipn (2 * ((n - 9) / 2)) seen ++ [Chat.mk role content]
                  = skipn (2 * ((n - 9) / 2))
                      (seen ++ [Chat.mk role content]))%list).
    { rewrite skipn_app. fold n.
      replace (2 * ((n - 9) / 2) - n)%nat with 0%nat by lia. reflexivity. }
    rewrite A1, skipn_skipn.
    destruct (Nat.leb_spec 10 (n - 2 * ((n - 9) / 2))) as [L|L];
      f_equal; lia.
Qed.

(** [add_message] never raises.  Called for each of [ms] on a conversation
    that holds its system prompt only, it leaves the prompt and the messages
    that remain once the oldest were dropped two at a time: at most
    [MAX_CONVERSATION_TURNS] messages, which is five exchanges, and no fewer
    than nine once nine were added. *)
Theorem conversation_window (first : Chat.message) (ms : list Chat.message) :
  exists kept,
    add_messages ms (ConversationManager.mk [first])
    = (Py.Return tt, ConversationManager.mk (first :: kept))
    /\ kept = skipn (2 * ((List.length ms - 9) / 2)) ms
    /\ (List.length kept <= Config.MAX_CONVERSATION_TURNS)%nat
    /\ (Config.MAX_CONVERSATION_TURNS - 1 <= List.length ms ->
        Config.MAX_CONVERSATION_TURNS - 1 <= List.length kept)%nat.
Proof.
  exists (skipn (2 * ((List.length ms - 9) / 2)) ms).
  change Config.MAX_CONVERSATION_TURNS with 10%nat.
  split; [|split; [reflexivity|]].
  - exact (add_messages_window ms first []).
  - rewrite length_skipn.
    set (n := List.length ms).
    assert (D : (n - 9 = 2 * ((n - 9) / 2) + (n - 9) mod 2)%nat)
      by apply Nat.div_mod_eq.
    pose proof (Nat.mod_upper_bound (n - 9) 2 ltac:(lia)).
    lia.
Qed.

Lemma conversation_window_six_exchanges :
  exists kept,
    add_messages (flat_map exchange (repeat ("q", "a") 6))
      (ConversationManager.mk [Chat.mk "system" Config.SYSTEM_PROMPT])
    = (Py.Return tt,
       ConversationManager.mk (Chat.mk "system" Config.SYSTEM_PROMPT :: kept))
    /\ kept = skipn (2 * ((List.length (flat_map exchange (repeat ("q", "a") 6))
                           - 9) / 2))
                (flat_map exchange (repeat ("q", "a") 6))
    /\ (List.length kept <= Config.MAX_CONVERSATION_TURNS)%nat
    /\ (Config.MAX_CONVERSATION_TURNS - 1
        <= List.length (flat_map exchange (repeat ("q", "a") 6)) ->
        Config.MAX_CONVERSATION_TURNS - 1 <= List.length kept)%nat.
Proof.
  exact (conversation_window (Chat.mk "system" Config.SYSTEM_PROMPT)
           (flat_map exchange (repeat ("q", "a") 6))).
Defined.

(** ** A reply that fails *)

Lemma add_message_returns (role content : string)
      (self : ConversationManager.t) :
  exists self', ConversationManager.add_message role content self
                = (Py.Return tt, self').
Proof.
  unfold ConversationManager.add_message. cbv zeta.
  change (Config.MAX_CONVERSATION_TURNS + 1)%nat with 11%nat.
  set (l := (ConversationManager.messages self ++ [Chat.mk role content])%list).
  destruct (Nat.ltb_spec 11 (List.length l)) as [H|H]; [|eauto].
  destruct (Nat.leb_spec 3 (List.length l)) as [H3|H3]; [|lia].
  destruct l as [|a [|b [|c l]]]; cbn [List.length] in H; try lia.
  rewrite !pop_1. eauto.
Qed.

Lemma get_response_returns (chat : list Chat.message -> option string)
      (user_input : string) (self : ConversationManager.t) :
  exists r self', ConversationManager.get_response chat user_input self
                  = (Py.Return r, self').
Proof.
  unfold ConversationManager.get_response, Py.bind.
  destruct (add_message_returns "user" user_input self) as [s1 E1]. rewrite E1.
  destruct (chat _) as [m|]; [|eauto].
  destruct (add_message_returns "assistant" m s1) as [s2 E2]. rewrite E2. eauto.
Qed.

Lemma add_message_last (role content : string) (self : ConversationManager.t) :
  ConversationManager.messages self <> [] ->
  exists self',
    ConversationManager.add_message role content self = (Py.Return tt, self')
    /\ exists before,
         ConversationManager.messages self'
         = (before ++ [Chat.mk role content])%list
         /\ before <> [].
Proof.
  intros NE. destruct self as [l]. cbn [ConversationManager.messages] in NE.
  destruct l as [|first kept]; [now elim NE|].
  rewrite add_message_step. eexists; split; [reflexivity|].
  cbn [ConversationManager.messages].
  destruct (Nat.leb_spec 10 (List.length kept)) as [H|H].
  - exists (first :: skipn 2 kept). split; [|discriminate].
    cbn [app]. f_equal. rewrite skipn_app.
    replace (2 - List.length kept)%nat with 0%nat by lia. reflexivity.
  - exists (first :: kept). split; [reflexivity | discriminate].
Qed.

(** [get_response] sends the conversation with the user's message at its
    end.  When the call succeeds the conversation then ends with that message
    and the reply; when it fails [None] is returned and the user's message
    stays where it was added, with no reply after it. *)
Theorem get_response_history (chat : list Chat.message -> option string)
        (user_input : string) (self : ConversationManager.t) :
  ConversationManager.messages self <> [] ->
  exists before,
    before <> []
    /\ match chat (before ++ [Chat.mk "user" user_input])%list with
       | None =>
           ConversationManager.get_response chat user_input self
           = (Py.Return None,
              ConversationManager.mk
                (before ++ [Chat.mk "user" user_input])%list)
       | Some reply =>
           exists before',
             ConversationManager.get_response chat user_input self
             = (Py.Return (Some reply),
                ConversationManager.mk
                  (before' ++ [Chat.mk "user" user_input;
                               Chat.mk "assistant" reply])%list)
       end.
Proof.
  intros NE.
  destruct (add_message_last "user" user_input self NE)
    as [s1 [E1 [before [M1 B1]]]].
  exists before. split; [exact B1|].
  unfold ConversationManager.get_response, Py.bind. rewrite E1, M1.
  destruct (chat _) as [reply|] eqn:C.
  - destruct s1 as [l1]. cbn [ConversationManager.messages] in M1. subst l1.
    destruct before as [|first kept]; [now elim B1|].
    cbn [app]. rewrite add_message_step.
    destruct (Nat.leb_spec 10 (List.length (kept ++ [Chat.mk "user" user_input])))
      as [H|H].
    + exists (first :: skipn 2 kept). f_equal. f_equal. cbn [app]. f_equal.
      rewrite length_app in H. cbn [List.length] in H.
      rewrite <- app_assoc. cbn [app]. rewrite skipn_app.
      replace (2 - List.length kept)%nat with 0%nat by lia. reflexivity.
    + exists (first :: kept). f_equal. f_equal. cbn [app]. f_equal.
      now rewrite <- app_assoc.
  - destruct s1 as [l1]. cbn [ConversationManager.messages] in M1. now subst l1.
Qed.

Lemma get_response_history_failed_call :
  exists before,
    before <> []
    /\ ConversationManager.get_response (fun _ => None) "hello"
         (ConversationManager.mk [Chat.mk "system" Config.SYSTEM_PROMPT])
       = (Py.Return None,
          ConversationManager.mk (before ++ [Chat.mk "user" "hello"])%list).
Proof.
  exact (get_response_history (fun _ => None) "hello"
           (ConversationManager.mk [Chat.mk "system" Config.SYSTEM_PROMPT])
           ltac:(discriminate)).
Defined.


(** ** What a conversation always holds *)

Lemma add_message_prompted (role content : string)
      (self : ConversationManager.t) :
  prompted self ->
  exists self', ConversationManager.add_message role content self
                = (Py.Return tt, self')
                /\ prompted self'.
Proof.
  intros (first & rest & M & R & L). destruct self as [l].
  cbn [ConversationManager.messages] in M. subst l.
  rewrite add_message_step. eexists; split; [reflexivity|].
  exists first. eexists. split; [reflexivity|]. split; [exact R|].
  change Config.MAX_CONVERSATION_TURNS with 10%nat in *.
  destruct (Nat.leb_spec 10 (List.length rest)).
  - rewrite length_skipn, length_app. cbn [List.length]. lia.
  - rewrite length_app. cbn [List.length]. lia.
Qed.

Lemma do_call_prompted (chat : list Chat.message -> option string)
      (c : conversation_call) (self : ConversationManager.t) :
  prompted self ->
  exists self', do_call chat c self = (Py.Return tt, self') /\ prompted self'.
Proof.
  intros P. destruct c as [role content|user_input| |prompt]; cbn [do_call].
  - now apply add_message_prompted.
  - unfold Py.bind, Py.ret, ConversationManager.get_response, Py.bind.
    destruct (add_message_prompted "user" user_input self P) as (s1 & E1 & P1).
    rewrite E1. destruct (chat _) as [m|]; [|eauto].
    destruct (add_message_prompted "assistant" m s1 P1) as (s2 & E2 & P2).
    rewrite E2. eauto.
  - eexists; split; [reflexivity|].
    exists (Chat.mk "system" Config.SYSTEM_PROMPT), [].
    repeat split; cbn; lia.
  - destruct P as (first & rest & M & R & L).
    unfold ConversationManager.set_system_prompt. rewrite M.
    eexists; split; [reflexivity|].
    exists (Chat.mk "system" prompt), rest. repeat split; assumption.
Qed.

(** Whatever is called on a [ConversationManager] after it was built, in
    whatever order, nothing raises, the first message is a system message,
    and at most [MAX_CONVERSATION_TURNS] messages follow it. *)
Theorem conversation_keeps_its_prompt
        (chat : list Chat.message -> option string) (api_key : string)
        (self : ConversationManager.t) (calls : list conversation_call) :
  ConversationManager.init api_key = Py.Return self ->
  exists first rest,
    do_calls chat calls self
    = (Py.Return tt, ConversationManager.mk (first :: rest))
    /\ Chat.role first = "system"
    /\ (List.length rest <= Config.MAX_CONVERSATION_TURNS)%nat.
Proof.
  intros I.
  assert (P : prompted self).
  { unfold ConversationManager.init in I.
    destruct (String.eqb api_key ""); [discriminate|]. inversion I.
    exists (Chat.mk "system" Config.SYSTEM_PROMPT), [].
    repeat split; cbn; lia. }
  clear I. revert self P.
  induction calls as [|c calls IH]; intros self P; cbn [do_calls].
  - destruct P as (first & rest & M & R & L). destruct self as [l].
    cbn [ConversationManager.messages] in M. subst l.
    exists first, rest. repeat split; assumption.
  - unfold Py.bind. destruct (do_call_prompted chat c self P) as (s1 & E1 & P1).
    rewrite E1. now apply IH.
Qed.

Lemma conversation_keeps_its_prompt_after_calls :
  exists first rest,
    do_calls (fun _ => None)
      [GetResponse "hello"; SetSystemPrompt "Be brief."; AddMessage "user" "hi"]
      (ConversationManager.mk [Chat.mk "system" Config.SYSTEM_PROMPT])
    = (Py.Return tt, ConversationManager.mk (first :: rest))
    /\ Chat.role first = "system"
    /\ (List.length rest <= Config.MAX_CONVERSATION_TURNS)%nat.
Proof.
  exact (conversation_keeps_its_prompt (fun _ => None) "sk-test"
           (ConversationManager.mk [Chat.mk "system" Config.SYSTEM_PROMPT])
           [GetResponse "hello"; SetSystemPrompt "Be brief."; AddMessage "user" "hi"]
           eq_refl).
Defined.

(** ** [think] and the long-term memory *)

(** On a conversation that holds its system prompt, [think] returns a reply
    that is never empty.  The reply, the conversation and the detected
    emotion are the same whatever the long-term memory is, holds or returns,
    and whether it is asked at all: the context retrieved from it goes into
    [enhanced_prompt], which nothing reads. *)
Theorem think_ignores_memory (lower : string -> string)
        (chat : list Chat.message -> option string)
        (M1 M2 : Type)
        (context1 : string -> M1 -> string) (context2 : string -> M2 -> string)
        (add1 : string -> string -> string -> M1 -> M1)
        (add2 : string -> string -> string -> M2 -> M2)
        (conversation : ConversationManager.t) (emotion : EmotionDetector.t)
        (memory1 : option M1) (memory2 : option M2)
        (user_input : string) (use1 use2 : bool) :
  ConversationManager.messages conversation <> [] ->
  let run1 := RufusBot.think lower chat M1 context1 add1 user_input use1
                (RufusBot.mk_ai M1 conversation emotion memory1) in
  let run2 := RufusBot.think lower chat M2 context2 add2 user_input use2
                (RufusBot.mk_ai M2 conversation emotion memory2) in
  fst run1 = fst run2
  /\ RufusBot.conversation M1 (snd run1) = RufusBot.conversation M2 (snd run2)
  /\ RufusBot.emotion M1 (snd run1) = RufusBot.emotion M2 (snd run2)
  /\ exists response, fst run1 = Py.Return response /\ response <> "".
Proof.
  intros NE. cbv zeta. unfold RufusBot.think.
  cbn [RufusBot.conversation RufusBot.emotion RufusBot.memory].
  destruct (EmotionDetector.detect_emotion lower user_input emotion) as [e em].
  destruct (ConversationManager.messages conversation) as [|m0 ms] eqn:Em;
    [now elim NE|].
  assert (I : forall c : string,
             negb (if String.eqb c "" then true else true) = false)
    by (intros c; now destruct (String.eqb c "")).
  rewrite !I.
  destruct (get_response_returns chat user_input conversation) as [r [c' E]].
  rewrite E.
  cbn [fst snd RufusBot.conversation RufusBot.emotion].
  repeat split.
  eexists; split; [reflexivity|].
  destruct r as [s|]; cbn [Py.or_else]; [|discriminate].
  destruct (String.eqb s "") eqn:Q; [discriminate|].
  apply String.eqb_neq in Q. exact Q.
Qed.

Lemma think_ignores_memory_with_and_without :
  let run1 := RufusBot.think Py.lower_ascii (fun _ => Some "Sure.") (list string)
                (fun _ m => String.concat " " m) (fun q _ _ m => q :: m)
                "Remember me?" true
                (RufusBot.mk_ai (list string)
                   (ConversationManager.mk [Chat.mk "system" Config.SYSTEM_PROMPT])
                   EmotionDetector.init (Some ["My name is Ada"])) in
  let run2 := RufusBot.think Py.lower_ascii (fun _ => Some "Sure.") unit
                (fun _ _ => "") (fun _ _ _ m => m)
                "Remember me?" false
                (RufusBot.mk_ai unit
                   (ConversationManager.mk [Chat.mk "system" Config.SYSTEM_PROMPT])
                   EmotionDetector.init None) in
  fst run1 = fst run2
  /\ RufusBot.conversation (list string) (snd run1)
     = RufusBot.conversation unit (snd run2)
  /\ RufusBot.emotion (list string) (snd run1) = RufusBot.emotion unit (snd run2)
  /\ exists response, fst run1 = Py.Return response /\ response <> "".
Proof.
  exact (think_ignores_memory Py.lower_ascii (fun _ => Some "Sure.")
           (list string) unit
           (fun _ m => String.concat " " m) (fun _ _ => "")
           (fun q _ _ m => q :: m) (fun _ _ _ m => m)
           (ConversationManager.mk [Chat.mk "system" Config.SYSTEM_PROMPT])
           EmotionDetector.init (Some ["My name is Ada"]) None
           "Remember me?" true false ltac:(discriminate)).
Defined.

(** ** The window of the API server *)

Lemma pi_add_to_memory_step (role content : string) (h : list Chat.message) :
  PiServer.add_to_memory role content h
  = Py.suffix 21 (h ++ [Chat.mk role content]).
Proof.
  unfold PiServer.add_to_memory. cbv zeta.
  change (PiServer.MAX_TURNS * 2 + 1)%nat with 21%nat.
  destruct (Nat.ltb_spec 21 (List.length (h ++ [Chat.mk role content]))) as [H|H].
  - reflexivity.
  - symmetry. now apply suffix_short.
Qed.

Lemma pi_fold_add_to_memory (ms : list Chat.message) :
  forall seen : list Chat.message,
    fold_left (fun h m => PiServer.add_to_memory (Chat.role m) (Chat.content m) h)
              ms (Py.suffix 21 seen)
    = Py.suffix 21 (seen ++ ms).
Proof.
  induction ms as [|[role content] ms IH]; intros seen; cbn [fold_left].
  - now rewrite app_nil_r.
  - cbn [Chat.role Chat.content].
    rewrite pi_add_to_memory_step, suffix_suffix_app, IH, <- app_assoc.
    reflexivity.
Qed.

(** The API server's memory is the last [MAX_TURNS * 2 + 1] messages added.
    The window is odd: after the reply of the eleventh exchange or of any
    later one, the oldest message kept is the reply of an exchange whose
    question has been dropped. *)
Theorem pi_memory_window :
  (forall ms : list Chat.message,
      fold_left (fun h m => PiServer.add_to_memory (Chat.role m) (Chat.content m) h)
                ms []
      = Py.suffix (PiServer.MAX_TURNS * 2 + 1) ms)
  /\ (forall (turns : list (string * string)) (q a : string)
             (later : list (string * string)),
         List.length later = PiServer.MAX_TURNS ->
         fold_left (fun h m => PiServer.add_to_memory (Chat.role m) (Chat.content m) h)
                   (flat_map exchange (turns ++ (q, a) :: later)) []
         = Chat.mk "assistant" a :: flat_map exchange later).
Proof.
  change (PiServer.MAX_TURNS * 2 + 1)%nat with 21%nat.
  change PiServer.MAX_TURNS with 10%nat.
  assert (W : forall ms,
             fold_left (fun h m => PiServer.add_to_memory (Chat.role m) (Chat.content m) h)
               ms [] = Py.suffix 21 ms).
  { intros ms. exact (pi_fold_add_to_memory ms []). }
  split; [exact W|].
  intros turns q a later L. rewrite W, suffix_skipn.
  rewrite flat_map_app. cbn [flat_map].
  rewrite length_app. cbn [exchange app List.length].
  assert (L1 : forall l : list (string * string),
             List.length (flat_map exchange l) = (2 * List.length l)%nat).
  { induction l as [|t l IHl]; [reflexivity|].
    cbn [flat_map exchange app List.length]. rewrite IHl. lia. }
  rewrite !L1, L.
  replace (2 * List.length turns + S (S (2 * 10)) - 21)%nat
    with (List.length (flat_map exchange turns) + 1)%nat by (rewrite L1; lia).
  rewrite skipn_app.
  rewrite skipn_all2 by lia.
  replace (List.length (flat_map exchange turns) + 1
           - List.length (flat_map exchange turns))%nat with 1%nat by lia.
  reflexivity.
Qed.

Lemma pi_memory_window_eleven_exchanges :
  fold_left (fun h m => PiServer.add_to_memory (Chat.role m) (Chat.content m) h)
            (flat_map exchange ([] ++ ("Hello!", "Hi.") :: repeat ("q", "a") 10))
            []
  = Chat.mk "assistant" "Hi." :: flat_map exchange (repeat ("q", "a") 10).
Proof.
  exact (proj2 pi_memory_window [] "Hello!" "Hi." (repeat ("q", "a") 10) eq_refl).
Defined.

(** ** Emotions and the gestures they suggest *)

Lemma suggest_gestures_cases (emotion : option string)
      (self : EmotionDetector.t) :
  In (EmotionDetector.suggest_gestures emotion self)
     [["yes"; "natural_movement"]; ["neutral"]; ["head_tilt"];
      ["head_tilt"; "natural_movement"]; ["neutral"; "natural_movement"]].
Proof.
  unfold EmotionDetector.suggest_gestures. cbv zeta.
  generalize (Py.or_else emotion (EmotionDetector.current_emotion self)) as e.
  intros e. unfold EmotionDetector.EMOTION_GESTURES. cbn [Py.get].
  repeat match goal with
         | |- context [String.eqb ?a ?b] => destruct (String.eqb a b)
         end; cbn [In]; auto 10.
Qed.

(** Every gesture [suggest_gestures] can name, for any emotion and any
    current emotion, is one [perform_gesture] knows: performing it returns
    true, as long as the port raises nothing but [SerialException]. *)
Theorem suggested_gestures_are_performed (emotion : option string)
        (self : EmotionDetector.t) (gesture_name : string) (r1 r2 : nat)
        (arduino : ArduinoController.t) :
  In gesture_name (EmotionDetector.suggest_gestures emotion self) ->
  serial_faults_only arduino ->
  Py.get gesture_name (Gestures.gestures r1 r2) <> None
  /\ fst (Gestures.perform_gesture gesture_name r1 r2 arduino) = Py.Return true.
Proof.
  intros Hin Hf.
  assert (K : In gesture_name ["yes"; "natural_movement"; "neutral"; "head_tilt"]).
  { pose proof (suggest_gestures_cases emotion self) as C.
    cbn [In] in C.
    destruct C as [C|[C|[C|[C|[C|[]]]]]]; rewrite <- C in Hin; cbn [In] in Hin;
      cbn [In]; intuition. }
  assert (G : exists body,
             Py.get gesture_name (Gestures.gestures r1 r2) = Some body).
  { cbn [In] in K. destruct K as [<-|[<-|[<-|[<-|[]]]]]; eexists; reflexivity. }
  destruct G as [body G]. split; [rewrite G; discriminate|].
  unfold Gestures.perform_gesture. rewrite G.
  destruct (run_no_raise body arduino Hf) as [self' [E _]].
  unfold Py.bind, Py.ret. rewrite E. reflexivity.
Qed.

Lemma suggested_gestures_are_performed_happy :
  Py.get "natural_movement" (Gestures.gestures 0 0) <> None
  /\ fst (Gestures.perform_gesture "natural_movement" 0 0
            (ArduinoController.mk (Some Serial.unplugged)))
     = Py.Return true.
Proof.
  apply (suggested_gestures_are_performed (Some "happy") EmotionDetector.init
           "natural_movement" 0 0).
  - right; left; reflexivity.
  - intros p Hp. inversion Hp. simpl. discriminate.
Defined.

(** Two keywords of [EMOTION_KEYWORDS] are shadowed by shorter ones listed
    earlier.  A text that contains [unhappy], a keyword of [sad], contains
    [happy] and is detected as happy; a text that contains
    [interesting question], a keyword of [thinking], contains [interesting]
    and is detected as curious at the latest. *)
Theorem shadowed_emotion_keywords (lower : string -> string) (text : string)
        (self : EmotionDetector.t) :
  (Py.contains "unhappy" (lower text) = true ->
   fst (EmotionDetector.detect_emotion lower text self) = "happy")
  /\ (Py.contains "interesting question" (lower text) = true ->
      In (fst (EmotionDetector.detect_emotion lower text self))
         ["happy"; "sad"; "curious"]).
Proof.
  unfold EmotionDetector.detect_emotion. cbv zeta.
  unfold Config.EMOTION_KEYWORDS. cbn [EmotionDetector.first_emotion].
  split; intros H.
  - assert (K : Py.contains "happy" (lower text) = true)
      by (apply (contains_trans _ "unhappy"); [reflexivity | exact H]).
    rewrite any_in_cons, K. reflexivity.
  - assert (K : Py.contains "interesting" (lower text) = true)
      by (apply (contains_trans _ "interesting question");
          [reflexivity | exact H]).
    destruct (Py.any_in _ _); [now left|].
    destruct (Py.any_in _ _); [right; now left|].
    assert (A : Py.any_in ["curious"; "wonder"; "how"; "why"; "what";
                           "interesting"] (lower text) = true).
    { apply any_in_spec. exists "interesting". split; [cbn; auto 10 | exact K]. }
    rewrite A. right; right; now left.
Qed.

Lemma shadowed_emotion_keywords_unhappy :
  fst (EmotionDetector.detect_emotion Py.lower_ascii "I am so Unhappy today"
         EmotionDetector.init)
  = "happy".
Proof.
  exact (proj1 (shadowed_emotion_keywords Py.lower_ascii "I am so Unhappy today"
                  EmotionDetector.init) eq_refl).
Defined.

(** ** The sentiment score *)

Lemma count_in_bound (words : list string) (s : string) :
  (Py.count_in words s <= List.length words)%nat.
Proof. unfold Py.count_in. apply filter_length_le. Qed.

(** The scores of every pair of counts the eight positive and the eight
    negative words can give, computed in binary64. *)
Lemma score_thresholds (p n : nat) :
  (p <= 8)%nat -> (n <= 8)%nat -> (0 < p + n)%nat ->
  let r := EmotionDetector.score p n in
  (EmotionDetector.sentiment r = "positive" <-> (3 * (p + n) < 5 * p)%nat)
  /\ (EmotionDetector.sentiment r = "negative" <-> (5 * p < 2 * (p + n))%nat)
  /\ (n = 0%nat -> EmotionDetector.confidence r = 1%float)
  /\ (p = 0%nat -> EmotionDetector.confidence r = 1%float)
  /\ (p = n -> EmotionDetector.confidence r = 0%float).
Proof.
  intros Hp Hn Ht.
  assert (P : In p (seq 0 9)) by (apply in_seq; lia).
  assert (N : In n (seq 0 9)) by (apply in_seq; lia).
  cbn [seq In] in P, N.
  repeat (destruct P as [<-|P]; [|]); try contradiction;
  repeat (destruct N as [<-|N]; [|]); try contradiction;
    try (exfalso; lia);
    vm_compute;
    (repeat split; intros; try reflexivity; try discriminate; try lia).
Qed.

(** With [p] positive and [n] negative words found, [analyze_sentiment] is
    positive exactly when more than 60% of them are positive, that is
    [3 (p + n) < 5 p], and negative exactly when fewer than 40% are: the
    float comparisons are exact on every count that can occur.  The
    confidence is 1.0 when the words found are all of one kind and 0.0 when
    they are evenly split, while a text with no such word gets 0.5. *)
Theorem sentiment_thresholds (lower : string -> string) (text : string) :
  let p := Py.count_in EmotionDetector.positive_words (lower text) in
  let n := Py.count_in EmotionDetector.negative_words (lower text) in
  let r := EmotionDetector.analyze_sentiment lower text in
  ((p + n = 0)%nat ->
   r = {| EmotionDetector.sentiment := "neutral";
          EmotionDetector.confidence := 0.5%float |})
  /\ ((0 < p + n)%nat ->
      (EmotionDetector.sentiment r = "positive" <-> (3 * (p + n) < 5 * p)%nat)
      /\ (EmotionDetector.sentiment r = "negative" <-> (5 * p < 2 * (p + n))%nat)
      /\ (n = 0%nat -> EmotionDetector.confidence r = 1%float)
      /\ (p = 0%nat -> EmotionDetector.confidence r = 1%float)
      /\ (p = n -> EmotionDetector.confidence r = 0%float)).
Proof.
  cbv zeta. unfold EmotionDetector.analyze_sentiment. cbv zeta.
  pose proof (count_in_bound EmotionDetector.positive_words (lower text)) as Bp.
  pose proof (count_in_bound EmotionDetector.negative_words (lower text)) as Bn.
  change (List.length EmotionDetector.positive_words) with 8%nat in Bp.
  change (List.length EmotionDetector.negative_words) with 8%nat in Bn.
  generalize dependent (Py.count_in EmotionDetector.positive_words (lower text)).
  generalize dependent (Py.count_in EmotionDetector.negative_words (lower text)).
  intros n Bn p Bp. split.
  - intros Z. unfold EmotionDetector.score. cbv zeta.
    destruct (Nat.eqb_spec (p + n) 0); [reflexivity | contradiction].
  - intros Pos. exact (score_thresholds p n Bp Bn Pos).
Qed.

Lemma sentiment_thresholds_evenly_split :
  EmotionDetector.confidence
    (EmotionDetector.analyze_sentiment Py.lower_ascii "Good, not bad")
  = 0%float.
Proof.
  refine (proj2 (proj2 (proj2 (proj2
            (proj2 (sentiment_thresholds Py.lower_ascii "Good, not bad") _))))
            eq_refl).
  vm_compute. lia.
Defined.

(** ** Detecting the port *)

(** [_detect_port] returns the device of the first port of the list that
    looks like an Arduino, whatever the preferred port is and whether or not
    it is in the list; it returns the preferred port only when no port looks
    like one. *)
Theorem detect_port_first_match (lower : string -> string)
        (comports : list ArduinoController.ListPortInfo)
        (preferred_port : string) :
  (forall pre p post,
      comports = (pre ++ p :: post)%list ->
      forallb (fun x => negb (ArduinoController.arduino_port lower x)) pre = true ->
      ArduinoController.arduino_port lower p = true ->
      ArduinoController._detect_port lower comports preferred_port
      = ArduinoController.device p)
  /\ (forallb (fun x => negb (ArduinoController.arduino_port lower x)) comports
      = true ->
      ArduinoController._detect_port lower comports preferred_port
      = preferred_port).
Proof.
  assert (N : forall l,
             forallb (fun x => negb (ArduinoController.arduino_port lower x)) l
             = true ->
             filter (ArduinoController.arduino_port lower) l = []).
  { induction l as [|x l IH]; cbn [forallb filter]; [reflexivity|].
    intros H. apply andb_true_iff in H. destruct H as [H1 H2].
    apply negb_true_iff in H1. rewrite H1. now apply IH. }
  unfold ArduinoController._detect_port. cbv zeta. split.
  - intros pre p post -> Hpre Hp.
    rewrite filter_app, (N pre Hpre). cbn [app filter]. rewrite Hp. reflexivity.
  - intros H. rewrite (N comports H). reflexivity.
Qed.

Lemma detect_port_first_match_overrides_preferred :
  ArduinoController._detect_port Py.lower_ascii
    [{| ArduinoController.device := "/dev/ttyS0";
        ArduinoController.description := "n/a" |};
     {| ArduinoController.device := "/dev/ttyUSB0";
        ArduinoController.description := "USB2.0-Serial CH340" |};
     {| ArduinoController.device := "/dev/ttyACM0";
        ArduinoController.description := "Arduino Uno" |}]
    "/dev/ttyACM0"
  = "/dev/ttyUSB0".
Proof.
  exact (proj1 (detect_port_first_match Py.lower_ascii _ "/dev/ttyACM0")
           [{| ArduinoController.device := "/dev/ttyS0";
               ArduinoController.description := "n/a" |}]
           {| ArduinoController.device := "/dev/ttyUSB0";
              ArduinoController.description := "USB2.0-Serial CH340" |}
           [{| ArduinoController.device := "/dev/ttyACM0";
               ArduinoController.description := "Arduino Uno" |}]
           eq_refl eq_refl eq_refl).
Defined.

(** ** After [disconnect] *)

(** [disconnect] closes an open port and keeps the closed port as the
    connection.  From then on every [send_command] returns false and writes
    nothing, a second [disconnect] changes nothing, and [perform_gesture]
    still returns true for every gesture it knows. *)
Theorem after_disconnect (self : ArduinoController.t) (p : Serial.port) :
  ArduinoController.connection self = Some p ->
  Serial.is_open p = true ->
  let self' := ArduinoController.mk (Some (Serial.close p)) in
  ArduinoController.disconnect self = (Py.Return tt, self')
  /\ ArduinoController.disconnect self' = (Py.Return tt, self')
  /\ ArduinoController.wire self' = ArduinoController.wire self
  /\ (forall command,
         ArduinoController.send_command command self' = (Py.Return false, self'))
  /\ (forall gesture_name r1 r2,
         Py.get gesture_name (Gestures.gestures r1 r2) <> None ->
         Gestures.perform_gesture gesture_name r1 r2 self'
         = (Py.Return true, self')).
Proof.
  intros C O. cbv zeta.
  assert (S : forall command,
             ArduinoController.send_command command
               (ArduinoController.mk (Some (Serial.close p)))
             = (Py.Return false, ArduinoController.mk (Some (Serial.close p)))).
  { intros command. reflexivity. }
  assert (X : forall c,
             ArduinoController.exec c (ArduinoController.mk (Some (Serial.close p)))
             = (Py.Return tt, ArduinoController.mk (Some (Serial.close p)))).
  { intros [command|servo angle|ms]; cbn [ArduinoController.exec].
    - unfold Py.bind, Py.ret. now rewrite S.
    - unfold Py.bind, Py.ret, ArduinoController.move_servo.
      destruct (negb _); [reflexivity|]. now rewrite S.
    - reflexivity. }
  assert (R : forall body,
             ArduinoController.run body (ArduinoController.mk (Some (Serial.close p)))
             = (Py.Return tt, ArduinoController.mk (Some (Serial.close p)))).
  { induction body as [|c body IH]; cbn [ArduinoController.run]; [reflexivity|].
    unfold Py.bind. now rewrite X. }
  split; [|split; [|split; [|split]]].
  - unfold ArduinoController.disconnect. now rewrite C, O.
  - reflexivity.
  - unfold ArduinoController.wire. now rewrite C.
  - exact S.
  - intros gesture_name r1 r2 G. unfold Gestures.perform_gesture.
    destruct (Py.get gesture_name (Gestures.gestures r1 r2)) as [body|];
      [|now elim G].
    unfold Py.bind, Py.ret. now rewrite R.
Qed.

Lemma after_disconnect_send_fails :
  ArduinoController.send_command "yes"
    (ArduinoController.mk (Some (Serial.close Serial.fresh)))
  = (Py.Return false, ArduinoController.mk (Some (Serial.close Serial.fresh))).
Proof.
  exact (proj1 (proj2 (proj2 (proj2
           (after_disconnect (ArduinoController._connect (Some Serial.fresh))
              Serial.fresh eq_refl eq_refl)))) "yes").
Defined.

(** ** The commands of the API server on the wire *)

Lemma send_servo_command_writable (pin angle : Z) (p : Serial.port) :
  Serial.writable p ->
  exists b p',
    PiServer.send_servo_command pin angle (Some p) = (b, Some p')
    /\ Serial.writable p'
    /\ Serial.written p'
       = (Serial.written p
            ++ [(Py.str pin ++ ":" ++ Py.str angle ++ Py.nl)%string])%list.
Proof.
  intros W. pose proof W as [O F].
  destruct (write_writable (Py.str pin ++ ":" ++ Py.str angle ++ Py.nl) p W)
    as [p' [E [[O' F'] Wr]]].
  unfold PiServer.send_servo_command. rewrite O. cbn [negb]. cbv zeta.
  rewrite E.
  destruct (Serial.in_waiting p') as [|ack rest] eqn:I.
  - exists true, p'. repeat split; assumption.
  - unfold Serial.readline. rewrite I.
    destruct (Py.decode ack);
      (eexists _, _; split; [reflexivity|]; repeat split; assumption).
Qed.

Lemma servo_pins_nonzero (servo : string) (pin : Z) :
  Py.get servo PiServer.SERVO_PINS = Some pin -> (pin =? 0) = false.
Proof.
  unfold PiServer.SERVO_PINS. cbn [Py.get].
  repeat match goal with
         | |- context [String.eqb ?a ?b] => destruct (String.eqb a b)
         end; intros G; inversion G; reflexivity.
Qed.

Lemma run_sequence_writable (sequence : list (string * Z)) :
  forall p : Serial.port,
    Serial.writable p ->
    exists p',
      PiServer.run_sequence sequence (Some p) = Some p'
      /\ Serial.writable p'
      /\ Serial.written p'
         = (Serial.written p ++ flat_map step_line sequence)%list.
Proof.
  induction sequence as [|[servo angle] sequence IH]; intros p W;
    cbn [PiServer.run_sequence flat_map].
  - exists p. now rewrite app_nil_r.
  - unfold step_line at 1. cbn [fst snd].
    destruct (Py.get servo PiServer.SERVO_PINS) as [pin|] eqn:G.
    + rewrite (servo_pins_nonzero servo pin G).
      destruct (send_servo_command_writable pin angle p W)
        as [b [p1 [E [W1 Wr1]]]].
      rewrite E. cbn [snd].
      destruct (IH p1 W1) as [p2 [E2 [W2 Wr2]]].
      exists p2. split; [exact E2|]. split; [exact W2|].
      rewrite Wr2, Wr1, <- app_assoc. reflexivity.
    + cbn [app]. apply IH, W.
Qed.

(** Every step of every sequence of [GESTURES] names a servo of
    [SERVO_PINS], and the last angle a sequence gives a servo is 90. *)
Lemma pi_gestures_table (gesture_name : string)
      (sequence : list (string * Z)) :
  Py.get gesture_name PiServer.GESTURES = Some sequence ->
  Forall (fun step => Py.get (fst step) PiServer.SERVO_PINS <> None) sequence
  /\ (forall servo a, last_angle servo sequence = Some a -> a = 90).
Proof.
  unfold PiServer.GESTURES. cbn [Py.get].
  repeat match goal with
         | |- context [String.eqb ?a ?b] => destruct (String.eqb a b)
         end;
    intros H; inversion H; subst; clear H.
  all: split; [repeat constructor; discriminate|].
  all: intros servo a; cbn [last_angle];
    repeat match goal with
           | |- context [String.eqb ?a ?b] => destruct (String.eqb a b)
           end; intros H; inversion H; reflexivity.
Qed.

(** On a healthy port a gesture of the API server writes one [pin:angle]
    line for each step of its sequence, in order, whatever the device
    answers: no step is skipped for a servo without a pin.  [control_servo]
    writes nothing for a servo it does not know and reports failure; for one
    it knows it writes the angle as it was given. *)
Theorem pi_commands_on_the_wire :
  (forall gesture_name sequence p,
      Py.get gesture_name PiServer.GESTURES = Some sequence ->
      Serial.writable p ->
      exists p',
        PiServer.perform_gesture gesture_name (Some p) = (true, Some p')
        /\ Serial.writable p'
        /\ Serial.written p'
           = (Serial.written p ++ flat_map step_line sequence)%list
        /\ List.length (flat_map step_line sequence) = List.length sequence)
  /\ (forall servo angle arduino,
         Py.get servo PiServer.SERVO_PINS = None ->
         PiServer.control_servo servo angle arduino = (false, arduino))
  /\ (forall servo pin angle p,
         Py.get servo PiServer.SERVO_PINS = Some pin ->
         Serial.writable p ->
         exists b p',
           PiServer.control_servo servo angle (Some p) = (b, Some p')
           /\ Serial.written p'
              = (Serial.written p
                   ++ [(Py.str pin ++ ":" ++ Py.str angle ++ Py.nl)%string])%list).
Proof.
  split; [|split].
  - intros gesture_name sequence p G W.
    unfold PiServer.perform_gesture. rewrite G.
    destruct (run_sequence_writable sequence p W) as [p' [E [W' Wr]]].
    exists p'. rewrite E. repeat split; try assumption; try apply W'.
    destruct (pi_gestures_table gesture_name sequence G) as [K _].
    clear - K. induction K as [|[servo angle] l H K IH]; [reflexivity|].
    cbn [flat_map]. rewrite length_app, IH. unfold step_line.
    cbn [fst snd] in *.
    destruct (Py.get servo PiServer.SERVO_PINS); [reflexivity | now elim H].
  - intros servo angle arduino G. unfold PiServer.control_servo.
    now rewrite G.
  - intros servo pin angle p G W. unfold PiServer.control_servo.
    rewrite G, (servo_pins_nonzero servo pin G).
    destruct (send_servo_command_writable pin angle p W) as [b [p' [E [_ Wr]]]].
    exists b, p'. split; assumption.
Qed.

Lemma pi_commands_on_the_wire_nod :
  exists p',
    PiServer.perform_gesture "nod" (Some Serial.fresh) = (true, Some p')
    /\ Serial.writable p'
    /\ Serial.written p'
       = (Serial.written Serial.fresh
            ++ flat_map step_line
                 [("pan", 105); ("pan", 75); ("pan", 105); ("pan", 75);
                  ("pan", 90)])%list
    /\ List.length
         (flat_map step_line
            [("pan", 105); ("pan", 75); ("pan", 105); ("pan", 75); ("pan", 90)])
       = List.length
           [("pan", 105); ("pan", 75); ("pan", 105); ("pan", 75); ("pan", 90)].
Proof.
  exact (proj1 pi_commands_on_the_wire "nod" _ Serial.fresh eq_refl
           (conj eq_refl eq_refl)).
Defined.

(** ** Where a gesture leaves the servos *)

Lemma natural_movement_returns_home (r1 r2 : nat) (servo : string) (a : Z) :
  last_move servo (ArduinoController.natural_movement_body r1 r2) = Some a ->
  Py.get servo Config.SERVO_HOME_POSITIONS = Some a.
Proof.
  unfold ArduinoController.natural_movement_body. cbv zeta. cbn [last_move].
  destruct (natural_servo_cases r1) as [E|[E|E]]; rewrite E;
    destruct (String.eqb _ servo) eqn:Q; try discriminate;
    apply String.eqb_eq in Q; subst servo; intros H; inversion H; reflexivity.
Qed.

Lemma gestures_return_home (gesture_name : string) (r1 r2 : nat)
      (body : list ArduinoController.call) (servo : string) (a : Z) :
  Py.get gesture_name (Gestures.gestures r1 r2) = Some body ->
  last_move servo body = Some a ->
  Py.get servo Config.SERVO_HOME_POSITIONS = Some a.
Proof.
  unfold Gestures.gestures. cbn [Py.get].
  repeat match goal with
         | |- context [String.eqb ?a ?b] => destruct (String.eqb a b)
         end;
    intros H; inversion H; subst; clear H;
    try apply natural_movement_returns_home.
  all: cbn [last_move Gestures.gesture_yes Gestures.gesture_no
              Gestures.gesture_neutral Gestures.gesture_head_tilt
              Gestures.gesture_thinking Gestures.gesture_wave
              Gestures.gesture_excited flat_map app seq];
    repeat match goal with
           | |- context [String.eqb ?a ?b] =>
               let Q := fresh "Q" in
               destruct (String.eqb a b) eqn:Q;
               [try (apply String.eqb_eq in Q; subst)
               |try (vm_compute in Q; discriminate Q)]
           end;
    intros H; inversion H; reflexivity.
Qed.

(** Every gesture ends with each servo it moved back where it rests.  In
    the class, whichever gesture [perform_gesture] or
    [interpret_response_gesture] performs, the last angle it gives a servo
    is that servo's home position; in the API server the last angle a
    sequence gives a servo is 90. *)
Theorem gestures_end_at_rest :
  (forall gesture_name r1 r2 body servo a,
      Py.get gesture_name (Gestures.gestures r1 r2) = Some body ->
      last_move servo body = Some a ->
      Py.get servo Config.SERVO_HOME_POSITIONS = Some a)
  /\ (forall lower ai_response chance r1 r2 servo a,
         last_move servo
           (Gestures.response_gesture lower ai_response chance r1 r2) = Some a ->
         Py.get servo Config.SERVO_HOME_POSITIONS = Some a)
  /\ (forall gesture_name sequence servo a,
         Py.get gesture_name PiServer.GESTURES = Some sequence ->
         last_angle servo sequence = Some a ->
         a = 90).
Proof.
  split; [|split].
  - intros *. apply gestures_return_home.
  - intros lower ai_response chance r1 r2 servo a.
    unfold Gestures.response_gesture. cbv zeta.
    destruct (Py.any_in _ _);
      [apply (gestures_return_home "yes" 0 0); reflexivity|].
    destruct (Py.any_in _ _);
      [apply (gestures_return_home "no" 0 0); reflexivity|].
    destruct (Py.any_in _ _);
      [apply (gestures_return_home "thinking" 0 0); reflexivity|].
    destruct (Py.any_in _ _);
      [apply (gestures_return_home "excited" 0 0); reflexivity|].
    destruct (_ <? _)%nat; [apply natural_movement_returns_home | discriminate].
  - intros gesture_name sequence servo a G.
    apply (proj2 (pi_gestures_table gesture_name sequence G)).
Qed.

Lemma gestures_end_at_rest_wave :
  last_move "right_arm" Gestures.gesture_wave = Some 135
  /\ Py.get "right_arm" Config.SERVO_HOME_POSITIONS = Some 135.
Proof.
  split; [reflexivity|].
  exact (proj1 gestures_end_at_rest "wave" 0%nat 0%nat Gestures.gesture_wave
           "right_arm" 135 eq_refl eq_refl).
Defined.

(** ** The gesture the API server performs and the one it reports *)

(** The reply of [chat] names [nod], [shake] or [rest].  For the gestures
    [yes], [no], [neutral], the empty string and [None] that is the gesture
    [execute_gesture] performed; for any other string nothing was performed,
    and the reply still names [rest]. *)
Theorem executed_and_reported_gesture (gesture : option string)
        (arduino : PiServer.t) :
  In (PiServer.reported_gesture gesture) ["nod"; "shake"; "rest"]
  /\ (In gesture [None; Some ""; Some "yes"; Some "no"; Some "neutral"] ->
      PiServer.execute_gesture gesture arduino
      = snd (PiServer.perform_gesture (PiServer.reported_gesture gesture)
               arduino))
  /\ (~ In gesture [None; Some ""; Some "yes"; Some "no"; Some "neutral"] ->
      PiServer.execute_gesture gesture arduino = arduino
      /\ PiServer.reported_gesture gesture = "rest").
Proof.
  split; [|split].
  - destruct gesture as [g|]; cbn [PiServer.reported_gesture];
      [|right; right; now left].
    unfold PiServer.gesture_map. cbn [Py.get].
    repeat match goal with
           | |- context [String.eqb ?a ?b] => destruct (String.eqb a b)
           end; cbn [In]; auto.
  - cbn [In]. intros [<-|[<-|[<-|[<-|[<-|[]]]]]]; reflexivity.
  - intros N. destruct gesture as [g|]; [|elim N; now left].
    cbn [PiServer.execute_gesture PiServer.reported_gesture].
    unfold PiServer.gesture_map. cbn [Py.get].
    destruct (String.eqb g "") eqn:E1;
      [apply String.eqb_eq in E1; subst; elim N; cbn; auto|].
    destruct (String.eqb g "neutral") eqn:E2;
      [apply String.eqb_eq in E2; subst; elim N; cbn; auto 10|].
    destruct (String.eqb g "yes") eqn:E3;
      [apply String.eqb_eq in E3; subst; elim N; cbn; auto 10|].
    destruct (String.eqb g "no") eqn:E4;
      [apply String.eqb_eq in E4; subst; elim N; cbn; auto 10|].
    cbn [orb]. split; reflexivity.
Qed.

Lemma executed_and_reported_gesture_maybe :
  PiServer.execute_gesture (Some "maybe") (Some Serial.fresh) = Some Serial.fresh
  /\ PiServer.reported_gesture (Some "maybe") = "rest".
Proof.
  apply (proj2 (proj2 (executed_and_reported_gesture (Some "maybe")
                         (Some Serial.fresh)))).
  cbn [In]. intros [H|[H|[H|[H|[H|[]]]]]]; discriminate H.
Defined.

(** ** When the script's first idle movement comes *)

Lemma idle_movement_timing (rng : nat -> nat -> Py.draws) (w : Rufus.t) :
  Rufus.threads w = [Rufus.Sleeping 1] ->
  Rufus.idle_animation_running w = true ->
  Rufus.conversation_locked w = false ->
  (exists q, Rufus.arduino w = Some q /\ Serial.writable q) ->
  exists servo limits r,
    Py.get servo Rufus.SERVO_LIMITS = Some limits
    /\ Rufus.trace (Rufus.ticks rng 1 w)
       = (Rufus.trace w
            ++ [Trace.Call (Trace.Idle 0)
                  (servo ++ "_" ++ Py.str (Rufus.idle_target limits r))])%list
    /\ Rufus.trace (Rufus.ticks rng 6 w) = Rufus.trace (Rufus.ticks rng 1 w)
    /\ Rufus.trace (Rufus.ticks rng 7 w)
       = (Rufus.trace (Rufus.ticks rng 1 w)
            ++ [Trace.Call (Trace.Idle 0)
                  (servo ++ "_" ++ Py.str (Rufus.rest limits))])%list.
Proof.
  intros Ht Hr Hl (q & Ha & Hq).
  set (d := rng (Rufus.clock w) 0%nat).
  destruct (idle_servo_limits (Py.servo_draw d)) as (limits & Hget).
  set (servo := Py.choice "" ["head"; "left_arm"; "right_arm"] (Py.servo_draw d))
    in *.
  exists servo, limits, (Py.offset_draw d). split; [exact Hget|].
  set (cmd1 := servo ++ "_"
                 ++ Py.str (Rufus.idle_target limits (Py.offset_draw d))).
  set (cmd2 := servo ++ "_" ++ Py.str (Rufus.rest limits)).
  destruct (call_writable (Trace.Idle 0) cmd1 w q Ha Hq) as (q1 & Hcall1 & Hq1).
  assert (H1 : Rufus.tick rng w
               = Rufus.set_clock (S (Rufus.clock w))
                   (Rufus.set_threads [Rufus.Holding servo limits 6]
                      (Rufus.log (Trace.Call (Trace.Idle 0) cmd1)
                         (Rufus.set_arduino (Some q1) w)))).
  { rewrite (tick_single rng w _ Ht). cbn [Rufus.advance].
    rewrite Hr. cbn [negb]. unfold Rufus.after_sleep. rewrite Hl, Ha.
    fold d. fold servo. rewrite Hget. fold cmd1. rewrite Hcall1. reflexivity. }
  set (w1 := Rufus.tick rng w) in *.
  assert (H6 : Rufus.ticks rng 5 w1
               = Rufus.set_clock (6 + Rufus.clock w)
                   (Rufus.set_threads [Rufus.Holding servo limits 1]
                      (Rufus.log (Trace.Call (Trace.Idle 0) cmd1)
                         (Rufus.set_arduino (Some q1) w)))).
  { rewrite H1. reflexivity. }
  set (w6 := Rufus.ticks rng 5 w1) in *.
  assert (Ha6 : Rufus.arduino w6 = Some q1) by (rewrite H6; reflexivity).
  destruct (call_writable (Trace.Idle 0) cmd2 w6 q1 Ha6 Hq1)
    as (q2 & Hcall2 & Hq2).
  assert (H7 : Rufus.tick rng w6
               = Rufus.set_clock (S (Rufus.clock w6))
                   (Rufus.set_threads [Rufus.Settling]
                      (Rufus.log (Trace.Call (Trace.Idle 0) cmd2)
                         (Rufus.set_arduino (Some q2) w6)))).
  { rewrite (tick_single rng w6 (Rufus.Holding servo limits 1))
      by (rewrite H6; reflexivity).
    cbn [Rufus.advance]. fold cmd2. rewrite Hcall2. reflexivity. }
  change (Rufus.ticks rng 1 w) with w1.
  change (Rufus.ticks rng 6 w) with w6.
  change (Rufus.ticks rng 7 w) with (Rufus.tick rng w6).
  assert (T1 : Rufus.trace w1
               = (Rufus.trace w ++ [Trace.Call (Trace.Idle 0) cmd1])%list)
    by (subst w1; rewrite H1; reflexivity).
  assert (T6 : Rufus.trace w6 = Rufus.trace w1)
    by (rewrite T1, H6; reflexivity).
  split; [exact T1|]. split; [exact T6|].
  rewrite H7. cbn [Rufus.set_clock Rufus.set_threads Rufus.log Rufus.set_arduino
                     Rufus.trace]. now rewrite T6.
Qed.

(** Started on a healthy port and left alone, the script's idle thread sends
    nothing for the interval it drew, which is between
    [IDLE_ANIMATION_MIN] and [IDLE_ANIMATION_MAX] seconds; then it sends one
    servo command, and 0.6s later the return of that servo to its rest
    position. *)
Theorem first_idle_movement (rng : nat -> nat -> Py.draws) (p : Serial.port) :
  Serial.writable p ->
  let w := Rufus.start_idle_animations rng (Rufus.init (Some p)) in
  let calls := fun n => Trace.idle_calls (Rufus.trace (Rufus.ticks rng n w)) in
  exists n servo limits r,
    (10 * Rufus.IDLE_ANIMATION_MIN <= n <= 10 * Rufus.IDLE_ANIMATION_MAX)%nat
    /\ Py.get servo Rufus.SERVO_LIMITS = Some limits
    /\ calls (n - 1)%nat = []
    /\ calls n = [servo ++ "_" ++ Py.str (Rufus.idle_target limits r)]
    /\ calls (n + 5)%nat = calls n
    /\ calls (n + 6)%nat
       = [servo ++ "_" ++ Py.str (Rufus.idle_target limits r);
          servo ++ "_" ++ Py.str (Rufus.rest limits)].
Proof.
  intros W. cbv zeta.
  set (w := Rufus.start_idle_animations rng (Rufus.init (Some p))).
  set (n := Py.uniform_slices Rufus.IDLE_ANIMATION_MIN Rufus.IDLE_ANIMATION_MAX
              (Py.interval_draw (rng 0%nat 0%nat))).
  assert (B : (10 * Rufus.IDLE_ANIMATION_MIN <= n
               <= 10 * Rufus.IDLE_ANIMATION_MAX)%nat).
  { apply uniform_slices_range.
    unfold Rufus.IDLE_ANIMATION_MIN, Rufus.IDLE_ANIMATION_MAX. lia. }
  destruct (script_send_writable "rest" p W) as [q [E [Wq _]]].
  assert (A : Rufus.arduino w = Some q).
  { subst w. unfold Rufus.start_idle_animations, Rufus.init, Rufus.open_arduino.
    cbn [Rufus.idle_animation_running].
    unfold Serial.Serial. destruct W as [O F].
    replace (Serial.mk true (Serial.fault p) (Serial.written p)
               (Serial.in_waiting p) (Serial.respond p)) with p
      by (destruct p; cbn in *; now subst).
    rewrite E. reflexivity. }
  assert (Ht : Rufus.threads w = [Rufus.Sleeping n]) by reflexivity.
  assert (Hr : Rufus.idle_animation_running w = true) by reflexivity.
  assert (Hl : Rufus.conversation_locked w = false) by reflexivity.
  assert (Tr : Rufus.trace w = [Trace.Signal true; Trace.Spawn 0]) by reflexivity.
  unfold Rufus.IDLE_ANIMATION_MIN in B.
  destruct n as [|k] eqn:En; [lia|].
  destruct (sleep_through rng k w Ht Hr (ex_intro _ q (conj A Wq)))
    as (S1 & S2 & S3 & S4 & S5 & S6).
  set (w' := Rufus.ticks rng k w) in *.
  destruct (idle_movement_timing rng w' S1 (eq_trans S2 Hr) (eq_trans S3 Hl) S6)
    as (servo & limits & r & G & T1 & T6 & T7).
  exists (S k), servo, limits, r.
  split; [exact B|]. split; [exact G|].
  replace (S k - 1)%nat with k by lia.
  replace (S k) with (k + 1)%nat by lia.
  replace (k + 1 + 5)%nat with (k + 6)%nat by lia.
  replace (k + 1 + 6)%nat with (k + 7)%nat by lia.
  rewrite !ticks_add. fold w'.
  rewrite T7, T6, T1, S5, Tr, app_nil_r.
  repeat split; reflexivity.
Qed.

Lemma first_idle_movement_zero_draws :
  let w := Rufus.start_idle_animations zero_draws
             (Rufus.init (Some Serial.fresh)) in
  let calls :=
    fun n => Trace.idle_calls (Rufus.trace (Rufus.ticks zero_draws n w)) in
  exists n servo limits r,
    (10 * Rufus.IDLE_ANIMATION_MIN <= n <= 10 * Rufus.IDLE_ANIMATION_MAX)%nat
    /\ Py.get servo Rufus.SERVO_LIMITS = Some limits
    /\ calls (n - 1)%nat = []
    /\ calls n = [servo ++ "_" ++ Py.str (Rufus.idle_target limits r)]
    /\ calls (n + 5)%nat = calls n
    /\ calls (n + 6)%nat
       = [servo ++ "_" ++ Py.str (Rufus.idle_target limits r);
          servo ++ "_" ++ Py.str (Rufus.rest limits)].
Proof.
  exact (first_idle_movement zero_draws Serial.fresh (conj eq_refl eq_refl)).
Defined.

(** ** The script's idle animation without a port *)

Lemma advance_simulated (i : nat) (d : Py.draws) (p : Rufus.pc) (w : Rufus.t) :
  Rufus.arduino w = None ->
  quiet p = true ->
  exists p', Rufus.advance i d p w = (p', w) /\ quiet p' = true.
Proof.
  intros Ha Hq. destruct p as [k | servo limits k | |]; try discriminate.
  - cbn [Rufus.advance].
    destruct (negb (Rufus.idle_animation_running w)); [now exists Rufus.Done |].
    unfold Rufus.after_sleep. rewrite Ha.
    destruct (Rufus.conversation_locked w);
      destruct k as [| [| k']]; eauto using loop_head_quiet.
  - now exists Rufus.Done.
Qed.

Lemma advance_all_simulated (rng : nat -> nat -> Py.draws)
      (ps : list Rufus.pc) :
  forall (i : nat) (w : Rufus.t),
    Rufus.arduino w = None ->
    forallb quiet ps = true ->
    exists ps', Rufus.advance_all rng i ps w = (ps', w)
                /\ forallb quiet ps' = true.
Proof.
  induction ps as [| p ps IH]; intros i w Ha Hq.
  - now exists [].
  - cbn [forallb] in Hq. apply andb_prop in Hq as [Hp Hps].
    cbn [Rufus.advance_all].
    destruct (advance_simulated i (rng (Rufus.clock w) i) p w Ha Hp)
      as (p' & -> & Hp').
    destruct (IH (S i) w Ha Hps) as (ps' & -> & Hps').
    exists (p' :: ps'). cbn [forallb]. now rewrite Hp', Hps'.
Qed.

Lemma tick_simulated (rng : nat -> nat -> Py.draws) (w : Rufus.t) :
  simulated w ->
  simulated (Rufus.tick rng w) /\ Rufus.trace (Rufus.tick rng w) = Rufus.trace w.
Proof.
  intros [Ha Hq]. unfold Rufus.tick.
  destruct (advance_all_simulated rng (Rufus.threads w) 0 w Ha Hq)
    as (ps' & -> & Hq').
  split; [split |]; assumption || reflexivity.
Qed.

Lemma join_simulated (rng : nat -> nat -> Py.draws) (t : nat) :
  forall (i : nat) (w : Rufus.t),
    simulated w ->
    simulated (Rufus.join rng t i w)
    /\ Trace.idle_calls (Rufus.trace (Rufus.join rng t i w))
       = Trace.idle_calls (Rufus.trace w).
Proof.
  assert (Hlog : forall b i w,
             simulated w ->
             simulated (Rufus.log (Trace.Join i b) w)
             /\ Trace.idle_calls (Rufus.trace (Rufus.log (Trace.Join i b) w))
                = Trace.idle_calls (Rufus.trace w)).
  { intros b i w Hg. split; [exact Hg |].
    cbn [Rufus.log Rufus.trace]. rewrite idle_calls_app. apply app_nil_r. }
  induction t as [| t IH]; intros i w Hg; cbn [Rufus.join];
    destruct (Rufus.terminated i w); auto.
  destruct (tick_simulated rng w Hg) as [Hg' Htr].
  destruct (IH i (Rufus.tick rng w) Hg') as [Hg'' ->].
  now rewrite Htr.
Qed.

Lemma do_step_simulated (rng : nat -> nat -> Py.draws) (s : Rufus.step)
      (w : Rufus.t) :
  simulated w ->
  simulated (Rufus.do_step rng s w)
  /\ Trace.idle_calls (Rufus.trace (Rufus.do_step rng s w))
     = Trace.idle_calls (Rufus.trace w).
Proof.
  intros Hg. destruct s as [| | | cmd | |]; cbn [Rufus.do_step].
  - destruct (tick_simulated rng w Hg) as [Hg' ->]. auto.
  - split; [exact Hg|].
    cbn [Rufus.set_locked Rufus.trace]. rewrite idle_calls_app.
    apply app_nil_r.
  - split; [exact Hg|].
    cbn [Rufus.set_locked Rufus.trace]. rewrite idle_calls_app.
    apply app_nil_r.
  - unfold Rufus.main_send, Rufus.call. destruct Hg as [Ha Hq]. rewrite Ha.
    cbn [Rufus.write_ok Rufus.send_command snd].
    split; [split; [reflexivity | exact Hq]|].
    cbn [Rufus.log Rufus.trace Rufus.set_arduino].
    rewrite idle_calls_app. apply app_nil_r.
  - unfold Rufus.start_idle_animations.
    destruct (Rufus.idle_animation_running w); [auto |].
    destruct Hg as [Ha Hq]. split; [split; [exact Ha |] |].
    + cbn [Rufus.log Rufus.set_threads Rufus.set_running Rufus.threads].
      rewrite forallb_app, Hq. cbn [forallb]. now rewrite loop_head_quiet.
    + cbn [Rufus.log Rufus.set_threads Rufus.set_running Rufus.trace].
      rewrite !idle_calls_app. cbn. now rewrite !app_nil_r.
  - unfold Rufus.stop_idle_animations.
    assert (Hg1 : simulated (Rufus.set_running false w)) by exact Hg.
    assert (Ht1 : Trace.idle_calls (Rufus.trace (Rufus.set_running false w))
                  = Trace.idle_calls (Rufus.trace w)).
    { cbn [Rufus.set_running Rufus.trace]. rewrite idle_calls_app.
      apply app_nil_r. }
    destruct (Rufus.threads (Rufus.set_running false w)); [auto |].
    destruct (join_simulated rng 20 (List.length (p :: l) - 1)
                (Rufus.set_running false w) Hg1) as [Hg' ->].
    auto.
Qed.

(** When the port could not be opened the script's idle animation never
    calls [send_command], whatever the main thread does and however long it
    runs: the loop goes back to sleep at [if arduino:].  The port stays
    absent. *)
Theorem simulation_idle_animation_silent (rng : nat -> nat -> Py.draws)
        (l : list Rufus.step) :
  Trace.idle_calls (Rufus.trace (Rufus.do_steps rng l (Rufus.init None))) = []
  /\ Rufus.arduino (Rufus.do_steps rng l (Rufus.init None)) = None.
Proof.
  assert (G : forall l w,
             simulated w ->
             simulated (Rufus.do_steps rng l w)
             /\ Trace.idle_calls (Rufus.trace (Rufus.do_steps rng l w))
                = Trace.idle_calls (Rufus.trace w)).
  { clear l. induction l as [|s l IH]; intros w Hg; [auto|].
    cbn [Rufus.do_steps].
    destruct (do_step_simulated rng s w Hg) as [Hg' <-]. now apply IH. }
  destruct (G l (Rufus.init None) (conj eq_refl eq_refl)) as [[Ha _] ->].
  split; [reflexivity | exact Ha].
Qed.
